(** * The meta path based loader of compiled, bytecode and extension modules

    A shallow embedding of [nuitka/build/static_src/MetaPathBasedLoader.cpp]:
    the table look-ups, the legacy and the modern finder, the trigger
    dispatch, the three loading strategies and the registration.

    Conventions.
    - A C string is the [string] of its bytes before the terminator;
      [strcmp (a, b) == 0] is equality of such strings.
    - [strcpy], [strcat] and [copyModulenameAsPath] write without a bound: a
      string that does not fit its destination array with its terminator is
      written past the end of the array, which has no defined behaviour and
      ends the run with [Undefined].  [snprintf] is bounded by its size
      argument and cuts its output; the model cuts too.
    - [assert] is the checked macro of [<assert.h>]; a NULL pointer that is
      dereferenced or called has no defined behaviour and ends the run with
      [Undefined].
    - A method of the loader starts with [PyArg_ParseTupleAndKeywords]; the
      model takes what the interpreter makes of the arguments as its input:
      the refusal with its error, or the object stored as [module_name].
    - Diagnostic lines written under [Py_VerboseFlag] are not modelled; they
      do not influence the control flow.
    - Every call the loader makes into the interpreter, into user code or into
      the dynamic linker is appended to a trace, together with the interpreter
      state at the moment of the call.  Code run by such a call may import
      further modules; a nested load is part of what the callee does to the
      interpreter state and has no events of its own. *)

From stdpp Require Import base strings gmap list.
From Stdlib Require Import ZArith Lia Ascii.

Set Warnings "-register-all".
Local Open Scope Z_scope.

(** ** C strings *)

Module CString.

(** [strrchr (s, c)]: the suffix of [s] that starts at the last [c], or NULL. *)
Fixpoint strrchr (s : string) (c : ascii) : option string :=
  match s with
  | EmptyString => None
  | String a s' =>
      match strrchr s' c with
      | Some r => Some r
      | None => if Ascii.eqb a c then Some s else None
      end
  end.

(** [p + 1] for a pointer [p] into a string. *)
Definition next (p : string) : string :=
  match p with
  | EmptyString => EmptyString
  | String _ s' => s'
  end.

Fixpoint take (n : nat) (s : string) : string :=
  match n, s with
  | O, _ => EmptyString
  | _, EmptyString => EmptyString
  | S n', String a s' => String a (take n' s')
  end.

(** [snprintf (buf, size, "<fmt>%s", arg)]: at most [size - 1] bytes are
    stored, followed by the terminator. *)
Definition snprintf (size : nat) (prefix arg : string) : string :=
  take (Nat.pred size) (prefix +:+ arg).

Definition contains (c : ascii) (s : string) : Prop :=
  c ∈ String.list_ascii_of_string s.

End CString.

(** ** The entry table *)

Definition InitFunc := positive.
Definition EntryPoint := positive.
Definition LibHandle := positive.
Definition CodeObject := positive.

(** One element of the table the compiler emits.  The struct is declared in
    [nuitka/unfreezing.hpp]; the fields are the ones this file reads. *)
Module Entry.
Record t := make {
  name : string;
  python_initfunc : option InitFunc;
  bytecode_str : list Z;
  bytecode_size : Z;
  flags : Z
}.
End Entry.

(** ** Python objects, as far as the loader looks into them *)

Record LoaderClass := { loader_methods : list string }.

Inductive PyObj :=
| Py_None
| PyStr (s : string)
| PyList (items : list (option PyObj))
| PyModule (addr : positive)
| PyLoader (cls : LoaderClass)
| PyModuleSpec (fullname : string) (loader : PyObj)
| PyOther (addr : positive).

(** The errors the loader signals itself, and [UserError] for an error of
    other code.  [SystemExit], which makes [PyErr_Print] leave the process, is
    not among them. *)
Inductive PyExc :=
| ImportError (msg : string)
| SystemError (msg : string)
| KeyError (key : string)
| MemoryError
| UserError (tag : positive).

(** The outcome of [PyArg_ParseTupleAndKeywords] on the arguments of a call:
    the interpreter refuses them and signals an error, or it stores the first
    argument, an object of any kind, as [module_name]. *)
Inductive Parse :=
| Refused (e : PyExc)
| Parsed (module_name : PyObj).

(** A module object: its name, its namespace and, for an extension module,
    the [m_init] slot of its definition. *)
Record ModuleObject := {
  md_name : string;
  md_dict : gmap string PyObj;
  md_def : option (option EntryPoint)
}.

(** ** The interpreter state *)

Record Host := mkHost {
  sys_modules : gmap string PyObj;
  module_heap : gmap positive ModuleObject;
  error_indicator : option PyExc;
  _Py_PackageContext : option string;
  PyImport_FrozenModules : list string;
  dlopenflags : Z;
  error_mode : Z;
  sys_meta_path : list PyObj
}.

Definition with_sys_modules (f : gmap string PyObj → gmap string PyObj) (h : Host) : Host :=
  mkHost (f (sys_modules h)) (module_heap h) (error_indicator h) (_Py_PackageContext h)
         (PyImport_FrozenModules h) (dlopenflags h) (error_mode h) (sys_meta_path h).

Definition with_module_heap (f : gmap positive ModuleObject → gmap positive ModuleObject)
    (h : Host) : Host :=
  mkHost (sys_modules h) (f (module_heap h)) (error_indicator h) (_Py_PackageContext h)
         (PyImport_FrozenModules h) (dlopenflags h) (error_mode h) (sys_meta_path h).

Definition with_error_indicator (e : option PyExc) (h : Host) : Host :=
  mkHost (sys_modules h) (module_heap h) e (_Py_PackageContext h)
         (PyImport_FrozenModules h) (dlopenflags h) (error_mode h) (sys_meta_path h).

Definition with_package_context (c : option string) (h : Host) : Host :=
  mkHost (sys_modules h) (module_heap h) (error_indicator h) c
         (PyImport_FrozenModules h) (dlopenflags h) (error_mode h) (sys_meta_path h).

Definition with_error_mode (m : Z) (h : Host) : Host :=
  mkHost (sys_modules h) (module_heap h) (error_indicator h) (_Py_PackageContext h)
         (PyImport_FrozenModules h) (dlopenflags h) m (sys_meta_path h).

Definition with_sys_meta_path (l : list PyObj) (h : Host) : Host :=
  mkHost (sys_modules h) (module_heap h) (error_indicator h) (_Py_PackageContext h)
         (PyImport_FrozenModules h) (dlopenflags h) (error_mode h) l.

(** ** Attributes *)

Definition set_attr (attr : string) (value : option PyObj) (m : ModuleObject)
    : ModuleObject :=
  {| md_name := md_name m;
     md_dict := match value with
                | Some v => <[attr := v]> (md_dict m)
                | None => delete attr (md_dict m)
                end;
     md_def := md_def m |}.

(** The namespace of a module object is tracked; other objects are not
    looked into. *)
Definition store_attr (o : PyObj) (attr : string) (value : option PyObj) (h : Host)
    : Host :=
  match o with
  | PyModule addr => with_module_heap (alter (set_attr attr value) addr) h
  | _ => h
  end.

Definition is_module (o : PyObj) : bool :=
  match o with
  | PyModule _ => true
  | _ => false
  end.

(** The definition of an extension module, given by its [m_init] slot. *)
Definition module_def (h : Host) (o : PyObj) : option (option EntryPoint) :=
  match o with
  | PyModule addr => m ← module_heap h !! addr; md_def m
  | _ => None
  end.

Definition set_m_init (entrypoint : option EntryPoint) (m : ModuleObject) : ModuleObject :=
  {| md_name := md_name m; md_dict := md_dict m; md_def := Some entrypoint |}.

(** [def->m_base.m_init = entrypoint] *)
Definition store_m_init (o : PyObj) (entrypoint : option EntryPoint) (h : Host) : Host :=
  match o with
  | PyModule addr => with_module_heap (alter (set_m_init entrypoint) addr) h
  | _ => h
  end.

(** ** Calls that leave the loader *)

Inductive Event :=
| EvInitFunc (entry_name : string) (f : InitFunc)
| EvUnmarshal (blob : list Z) (size : Z)
| EvModuleNew (name : string) (addr : positive)
| EvSetModule (name : string) (module : PyObj)
| EvSetAttr (module : PyObj) (attr : string) (value : option PyObj)
| EvExecCodeModule (name : string) (code : CodeObject) (pathname : string)
| EvOpenLibrary (filename : string) (flags : Z)
| EvFindSymbol (lib : LibHandle) (symbol : string)
| EvEntryPoint (ep : EntryPoint)
| EvFixupExtension (module : option PyObj) (name filename : string)
| EvImportFrozen (name : string)
| EvImportModule (name : string)
| EvGetAttr (o : PyObj) (attr : string)
| EvCall (callee : PyObj) (args : list PyObj)
| EvMetaPathInsert (index : nat) (loader : PyObj).

(** ** The loader's own state *)

Record World := mkWorld {
  host : Host;
  loader_entries : option positive;
  metapath_based_loader : option LoaderClass;
  trace : list (Event * Host)
}.

Definition with_host (f : Host → Host) (w : World) : World :=
  mkWorld (f (host w)) (loader_entries w) (metapath_based_loader w) (trace w).

(** ** Function bodies with [return], [abort ()] and [assert] *)

Inductive Outcome (A : Type) :=
| Returns (a : A)
| Aborted
| AssertionFailed
| Undefined.
Arguments Returns {A} a.
Arguments Aborted {A}.
Arguments AssertionFailed {A}.
Arguments Undefined {A}.

Inductive Flow (R A : Type) :=
| Next (a : A)
| Return (r : R)
| Abort
| AssertFail
| Undef.
Arguments Next {R A} a.
Arguments Return {R A} r.
Arguments Abort {R A}.
Arguments AssertFail {R A}.
Arguments Undef {R A}.

(** A whole function, and a statement inside the body of a function that
    returns [R]. *)
Definition Fn (A : Type) : Type := World → Outcome A * World.
Definition Stmt (R A : Type) : Type := World → Flow R A * World.

#[global] Instance Stmt_ret {R} : MRet (Stmt R) := λ A a w, (Next a, w).

#[global] Instance Stmt_bind {R} : MBind (Stmt R) := λ A B f m w,
  match m w with
  | (Next a, w') => f a w'
  | (Return r, w') => (Return r, w')
  | (Abort, w') => (Abort, w')
  | (AssertFail, w') => (AssertFail, w')
  | (Undef, w') => (Undef, w')
  end.

(** The body [b] as a function: falling off the end and [return] coincide. *)
Definition function {R} (b : Stmt R R) : Fn R := λ w,
  match b w with
  | (Next r, w') | (Return r, w') => (Returns r, w')
  | (Abort, w') => (Aborted, w')
  | (AssertFail, w') => (AssertionFailed, w')
  | (Undef, w') => (Undefined, w')
  end.

(** A call of [f] from inside a body. *)
Definition call {R A} (f : Fn A) : Stmt R A := λ w,
  match f w with
  | (Returns a, w') => (Next a, w')
  | (Aborted, w') => (Abort, w')
  | (AssertionFailed, w') => (AssertFail, w')
  | (Undefined, w') => (Undef, w')
  end.

Definition return_ {R A} (r : R) : Stmt R A := λ w, (Return r, w).
Definition abort {R A} : Stmt R A := λ w, (Abort, w).
Definition undefined {R A} : Stmt R A := λ w, (Undef, w).
Definition assert {R} (b : bool) : Stmt R unit := λ w,
  if b then (Next tt, w) else (AssertFail, w).

Definition get {R} : Stmt R World := λ w, (Next w, w).
Definition gets {R A} (f : Host → A) : Stmt R A := λ w, (Next (f (host w)), w).
Definition modify_host {R} (f : Host → Host) : Stmt R unit := λ w,
  (Next tt, with_host f w).
Definition emit {R} (ev : Event) : Stmt R unit := λ w,
  (Next tt, mkWorld (host w) (loader_entries w) (metapath_based_loader w)
                    (trace w ++ [(ev, host w)])).

(** A call that leaves the loader: it is recorded with the state it starts
    in, and the callee's effect replaces the state. *)
Definition call_host {R A} (ev : Event) (f : Host → Host * A) : Stmt R A := λ w,
  let '(h', a) := f (host w) in
  (Next a, mkWorld h' (loader_entries w) (metapath_based_loader w)
                   (trace w ++ [(ev, host w)])).

(** [if (c) { s }] *)
Definition when {R} (c : bool) (s : Stmt R unit) : Stmt R unit :=
  if c then s else mret tt.

(** The string [s] and its terminator written from the start of an array of
    [size] bytes, by [strcpy], [strcat] or [copyModulenameAsPath]: the write
    stays inside the array when [s] is shorter than [size]. *)
Definition char_array {R} (size : nat) (s : string) : Stmt R unit :=
  if (String.length s <? size)%nat then mret tt else undefined.

#[global] Arguments char_array : simpl never.

(** ** The build and the surroundings *)

(** What the preprocessor sees.  The three flag masks are macros of
    [nuitka/unfreezing.hpp]; [osdefs_SEP] and [MAXPATHLEN] are [SEP] and
    [MAXPATHLEN] of the interpreter's [osdefs.h]. *)
Record Build := {
  PYTHON_VERSION : Z;
  _WIN32 : bool;
  _NUITKA_STANDALONE : bool;
  osdefs_SEP : ascii;
  MAXPATHLEN : nat;
  NUITKA_SHLIB_FLAG : Z;
  NUITKA_PACKAGE_FLAG : Z;
  NUITKA_BYTECODE_FLAG : Z
}.

(** Interpreter calls that can fail for lack of resources. *)
Inductive HostCall :=
| HC_PyModule_New
| HC_PyDict_SetItemString
| HC_PyList_New
| HC_PyList_SetItem
| HC_PyObject_SetAttr
| HC_PyModule_AddStringConstant
| HC_PyDict_New
| HC_PyCFunction_New
| HC_PyType_Call
| HC_PyList_Insert.

(** Static data, helpers of other translation units, user code, the
    interpreter's import machinery and the dynamic linker. *)
Record Environment := {
  (** the entries stored before the terminator of the table at an address *)
  table_at : positive → list Entry.t;
  getBinaryDirectoryHostEncoded : string;
  MAKE_RELATIVE_PATH : string → string;
  host_call_fails : HostCall → Host → bool;
  PyMarshal_ReadObjectFromString : list Z → Z → Host → Host * option CodeObject;
  PyImport_ExecCodeModuleEx : string → CodeObject → string → Host → Host * option PyObj;
  run_initfunc : InitFunc → Host → Host;
  open_library : string → Z → Host → option LibHandle;
  dlerror : Host → option string;
  find_symbol : LibHandle → string → option EntryPoint;
  run_entrypoint : EntryPoint → Host → Host * option PyObj;
  (** [_PyImport_FixupExtension] and its successors: the new module table,
      or the error *)
  fixup_extension : option PyObj → string → string → Host → gmap string PyObj + PyExc;
  PyImport_ImportFrozenModule : string → Host → Host * Z;
  PyImport_ImportModule : string → Host → Host * option PyObj;
  PyObject_GetAttrString : PyObj → string → Host → Host * option PyObj;
  PyObject_CallFunctionObjArgs : PyObj → list PyObj → Host → Host * option PyObj
}.

(** ** Sample builds, tables and surroundings *)

Module Sample.

Definition posix_py27 : Build :=
  {| PYTHON_VERSION := 270; _WIN32 := false; _NUITKA_STANDALONE := true;
     osdefs_SEP := "/"%char; MAXPATHLEN := 4096;
     NUITKA_SHLIB_FLAG := 1; NUITKA_PACKAGE_FLAG := 2; NUITKA_BYTECODE_FLAG := 4 |}.

Definition posix_py35 : Build :=
  {| PYTHON_VERSION := 350; _WIN32 := false; _NUITKA_STANDALONE := true;
     osdefs_SEP := "/"%char; MAXPATHLEN := 4096;
     NUITKA_SHLIB_FLAG := 1; NUITKA_PACKAGE_FLAG := 2; NUITKA_BYTECODE_FLAG := 4 |}.

Definition e_app : Entry.t := Entry.make "app" None [99; 0] 2 6.
Definition e_app_util : Entry.t := Entry.make "app.util" None [99; 1] 2 4.
Definition e_foo : Entry.t := Entry.make "foo" (Some 1%positive) [] 0 0.
Definition e_foo_preLoad : Entry.t := Entry.make "foo-preLoad" (Some 2%positive) [] 0 0.
Definition e_ext : Entry.t := Entry.make "pkg.sub.ext" None [] 0 1.

Definition table : list Entry.t := [e_app; e_app_util; e_foo; e_foo_preLoad; e_ext].

Fixpoint repeat_char (n : nat) (c : ascii) : string :=
  match n with
  | O => EmptyString
  | S n' => String c (repeat_char n' c)
  end.

(** A bytecode module whose name has 1021 bytes, one more than [buffer] has
    room for in front of [.py]. *)
Definition e_long : Entry.t := Entry.make (repeat_char 1021 "a"%char) None [99; 2] 2 4.

(** [PyImport_ExecCodeModuleEx] for a module whose code does [body]: the
    module registered under [name] gets its [__file__], the body runs, and the
    object then registered under [name] is the result. *)
Definition exec_code_module (body : PyObj → Host → Host) (name : string)
    (code : CodeObject) (pathname : string) (h : Host) : Host * option PyObj :=
  match sys_modules h !! name with
  | Some m =>
      let h' := body m (store_attr m "__file__" (Some (PyStr pathname)) h) in
      (h', sys_modules h' !! name)
  | None => (with_error_indicator (Some (KeyError name)) h, None)
  end.

(** A body that does nothing, and one that does [__path__ = []]. *)
Definition quiet_body (m : PyObj) (h : Host) : Host := h.
Definition path_clearing_body (m : PyObj) (h : Host) : Host :=
  store_attr m "__path__" (Some (PyList [])) h.

(** An entry point that creates the extension module at address 100. *)
Definition sample_entrypoint (ep : EntryPoint) (h : Host) : Host * option PyObj :=
  (with_module_heap
     <[100%positive := {| md_name := "ext"; md_dict := ∅; md_def := Some None |}]> h,
   Some (PyModule 100)).

Definition surroundings (body : PyObj → Host → Host) (opens has_symbol : bool)
    : Environment :=
  {| table_at := λ p, if (p =? 1)%positive then table else [];
     getBinaryDirectoryHostEncoded := "/opt/dist";
     MAKE_RELATIVE_PATH := λ s, "/opt/dist/" +:+ s;
     host_call_fails := λ _ _, false;
     PyMarshal_ReadObjectFromString := λ _ _ h, (h, Some 1%positive);
     PyImport_ExecCodeModuleEx := exec_code_module body;
     run_initfunc := λ _ h, h;
     open_library := λ _ _ _, if opens then Some 1%positive else None;
     dlerror := λ _, None;
     find_symbol := λ _ _, if has_symbol then Some 1%positive else None;
     run_entrypoint := sample_entrypoint;
     fixup_extension := λ module name _ h,
       inl (match module with
            | Some m => <[name := m]> (sys_modules h)
            | None => sys_modules h
            end);
     PyImport_ImportFrozenModule := λ _ h, (h, 1);
     PyImport_ImportModule := λ _ h, (h, None);
     PyObject_GetAttrString := λ _ _ h, (h, None);
     PyObject_CallFunctionObjArgs := λ _ _ h, (h, None) |}.

Definition env : Environment := surroundings quiet_body true true.

(** The same with a package that replaces its [__path__], with a library that
    does not open, and with a library that lacks the symbol. *)
Definition env_path_clearing : Environment := surroundings path_clearing_body true true.
Definition env_closed : Environment := surroundings quiet_body false true.
Definition env_stripped : Environment := surroundings quiet_body true false.

Definition interpreter : Host :=
  mkHost ∅ ∅ None None ["__hello__"; "foo"] 2 0 [].

Definition loader_class : LoaderClass :=
  {| loader_methods := ["find_module"; "load_module"; "is_package"] |}.

(** The state after registration of the table at address 1, and the state
    before. *)
Definition registered : World :=
  mkWorld interpreter (Some 1%positive) (Some loader_class) [].

Definition unregistered : World := mkWorld interpreter None None [].

End Sample.

(** ** Answers of [is_package] *)

(** An object handed back to the interpreter: one of the two Boolean
    singletons, or an object of the kinds above. *)
Inductive PyResult :=
| Py_Bool (b : bool)
| Py_Obj (o : PyObj).


(** ** Further sample builds and surroundings *)

Module Variants.
Import Sample.

Definition windows_py35 : Build :=
  {| PYTHON_VERSION := 350; _WIN32 := true; _NUITKA_STANDALONE := true;
     osdefs_SEP := "092"%char; MAXPATHLEN := 256;
     NUITKA_SHLIB_FLAG := 1; NUITKA_PACKAGE_FLAG := 2; NUITKA_BYTECODE_FLAG := 4 |}.

(** The surroundings [base] with some of the calls replaced. *)
Definition replace_calls (base : Environment)
    (unmarshal : list Z → Z → Host → Host * option CodeObject)
    (exec : string → CodeObject → string → Host → Host * option PyObj)
    (initfunc : InitFunc → Host → Host)
    (entrypoint : EntryPoint → Host → Host * option PyObj) : Environment :=
  {| table_at := table_at base;
     getBinaryDirectoryHostEncoded := getBinaryDirectoryHostEncoded base;
     MAKE_RELATIVE_PATH := MAKE_RELATIVE_PATH base;
     host_call_fails := host_call_fails base;
     PyMarshal_ReadObjectFromString := unmarshal;
     PyImport_ExecCodeModuleEx := exec;
     run_initfunc := initfunc;
     open_library := open_library base;
     dlerror := dlerror base;
     find_symbol := find_symbol base;
     run_entrypoint := entrypoint;
     fixup_extension := fixup_extension base;
     PyImport_ImportFrozenModule := PyImport_ImportFrozenModule base;
     PyImport_ImportModule := PyImport_ImportModule base;
     PyObject_GetAttrString := PyObject_GetAttrString base;
     PyObject_CallFunctionObjArgs := PyObject_CallFunctionObjArgs base |}.

(** A blob that does not unmarshal. *)
Definition env_corrupt : Environment :=
  replace_calls env
    (λ _ _ h, (with_error_indicator (Some (UserError 1)) h, None))
    (PyImport_ExecCodeModuleEx env) (run_initfunc env) (run_entrypoint env).

(** A module body that raises: the interpreter takes the module out of the
    table again and gives NULL. *)
Definition env_raising : Environment :=
  replace_calls env (PyMarshal_ReadObjectFromString env)
    (λ name _ _ h,
       (with_error_indicator (Some (UserError 2)) (with_sys_modules (delete name) h),
        None))
    (run_initfunc env) (run_entrypoint env).

(** A pre-load trigger (init function 2) that raises. *)
Definition env_failing_trigger : Environment :=
  replace_calls env (PyMarshal_ReadObjectFromString env) (PyImport_ExecCodeModuleEx env)
    (λ f h, if (f =? 2)%positive then with_error_indicator (Some (UserError 3)) h else h)
    (run_entrypoint env).

(** An entry point that creates no module, and one that gives an object that
    is no extension module. *)
Definition env_no_module : Environment :=
  replace_calls env (PyMarshal_ReadObjectFromString env) (PyImport_ExecCodeModuleEx env)
    (run_initfunc env) (λ _ h, (with_error_indicator (Some (UserError 4)) h, None)).

Definition env_no_definition : Environment :=
  replace_calls env (PyMarshal_ReadObjectFromString env) (PyImport_ExecCodeModuleEx env)
    (run_initfunc env) (λ _ h, (h, Some (PyStr "ext"))).

(** Init functions that leave a mark in the module table. *)
Definition env_marking : Environment :=
  replace_calls env (PyMarshal_ReadObjectFromString env) (PyImport_ExecCodeModuleEx env)
    (λ f h, with_sys_modules <["initialised" := PyOther f]> h)
    (run_entrypoint env).

(** The table with a post-load trigger for [app]. *)
Definition e_app_postLoad : Entry.t :=
  Entry.make "app-postLoad" (Some 3%positive) [] 0 0.

Definition env_postLoad : Environment :=
  {| table_at := λ p, if (p =? 1)%positive then table ++ [e_app_postLoad] else [];
     getBinaryDirectoryHostEncoded := getBinaryDirectoryHostEncoded env;
     MAKE_RELATIVE_PATH := MAKE_RELATIVE_PATH env;
     host_call_fails := host_call_fails env;
     PyMarshal_ReadObjectFromString := PyMarshal_ReadObjectFromString env;
     PyImport_ExecCodeModuleEx := PyImport_ExecCodeModuleEx env;
     run_initfunc := run_initfunc env_marking;
     open_library := open_library env;
     dlerror := dlerror env;
     find_symbol := find_symbol env;
     run_entrypoint := run_entrypoint env;
     fixup_extension := fixup_extension env;
     PyImport_ImportFrozenModule := PyImport_ImportFrozenModule env;
     PyImport_ImportModule := PyImport_ImportModule env;
     PyObject_GetAttrString := PyObject_GetAttrString env;
     PyObject_CallFunctionObjArgs := PyObject_CallFunctionObjArgs env |}.

(** Entries that are neither bytecode nor usable otherwise. *)
Definition e_empty : Entry.t := Entry.make "empty" None [] 0 0.

(** The interpreter with [app] imported already. *)
Definition app_imported : World :=
  mkWorld (with_sys_modules <["app" := PyModule 7]> interpreter)
          (Some 1%positive) (Some loader_class) [].

End Variants.
Section Loader.

Context (B : Build) (E : Environment).

(** [SEP], with the override at the top of the file *)
Definition SEP : ascii := if _WIN32 B then "\"%char else osdefs_SEP B.

(** Constants of [<windows.h>] *)
Definition SEM_FAILCRITICALERRORS : Z := 1.
Definition LOAD_WITH_ALTERED_SEARCH_PATH : Z := 8.

(** *** Interpreter calls *)

Section HostCalls.

Context {R : Type}.

Definition PyErr_SetObject (e : PyExc) : Stmt R unit :=
  modify_host (with_error_indicator (Some e)).

(** [PyErr_Print] writes the signalled error to the standard error stream
    and clears it.  For an error of the class [SystemExit] the interpreter
    leaves the process instead; that class is not among the errors of
    [PyExc], so the runs described are those with other errors. *)
Definition PyErr_Print : Stmt R unit :=
  modify_host (with_error_indicator None).

(** Modelled from the spec: [ERROR_OCCURRED] is a helper of the Nuitka
    headers, which are not among the sources; it tells whether the
    interpreter has an error signalled (sections 4.5 and 4.6). *)
Definition ERROR_OCCURRED : Stmt R bool :=
  gets (λ h, match error_indicator h with Some _ => true | None => false end).

(** Modelled from the spec: [CLEAR_ERROR_OCCURRED] is a helper of the Nuitka
    headers; it drops the signalled error. *)
Definition CLEAR_ERROR_OCCURRED : Stmt R unit :=
  modify_host (with_error_indicator None).

(** Modelled from the spec: [LOOKUP_SUBSCRIPT] is a helper of the Nuitka
    headers; applied to the module table it gives the lookup result for the
    key (section 3), or NULL with a [KeyError] signalled. *)
Definition LOOKUP_SUBSCRIPT (key : string) : Stmt R (option PyObj) :=
  m ← gets sys_modules;
  match m !! key with
  | Some o => mret (Some o)
  | None => PyErr_SetObject (KeyError key);; mret None
  end.

(** Whether the resources for the call [c] are there; if not, the error is
    signalled. *)
Definition resources (c : HostCall) : Stmt R bool :=
  failed ← gets (host_call_fails E c);
  if (failed : bool) then PyErr_SetObject MemoryError;; mret false else mret true.

Definition PyModule_New (name : string) : Stmt R (option PyObj) :=
  ok ← resources HC_PyModule_New;
  if (ok : bool) then
    heap ← gets module_heap;
    let addr := fresh (dom heap) in
    emit (EvModuleNew name addr);;
    modify_host (with_module_heap
      <[addr := {| md_name := name;
                   md_dict := {["__name__" := PyStr name]};
                   md_def := None |}]>);;
    mret (Some (PyModule addr))
  else mret None.

(** [PyDict_GetItemString (PyImport_GetModuleDict (), name)] *)
Definition PyDict_GetItemString_modules (name : string) : Stmt R (option PyObj) :=
  gets (λ h, sys_modules h !! name).

(** [PyDict_SetItemString (PyImport_GetModuleDict (), name, value)] *)
Definition PyDict_SetItemString_modules (name : string) (value : PyObj) : Stmt R Z :=
  ok ← resources HC_PyDict_SetItemString;
  if (ok : bool) then
    emit (EvSetModule name value);;
    modify_host (with_sys_modules <[name := value]>);;
    mret 0
  else mret (-1).

(** A list of [size] empty slots. *)
Definition PyList_New (size : nat) : Stmt R (option (list (option PyObj))) :=
  ok ← resources HC_PyList_New;
  if (ok : bool) then mret (Some (replicate size None)) else mret None.

Definition PyList_SetItem (l : list (option PyObj)) (i : nat) (item : option PyObj)
    : Stmt R (Z * list (option PyObj)) :=
  ok ← resources HC_PyList_SetItem;
  if (ok : bool) then mret (0, <[i := item]> l) else mret (-1, l).

(** [PyObject_SetAttr (o, attr, value)]; a NULL [value] deletes. *)
Definition PyObject_SetAttr (o : option PyObj) (attr : string) (value : option PyObj)
    : Stmt R Z :=
  match o with
  | None => undefined
  | Some o =>
      ok ← resources HC_PyObject_SetAttr;
      if (ok : bool) then
        emit (EvSetAttr o attr value);;
        modify_host (store_attr o attr value);;
        mret 0
      else mret (-1)
  end.

End HostCalls.

(** *** Table look-ups *)

(** The scan over [PyImport_FrozenModules]; the list holds the names before
    the sentinel. *)
Fixpoint hasFrozenModule_scan (p : list string) (name : string) : bool :=
  match p with
  | [] => false
  | p_name :: p' =>
      if String.eqb p_name name then true else hasFrozenModule_scan p' name
  end.

Definition hasFrozenModule (name : string) (h : Host) : bool :=
  hasFrozenModule_scan (PyImport_FrozenModules h) name.

(** The [while (current->name != NULL)] loop of [findEntry]. *)
Fixpoint findEntry_scan (name : string) (current : list Entry.t) : option Entry.t :=
  match current with
  | [] => None
  | entry :: rest =>
      if String.eqb name (Entry.name entry) then Some entry
      else findEntry_scan name rest
  end.

Definition findEntry (name : string) : Fn (option Entry.t) := function (
  w ← get;
  let current := loader_entries w in
  assert (bool_decide (is_Some current));;
  match current with
  | Some p => return_ (findEntry_scan name (table_at E p))
  | None => undefined
  end).

(** Modelled from the spec: [INCREASE_REFCOUNT] is a helper of the Nuitka
    headers; it hands out its argument as the caller's own reference.  Applied
    to the global [metapath_based_loader] it gives the loader object of
    section 4.2. *)
Definition INCREASE_REFCOUNT_loader {R} : Stmt R (option PyObj) :=
  w ← get;
  match metapath_based_loader w with
  | Some cls => mret (Some (PyLoader cls))
  | None => undefined
  end.

(** *** The legacy finder *)

(** The loop of [_path_unfreezer_find_module]: whether some entry matches. *)
Fixpoint find_module_scan (name : string) (current : list Entry.t) : bool :=
  match current with
  | [] => false
  | entry :: rest =>
      if String.eqb name (Entry.name entry) then true
      else find_module_scan name rest
  end.

(** Modelled from the spec: [Nuitka_String_Check] and
    [Nuitka_String_AsString] are helpers of the Nuitka headers; they tell
    whether an object is a string of the interpreter and give its bytes, the
    module name of section 4.2. *)
Definition Nuitka_String_Check (o : PyObj) : bool :=
  match o with
  | PyStr _ => true
  | _ => false
  end.

Definition Nuitka_String_AsString (o : PyObj) : option string :=
  match o with
  | PyStr s => Some s
  | _ => None
  end.

(** [args] is what [PyArg_ParseTupleAndKeywords] makes of the arguments; a
    refusal leaves the error of the interpreter and gives NULL.
    [assert (module_name)] holds after every successful parse. *)
Definition _path_unfreezer_find_module (args : Parse) : Fn (option PyObj) :=
  function (
    match args with
    | Refused e => PyErr_SetObject e;; return_ None
    | Parsed module_name =>
        assert (Nuitka_String_Check module_name);;
        match Nuitka_String_AsString module_name with
        | None => undefined
        | Some name =>
            w ← get;
            match loader_entries w with
            | None => undefined
            | Some current =>
                if find_module_scan name (table_at E current) then
                  r ← INCREASE_REFCOUNT_loader; return_ r
                else
                  frozen ← gets (hasFrozenModule name);
                  if (frozen : bool) then
                    r ← INCREASE_REFCOUNT_loader; return_ r
                  else return_ (Some Py_None)
            end
        end
    end).

(** *** The modern finder *)

Definition _path_unfreezer_find_spec (args : Parse) : Fn (option PyObj) :=
  function (
    match args with
    | Refused e => PyErr_SetObject e;; return_ None
    | Parsed module_name =>
        assert (Nuitka_String_Check module_name);;
        match Nuitka_String_AsString module_name with
        | None => undefined
        | Some name =>
            entry ← call (findEntry name);
            match entry with
            | None => return_ (Some Py_None)
            | Some _ =>
                importlib ← call_host (EvImportModule "importlib._bootstrap")
                              (PyImport_ImportModule E "importlib._bootstrap");
                match importlib with
                | None => return_ None
                | Some importlib =>
                    module_spec_class ←
                      call_host (EvGetAttr importlib "ModuleSpec")
                        (PyObject_GetAttrString E importlib "ModuleSpec");
                    match module_spec_class with
                    | None => return_ None
                    | Some module_spec_class =>
                        w ← get;
                        let loader := match metapath_based_loader w with
                                      | Some cls => [PyLoader cls]
                                      | None => []
                                      end in
                        result ←
                          call_host (EvCall module_spec_class (module_name :: loader))
                            (PyObject_CallFunctionObjArgs E module_spec_class
                               (module_name :: loader));
                        return_ result
                    end
                end
            end
        end
    end).

(** *** Trigger modules *)

(** [entry->python_initfunc ()] *)
Definition call_python_initfunc {R} (entry : Entry.t) : Stmt R unit :=
  match Entry.python_initfunc entry with
  | None => undefined
  | Some f => call_host (EvInitFunc (Entry.name entry) f) (λ h, (run_initfunc E f h, tt))
  end.

(** [trigger_module_name] is an array of 2048 bytes, written by [strcpy] and
    then by [strcat]; the second write is the longer one. *)
Definition loadTriggeredModule (name trigger_name : string) : Fn unit := function (
  let trigger_module_name := name +:+ trigger_name in
  char_array 2048 trigger_module_name;;
  entry ← call (findEntry trigger_module_name);
  match entry with
  | Some entry =>
      call_python_initfunc entry;;
      failed ← ERROR_OCCURRED;
      if (failed : bool) then PyErr_Print;; abort else mret tt
  | None => mret tt
  end).

(** *** Paths *)

Fixpoint copyModulenameAsPath (module_name : string) : string :=
  match module_name with
  | EmptyString => EmptyString
  | String c rest =>
      String (if Ascii.eqb c "."%char then SEP else c) (copyModulenameAsPath rest)
  end.

(** *** Extension modules (standalone mode) *)

Definition SetErrorMode {R} (mode : Z) : Stmt R Z :=
  old ← gets error_mode;
  modify_host (with_error_mode mode);;
  mret old.

(** [PyModule_GetDef]: the definition's [m_init] slot, or NULL for an object
    without a definition. *)
Definition PyModule_GetDef {R} (module : PyObj) : Stmt R (option (option EntryPoint)) :=
  gets (λ h, module_def h module).

Definition PyModule_AddStringConstant {R} (module : PyObj) (attr value : string)
    : Stmt R Z :=
  ok ← resources HC_PyModule_AddStringConstant;
  if (ok : bool) then
    if is_module module then
      emit (EvSetAttr module attr (Some (PyStr value)));;
      modify_host (store_attr module attr (Some (PyStr value)));;
      mret 0
    else
      PyErr_SetObject (SystemError "PyModule_AddObject() needs module as first arg");;
      mret (-1)
  else mret (-1).

(** The fix-up of the interpreter in use; [module] is absent before 3.0. *)
Definition fixup {R} (module : option PyObj) (full_name filename : string) : Stmt R bool :=
  h ← gets id;
  emit (EvFixupExtension module full_name filename);;
  match fixup_extension E module full_name filename h with
  | inl modules => modify_host (with_sys_modules (λ _, modules));; mret true
  | inr e => PyErr_SetObject e;; mret false
  end.

Definition entry_function_name (name : string) : string :=
  CString.snprintf 1024 (if PYTHON_VERSION B <? 300 then "init" else "PyInit_") name.

#[global] Arguments entry_function_name : simpl never.

(** The platform part of [callIntoShlibModule]: the library is opened and the
    entry point looked up. *)
Definition resolve_entrypoint (filename entry_function_name : string)
    : Stmt (option PyObj) (option EntryPoint) :=
  if _WIN32 B then
    old_mode ← SetErrorMode SEM_FAILCRITICALERRORS;
    hDLL ← call_host (EvOpenLibrary filename LOAD_WITH_ALTERED_SEARCH_PATH)
             (λ h, (h, open_library E filename LOAD_WITH_ALTERED_SEARCH_PATH h));
    match hDLL with
    | None =>
        PyErr_SetObject (ImportError ("LoadLibraryEx '" +:+ filename +:+ "' failed"));;
        return_ None
    | Some hDLL =>
        entrypoint ← call_host (EvFindSymbol hDLL entry_function_name)
                       (λ h, (h, find_symbol E hDLL entry_function_name));
        SetErrorMode old_mode;;
        mret entrypoint
    end
  else
    dlopenflags ← gets dlopenflags;
    handle ← call_host (EvOpenLibrary filename dlopenflags)
               (λ h, (h, open_library E filename dlopenflags h));
    match handle with
    | None =>
        error ← gets (dlerror E);
        let error := default "unknown dlopen() error" error in
        PyErr_SetObject (ImportError error);;
        return_ None
    | Some handle =>
        call_host (EvFindSymbol handle entry_function_name)
          (λ h, (h, find_symbol E handle entry_function_name))
    end.

(** The rest of [callIntoShlibModule], from the saving of the package context
    on. *)
Definition initialize_extension_module (full_name filename : string)
    (package : option string) (entrypoint : EntryPoint)
    : Stmt (option PyObj) (option PyObj) :=
  old_context ← gets _Py_PackageContext;
  modify_host (with_package_context package);;
  returned ← call_host (EvEntryPoint entrypoint) (run_entrypoint E entrypoint);
  modify_host (with_package_context old_context);;
  module ← (if PYTHON_VERSION B <? 300
            then PyDict_GetItemString_modules full_name
            else mret returned);
  match module with
  | None =>
      PyErr_SetObject (SystemError "dynamic module not initialized properly");;
      return_ None
  | Some module =>
      (if PYTHON_VERSION B <? 300 then mret tt
       else
         def ← PyModule_GetDef module;
         match def with
         | None =>
             PyErr_SetObject (SystemError
               ("initialization of " +:+ filename +:+
                " did not return an extension module"));;
             return_ None
         | Some _ => modify_host (store_m_init module (Some entrypoint))
         end);;
      res ← PyModule_AddStringConstant module "__file__" filename;
      when (res <? 0) CLEAR_ERROR_OCCURRED;;
      ok ← fixup (if PYTHON_VERSION B <? 300 then None else Some module)
                 full_name filename;
      if (ok : bool) then return_ (Some module) else return_ None
  end.

#[global] Arguments resolve_entrypoint : simpl never.
#[global] Arguments initialize_extension_module : simpl never.

Definition callIntoShlibModule (full_name filename : string) : Fn (option PyObj) :=
  function (
    let dot := CString.strrchr full_name "."%char in
    let '(package, name) :=
      match dot with
      | None => (None, full_name)
      | Some dot => (Some full_name, CString.next dot)
      end in
    let entry_function_name := entry_function_name name in
    entrypoint ← resolve_entrypoint filename entry_function_name;
    assert (bool_decide (is_Some entrypoint));;
    match entrypoint with
    | None => undefined
    | Some entrypoint =>
        initialize_extension_module full_name filename package entrypoint
    end).

(** *** Loading one entry *)

Definition has_flag (entry : Entry.t) (mask : Z) : bool :=
  negb (Z.land (Entry.flags entry) mask =? 0).

(** The file name [loadModule] builds for an extension module. *)
Definition shlib_filename (entry : Entry.t) : string :=
  getBinaryDirectoryHostEncoded E +:+
  String SEP (copyModulenameAsPath (Entry.name entry)) +:+
  (if _WIN32 B then ".pyd" else ".so").

(** [filename] is an array of [MAXPATHLEN + 1] bytes and [buffer] one of 1024
    bytes; each is written several times without a bound, by [strcpy],
    [copyModulenameAsPath] and [strcat], and the last write is the longest.
    Nothing is called between the writes into one array. *)
Definition loadModule (module_name : string) (entry : Entry.t) : Fn (option PyObj) :=
  function (
    (if _NUITKA_STANDALONE B && has_flag entry (NUITKA_SHLIB_FLAG B) then
       let filename := shlib_filename entry in
       char_array (MAXPATHLEN B + 1)%nat filename;;
       call (callIntoShlibModule (Entry.name entry) filename);;
       mret tt
     else if has_flag entry (NUITKA_BYTECODE_FLAG B) then
       code_object ← call_host (EvUnmarshal (Entry.bytecode_str entry)
                                            (Entry.bytecode_size entry))
                       (PyMarshal_ReadObjectFromString E (Entry.bytecode_str entry)
                                                         (Entry.bytecode_size entry));
       match code_object with
       | None => PyErr_Print;; abort
       | Some code_object =>
           present ← PyDict_GetItemString_modules (Entry.name entry);
           assert (bool_decide (present = None));;
           module ← PyModule_New (Entry.name entry);
           assert (bool_decide (is_Some module));;
           match module with
           | None => undefined
           | Some module =>
               res ← PyDict_SetItemString_modules (Entry.name entry) module;
               assert (res =? 0);;
               let buffer := copyModulenameAsPath (Entry.name entry) in
               let is_package := has_flag entry (NUITKA_PACKAGE_FLAG B) in
               let module_path_entry :=
                 if is_package then Some (PyStr (MAKE_RELATIVE_PATH E buffer)) else None in
               let buffer :=
                 if is_package then (buffer +:+ String SEP "") +:+ "__init__.py"
                 else buffer +:+ ".py" in
               char_array 1024 buffer;;
               let module_path := MAKE_RELATIVE_PATH E buffer in
               (if is_package then
                  path_list ← PyList_New 1;
                  match path_list with
                  | None => return_ None
                  | Some path_list =>
                      '(res, path_list) ← PyList_SetItem path_list 0 module_path_entry;
                      if negb (res =? 0) then return_ None else
                      res ← PyObject_SetAttr (Some module) "__path__"
                                             (Some (PyList path_list));
                      if negb (res =? 0) then return_ None else mret tt
                  end
                else mret tt);;
               module ← call_host (EvExecCodeModule (Entry.name entry) code_object module_path)
                          (PyImport_ExecCodeModuleEx E (Entry.name entry) code_object
                                                     module_path);
               if 330 <=? PYTHON_VERSION B then
                 w ← get;
                 res ← PyObject_SetAttr module "__loader__"
                         (PyLoader <$> metapath_based_loader w);
                 if negb (res =? 0) then return_ None else mret tt
               else mret tt
           end
       end
     else
       assert (negb (has_flag entry (NUITKA_SHLIB_FLAG B)));;
       assert (bool_decide (is_Some (Entry.python_initfunc entry)));;
       call_python_initfunc entry);;
    failed ← ERROR_OCCURRED;
    if (failed : bool) then return_ None else
    r ← LOOKUP_SUBSCRIPT module_name;
    return_ r).

(** *** The orchestration *)

Definition IMPORT_COMPILED_MODULE (module_name name : string) : Fn (option PyObj) :=
  function (
    entry ← call (findEntry name);
    frozen ← gets (hasFrozenModule name);
    let frozen_import := bool_decide (entry = None) && frozen in
    when (bool_decide (entry ≠ None) || frozen_import)
      (call (loadTriggeredModule name "-preLoad"));;
    result ←
      match entry with
      | Some entry =>
          result ← call (loadModule module_name entry);
          match result with
          | None => return_ None
          | Some _ => mret result
          end
      | None => mret None
      end;
    result ←
      (if frozen_import then
         res ← call_host (EvImportFrozen name) (PyImport_ImportFrozenModule E name);
         if res =? -1 then return_ None
         else if res =? 1 then LOOKUP_SUBSCRIPT module_name
         else mret result
       else mret result);
    match result with
    | Some result =>
        call (loadTriggeredModule name "-postLoad");;
        return_ (Some result)
    | None => return_ (Some Py_None)
    end).

Definition _path_unfreezer_load_module (args : Parse) : Fn (option PyObj) :=
  function (
    match args with
    | Refused e => PyErr_SetObject e;; return_ None
    | Parsed module_name =>
        assert (Nuitka_String_Check module_name);;
        match Nuitka_String_AsString module_name with
        | None => undefined
        | Some name => r ← call (IMPORT_COMPILED_MODULE name name); return_ r
        end
    end).

(** *** Registration *)

(** Modelled from the spec: [CHECK_OBJECT] is a macro of the Nuitka headers;
    as an integrity check (section 7) it ends the run when the object is
    missing. *)
Definition CHECK_OBJECT {R A} (o : option A) : Stmt R unit :=
  assert (bool_decide (is_Some o)).

Definition set_loader_entries {R} (p : option positive) : Stmt R unit := λ w,
  (Next tt, mkWorld (host w) p (metapath_based_loader w) (trace w)).

Definition set_metapath_based_loader {R} (l : option LoaderClass) : Stmt R unit := λ w,
  (Next tt, mkWorld (host w) (loader_entries w) l (trace w)).

Definition PyDict_New {R} : Stmt R (option (list string)) :=
  ok ← resources HC_PyDict_New;
  if (ok : bool) then mret (Some []) else mret None.

Definition PyCFunction_New {R} (ml_name : string) : Stmt R (option string) :=
  ok ← resources HC_PyCFunction_New;
  if (ok : bool) then mret (Some ml_name) else mret None.

(** [PyDict_SetItemString (method_dict, key, _)], whose result the code drops;
    the dictionary is followed by its keys. *)
Definition method_dict_set {R} (method_dict : list string) (key : string)
    : Stmt R (list string) :=
  ok ← resources HC_PyDict_SetItemString;
  if (ok : bool) then mret (method_dict ++ [key]) else mret method_dict.

(** [PyList_Insert (PySys_GetObject ("meta_path"), index, item)] *)
Definition PyList_Insert_meta_path {R} (index : nat) (item : option PyObj) : Stmt R Z :=
  match item with
  | None => PyErr_SetObject (SystemError "bad argument to internal function");; mret (-1)
  | Some item =>
      ok ← resources HC_PyList_Insert;
      if (ok : bool) then
        emit (EvMetaPathInsert index item);;
        modify_host (λ h, with_sys_meta_path
          (take index (sys_meta_path h) ++ item :: drop index (sys_meta_path h)) h);;
        mret 0
      else mret (-1)
  end.

(** The method definition of [find_spec] carries the name [module_repr] in
    the source; the dictionary key is [find_spec]. *)
Definition registerMetaPathBasedUnfreezer (_loader_entries : option positive) : Fn unit :=
  function (
    w ← get;
    match loader_entries w with
    | Some _ =>
        assert (bool_decide (_loader_entries = loader_entries w));;
        return_ tt
    | None => mret tt
    end;;
    set_loader_entries _loader_entries;;
    method_dict ← PyDict_New;
    CHECK_OBJECT method_dict;;
    let method_dict := default [] method_dict in
    loader_find_module ← PyCFunction_New "find_module";
    CHECK_OBJECT loader_find_module;;
    method_dict ← method_dict_set method_dict "find_module";
    loader_load_module ← PyCFunction_New "load_module";
    CHECK_OBJECT loader_load_module;;
    method_dict ← method_dict_set method_dict "load_module";
    loader_is_package ← PyCFunction_New "is_package";
    CHECK_OBJECT loader_is_package;;
    method_dict ← method_dict_set method_dict "is_package";
    method_dict ←
      (if 330 <=? PYTHON_VERSION B
       then method_dict_set method_dict "__module__"
       else mret method_dict);
    method_dict ←
      (if 340 <=? PYTHON_VERSION B then
         loader_repr_module ← PyCFunction_New "module_repr";
         CHECK_OBJECT loader_repr_module;;
         method_dict ← method_dict_set method_dict "module_repr";
         loader_find_spec ← PyCFunction_New "module_repr";
         CHECK_OBJECT loader_find_spec;;
         method_dict_set method_dict "find_spec"
       else mret method_dict);
    ok ← resources HC_PyType_Call;
    let loader := if (ok : bool) then Some {| loader_methods := method_dict |} else None in
    set_metapath_based_loader loader;;
    CHECK_OBJECT loader;;
    res ← PyList_Insert_meta_path (if PYTHON_VERSION B <? 330 then 0%nat else 2%nat)
                                  (PyLoader <$> loader);
    assert (res =? 0)).


(** *** The package query *)

(** Modelled from the spec: [BOOL_FROM] is a helper of the Nuitka headers; it
    turns a C truth value into the Boolean object that reports it
    (section 4.2, [isPackage]). *)
Definition BOOL_FROM (b : bool) : PyResult := Py_Bool b.

(** The format of the parse, [O:is_package], has one specifier, and the
    keyword list [_kwlist] it is given has two names: the interpreter refuses
    such a call whatever the arguments, so that [Refused] is the input that
    occurs.  The rest of the body is modelled as it is written. *)
Definition _path_unfreezer_is_package (args : Parse) : Fn (option PyResult) :=
  function (
    match args with
    | Refused e => PyErr_SetObject e;; return_ None
    | Parsed module_name =>
        assert (Nuitka_String_Check module_name);;
        match Nuitka_String_AsString module_name with
        | None => undefined
        | Some name =>
            entry ← call (findEntry name);
            match entry with
            | Some entry =>
                let result := BOOL_FROM (has_flag entry (NUITKA_PACKAGE_FLAG B)) in
                return_ (Some result)
            | None => return_ (Some (Py_Obj Py_None))
            end
        end
    end).
(** *** Notions used by the statements *)

(** The kind of an entry, in the order in which [loadModule] tests the flags. *)
Definition is_shlib_entry (entry : Entry.t) : bool :=
  _NUITKA_STANDALONE B && has_flag entry (NUITKA_SHLIB_FLAG B).

Definition is_bytecode_entry (entry : Entry.t) : bool :=
  negb (is_shlib_entry entry) && has_flag entry (NUITKA_BYTECODE_FLAG B).

(** What [loadModule] has written into [buffer] when it is done with it: the
    entry's name as a path, followed by [__init__.py] in the directory of a
    package and by [.py] for a plain module. *)
Definition module_path_buffer (entry : Entry.t) : string :=
  if has_flag entry (NUITKA_PACKAGE_FLAG B)
  then (copyModulenameAsPath (Entry.name entry) +:+ String SEP "") +:+ "__init__.py"
  else copyModulenameAsPath (Entry.name entry) +:+ ".py".


(** The value [loadModule] gives to [__path__]: one string, the directory of
    the package made relative to the distribution. *)
Definition package_path (entry : Entry.t) : PyObj :=
  PyList [Some (PyStr (MAKE_RELATIVE_PATH E (copyModulenameAsPath (Entry.name entry))))].

(** The attribute [attr] of the object [o] in the state [h]. *)
Definition attr_of (h : Host) (o : PyObj) (attr : string) : option PyObj :=
  match o with
  | PyModule addr => m ← module_heap h !! addr; md_dict m !! attr
  | _ => None
  end.

(** The last component of a dotted name. *)
Definition leaf_name (full_name : string) : string :=
  match CString.strrchr full_name "."%char with
  | None => full_name
  | Some dot => CString.next dot
  end.

(** The state in which [callIntoShlibModule] asks for the library, and the
    flags it passes. *)
Definition open_state (h : Host) : Host :=
  if _WIN32 B then with_error_mode SEM_FAILCRITICALERRORS h else h.

Definition open_flags (h : Host) : Z :=
  if _WIN32 B then LOAD_WITH_ALTERED_SEARCH_PATH else dlopenflags h.

(** Every run of the statement (of the function) extends the trace by events
    that satisfy [P]. *)
Definition emits {R A} (P : Event → Prop) (m : Stmt R A) : Prop :=
  ∀ w, ∃ evs, trace (snd (m w)) = trace w ++ evs ∧ Forall (λ x, P (fst x)) evs.

Definition emitsF {A} (P : Event → Prop) (f : Fn A) : Prop :=
  ∀ w, ∃ evs, trace (snd (f w)) = trace w ++ evs ∧ Forall (λ x, P (fst x)) evs.

(** The events of the load of the entry called [entry_name]: no initialisation
    function of another entry, and no import of a frozen module. *)
Definition loads_only (entry_name : string) (ev : Event) : Prop :=
  match ev with
  | EvInitFunc n _ => n = entry_name
  | EvImportFrozen _ => False
  | _ => True
  end.

(** The message of the [ImportError] raised when the library does not open. *)
Definition open_error_message (filename : string) (h : Host) : string :=
  if _WIN32 B then "LoadLibraryEx '" +:+ filename +:+ "' failed"
  else default "unknown dlopen() error" (dlerror E h).

(** The state after the look-up of the symbol. *)
Definition resolved_state (h : Host) : Host :=
  if _WIN32 B then with_error_mode (error_mode h) (open_state h) else h.

Definition is_entry_point_call (ev : Event) : Prop :=
  match ev with
  | EvEntryPoint _ => True
  | _ => False
  end.

(** The value [callIntoShlibModule] gives to the package context. *)
Definition package_of (full_name : string) : option string :=
  match CString.strrchr full_name "."%char with
  | None => None
  | Some _ => Some full_name
  end.

(** The world after the opening phase. *)
Definition resolved (full_name filename : string) (lib : LibHandle) (w : World) : World :=
  mkWorld (resolved_state (host w)) (loader_entries w) (metapath_based_loader w)
          (trace w ++ [(EvOpenLibrary filename (open_flags (host w)), open_state (host w));
                       (EvFindSymbol lib (entry_function_name (leaf_name full_name)),
                        open_state (host w))]).

(** The load of a name that has the entry [entry]: the pre-load trigger, the
    loader of the entry and, after a success, the post-load trigger. *)
Definition import_registered (module_name name : string) (entry : Entry.t)
    : Fn (option PyObj) :=
  function (
    call (loadTriggeredModule name "-preLoad");;
    result ← call (loadModule module_name entry);
    match result with
    | None => return_ None
    | Some result =>
        call (loadTriggeredModule name "-postLoad");;
        return_ (Some result)
    end).

(** The events of the pre-load trigger of [name], called in the state [h]. *)
Definition preload_events (name : string) (reg : list Entry.t) (h : Host)
    : list (Event * Host) :=
  match findEntry_scan (name +:+ "-preLoad") reg with
  | Some t =>
      match Entry.python_initfunc t with
      | Some f => [(EvInitFunc (name +:+ "-preLoad") f, h)]
      | None => []
      end
  | None => []
  end.

(** The two globals of the loader. *)
Definition loader_state (w : World) : option positive * option LoaderClass :=
  (loader_entries w, metapath_based_loader w).

(** Every run of the statement (of the function) leaves the loader's globals
    as they are. *)
Definition keeps {R A} (m : Stmt R A) : Prop :=
  ∀ w, loader_state (snd (m w)) = loader_state w.

Definition keepsF {A} (f : Fn A) : Prop :=
  ∀ w, loader_state (snd (f w)) = loader_state w.

(** The kind that is neither shared library nor bytecode. *)
Definition is_compiled_entry (entry : Entry.t) : bool :=
  negb (is_shlib_entry entry) && negb (has_flag entry (NUITKA_BYTECODE_FLAG B)).

(** The source path [loadModule] makes up for a bytecode entry. *)
Definition source_path (entry : Entry.t) : string :=
  MAKE_RELATIVE_PATH E (module_path_buffer entry).

(** The methods of the loader class, by interpreter version. *)
Definition method_names : list string :=
  ["find_module"; "load_module"; "is_package"]
  ++ (if 330 <=? PYTHON_VERSION B then ["__module__"] else [])
  ++ (if 340 <=? PYTHON_VERSION B then ["module_repr"; "find_spec"] else []).

(** [PyList_Insert]: positions past the end append. *)
Definition list_insert_at {A} (i : nat) (x : A) (l : list A) : list A :=
  take i l ++ x :: drop i l.

(** The module object [PyModule_New] makes. *)
Definition new_module (name : string) : ModuleObject :=
  {| md_name := name; md_dict := {["__name__" := PyStr name]}; md_def := None |}.

(** The state in which [loadModule] executes the code of a bytecode entry,
    when the blob was unmarshalled in [h1]: the new module is in the heap and
    in the module table, and has its [__path__] if the entry is a package. *)
Definition prepared_state (entry : Entry.t) (h1 : Host) : Host :=
  let addr := fresh (dom (module_heap h1)) in
  let h3 := with_sys_modules <[Entry.name entry := PyModule addr]>
              (with_module_heap <[addr := new_module (Entry.name entry)]> h1) in
  if has_flag entry (NUITKA_PACKAGE_FLAG B)
  then store_attr (PyModule addr) "__path__" (Some (package_path entry)) h3
  else h3.

(** The calls of a bytecode load up to the execution of the code. *)
Definition bytecode_events (entry : Entry.t) (code : CodeObject) (h0 h1 : Host)
    : list (Event * Host) :=
  let name := Entry.name entry in
  let addr := fresh (dom (module_heap h1)) in
  let h2 := with_module_heap <[addr := new_module name]> h1 in
  let h3 := with_sys_modules <[name := PyModule addr]> h2 in
  [(EvUnmarshal (Entry.bytecode_str entry) (Entry.bytecode_size entry), h0);
   (EvModuleNew name addr, h1);
   (EvSetModule name (PyModule addr), h2)]
  ++ (if has_flag entry (NUITKA_PACKAGE_FLAG B)
      then [(EvSetAttr (PyModule addr) "__path__" (Some (package_path entry)), h3)]
      else [])
  ++ [(EvExecCodeModule name code (source_path entry), prepared_state entry h1)].

(** The end of [loadModule]: NULL while an error is signalled, else the
    module table's entry for the requested name. *)
Definition finish_load (module_name : string) (w : World) : Outcome (option PyObj) * World :=
  match error_indicator (host w) with
  | Some _ => (Returns None, w)
  | None =>
      match sys_modules (host w) !! module_name with
      | Some o => (Returns (Some o), w)
      | None => (Returns None, with_host (with_error_indicator (Some (KeyError module_name))) w)
      end
  end.

(** Every [return] the statement reaches before its end gives a result in [P]. *)
Definition early {R A} (P : R → Prop) (m : Stmt R A) : Prop :=
  ∀ w r w', m w = (Return r, w') → P r.

(** The state after the init function [f] of the entry was called. *)
Definition initialized (entry : Entry.t) (f : InitFunc) (w : World) : World :=
  mkWorld (run_initfunc E f (host w)) (loader_entries w) (metapath_based_loader w)
          (trace w ++ [(EvInitFunc (Entry.name entry) f, host w)]).

(** The position of the loader in [sys.meta_path]. *)
Definition meta_path_index : nat :=
  if PYTHON_VERSION B <? 330 then 0%nat else 2%nat.


(** ** Properties *)

Ltac unfold_stmt :=
  unfold function, call, mbind, Stmt_bind, mret, Stmt_ret, return_, abort,
    undefined, assert, get, gets, modify_host, emit, when, call_host.

Ltac run := unfold_stmt; cbn.

Lemma char_array_fits {R} (size : nat) (s : string) (w : World) :
  (String.length s < size)%nat → char_array (R := R) size s w = (Next tt, w).
Proof. intros H. unfold char_array. by rewrite (proj2 (Nat.ltb_lt _ _) H). Qed.

Lemma char_array_overflow {R} (size : nat) (s : string) (w : World) :
  (size ≤ String.length s)%nat → char_array (R := R) size s w = (Undef, w).
Proof. intros H. unfold char_array. by rewrite (proj2 (Nat.ltb_ge _ _) H). Qed.

(** The two cases of a write into an array. *)
Ltac array_step :=
  match goal with
  | |- context [char_array ?n ?s ?w] =>
      let H := fresh "Hfits" in
      destruct (Nat.lt_ge_cases (String.length s) n) as [H|H];
      [ rewrite (char_array_fits n s w H)
      | rewrite (char_array_overflow n s w H) ];
      cbn
  end.

Lemma find_module_scan_true (name : string) (reg : list Entry.t) :
  find_module_scan name reg = true ↔ ∃ e, e ∈ reg ∧ Entry.name e = name.
Proof.
  induction reg as [|e reg IH]; simpl.
  - split; [discriminate | intros (e & He & _); inversion He].
  - destruct (String.eqb name (Entry.name e)) eqn:Heq.
    + apply String.eqb_eq in Heq. split; [intros _ | done].
      exists e. split; [left | done].
    + apply String.eqb_neq in Heq. rewrite IH. split.
      * intros (e' & He' & Hn). exists e'. split; [by right | done].
      * intros (e' & He' & Hn). apply elem_of_cons in He' as [-> | He'].
        -- by destruct Heq.
        -- by exists e'.
Qed.

Lemma hasFrozenModule_scan_true (p : list string) (name : string) :
  hasFrozenModule_scan p name = true ↔ name ∈ p.
Proof.
  induction p as [|x p IH]; simpl.
  - split; [discriminate | intros H; inversion H].
  - destruct (String.eqb x name) eqn:Heq.
    + apply String.eqb_eq in Heq as ->. split; [intros _; left | done].
    + apply String.eqb_neq in Heq. rewrite IH. split.
      * by right.
      * intros [-> | H]%elem_of_cons; [by destruct Heq | done].
Qed.

Lemma findEntry_scan_Some (name : string) (reg : list Entry.t) (e : Entry.t) :
  findEntry_scan name reg = Some e → e ∈ reg ∧ Entry.name e = name.
Proof.
  induction reg as [|x reg IH]; simpl; [discriminate|].
  destruct (String.eqb name (Entry.name x)) eqn:Heq.
  - intros [= <-]. apply String.eqb_eq in Heq. split; [left | done].
  - intros [H1 H2]%IH. split; [by right | done].
Qed.

Lemma findEntry_scan_None (name : string) (reg : list Entry.t) :
  findEntry_scan name reg = None ↔ ∀ e, e ∈ reg → Entry.name e ≠ name.
Proof.
  induction reg as [|x reg IH]; simpl.
  - split; [intros _ e H; inversion H | done].
  - destruct (String.eqb name (Entry.name x)) eqn:Heq.
    + apply String.eqb_eq in Heq. split; [discriminate|].
      intros H. destruct (H x); [left | done].
    + apply String.eqb_neq in Heq. rewrite IH. split.
      * intros H e [-> | He]%elem_of_cons; [congruence | by apply H].
      * intros H e He. apply H. by right.
Qed.

Lemma find_module_scan_findEntry (name : string) (reg : list Entry.t) :
  find_module_scan name reg = bool_decide (is_Some (findEntry_scan name reg)).
Proof.
  induction reg as [|x reg IH]; simpl; [done|].
  destruct (String.eqb name (Entry.name x)); [done | apply IH].
Qed.

Lemma find_module_run (w : World) (table : positive) (cls : LoaderClass) (n : string) :
  loader_entries w = Some table →
  metapath_based_loader w = Some cls →
  _path_unfreezer_find_module (Parsed (PyStr n)) w
  = (Returns (Some (if find_module_scan n (table_at E table) || hasFrozenModule n (host w)
                    then PyLoader cls else Py_None)), w).
Proof.
  intros Htab Hcls.
  unfold _path_unfreezer_find_module, function, INCREASE_REFCOUNT_loader.
  run. rewrite Htab.
  destruct (find_module_scan n (table_at E table)); cbn; rewrite ?Hcls; cbn; [done|].
  destruct (hasFrozenModule n (host w)); cbn; rewrite ?Hcls; done.
Qed.

(** C1: the legacy finder hands out the loader object exactly for the names
    that match an entry of the table or a name of the frozen table, and the
    None object, not an error, for every other name; it changes nothing. *)
Theorem find_module_claims_iff_known (w : World) (table : positive)
    (cls : LoaderClass) (n : string) :
  loader_entries w = Some table →
  metapath_based_loader w = Some cls →
  let known := (∃ e, e ∈ table_at E table ∧ Entry.name e = n)
               ∨ n ∈ PyImport_FrozenModules (host w) in
  (_path_unfreezer_find_module (Parsed (PyStr n)) w = (Returns (Some (PyLoader cls)), w) ↔ known)
  ∧ (¬ known → _path_unfreezer_find_module (Parsed (PyStr n)) w = (Returns (Some Py_None), w)).
Proof.
  intros Htab Hcls known.
  assert (Hk : known ↔ find_module_scan n (table_at E table)
                       || hasFrozenModule n (host w) = true).
  { unfold known, hasFrozenModule.
    rewrite orb_true_iff, find_module_scan_true, hasFrozenModule_scan_true. done. }
  rewrite (find_module_run w table cls n Htab Hcls). split.
  - rewrite Hk. destruct (_ || _); split; try done.
  - intros Hn. destruct (_ || _); [|done]. destruct Hn. by apply Hk.
Qed.

Lemma findEntry_run (name : string) (w : World) (table : positive) :
  loader_entries w = Some table →
  findEntry name w = (Returns (findEntry_scan name (table_at E table)), w).
Proof. intros H. unfold findEntry. run. by rewrite H. Qed.

(** C9: for a name that matches no entry of the table the modern finder
    answers with the None object and changes nothing, also when the name is in
    the frozen table, where the legacy finder hands out the loader. *)
Theorem find_spec_leaves_frozen_modules (w : World) (table : positive) (n : string) :
  loader_entries w = Some table →
  (∀ e, e ∈ table_at E table → Entry.name e ≠ n) →
  _path_unfreezer_find_spec (Parsed (PyStr n)) w = (Returns (Some Py_None), w)
  ∧ ∀ cls, metapath_based_loader w = Some cls →
           n ∈ PyImport_FrozenModules (host w) →
           _path_unfreezer_find_module (Parsed (PyStr n)) w = (Returns (Some (PyLoader cls)), w).
Proof.
  intros Htab Hnone. split.
  - apply findEntry_scan_None in Hnone.
    unfold _path_unfreezer_find_spec. run.
    rewrite (findEntry_run n w table Htab), Hnone. done.
  - intros cls Hcls Hfrozen.
    rewrite (find_module_run w table cls n Htab Hcls).
    apply hasFrozenModule_scan_true in Hfrozen. unfold hasFrozenModule.
    by rewrite Hfrozen, orb_true_r.
Qed.

(** C3: once a table is installed, a further registration with the same
    table returns at once and changes nothing, and a further registration
    with any other argument fails the assertion; the first registration
    stores its argument before anything else can fail. *)
Theorem register_once (w : World) (p : option positive) :
  (∀ cur, loader_entries w = Some cur →
     (p = Some cur → registerMetaPathBasedUnfreezer p w = (Returns tt, w))
     ∧ (p ≠ Some cur → registerMetaPathBasedUnfreezer p w = (AssertionFailed, w)))
  ∧ (loader_entries w = None →
     loader_entries (snd (registerMetaPathBasedUnfreezer p w)) = p
     ∧ ((∀ c h, host_call_fails E c h = false) →
        fst (registerMetaPathBasedUnfreezer p w) = Returns tt
        ∧ is_Some (metapath_based_loader (snd (registerMetaPathBasedUnfreezer p w))))).
Proof.
  split.
  - intros cur Hcur. unfold registerMetaPathBasedUnfreezer. run. rewrite Hcur. cbn.
    split; intros Hp.
    + by rewrite bool_decide_eq_true_2.
    + by rewrite bool_decide_eq_false_2.
  - intros Hnone. split; [|intros Hok]; unfold registerMetaPathBasedUnfreezer.
    unfold CHECK_OBJECT, PyDict_New, PyCFunction_New, method_dict_set,
      PyList_Insert_meta_path, resources, set_loader_entries,
      set_metapath_based_loader, PyErr_SetObject.
    1: { run. rewrite Hnone. cbn.
    repeat (match goal with
            | |- context [host_call_fails E ?c ?h] =>
                destruct (host_call_fails E c h); cbn
            | |- context [330 <=? PYTHON_VERSION B] =>
                destruct (330 <=? PYTHON_VERSION B); cbn
            | |- context [340 <=? PYTHON_VERSION B] =>
                destruct (340 <=? PYTHON_VERSION B); cbn
            | |- context [PYTHON_VERSION B <? 330] =>
                destruct (PYTHON_VERSION B <? 330); cbn
            end; try done). }
    unfold CHECK_OBJECT, PyDict_New, PyCFunction_New, method_dict_set,
      PyList_Insert_meta_path, resources, set_loader_entries,
      set_metapath_based_loader, PyErr_SetObject.
    run. rewrite Hnone. cbn. rewrite !Hok. cbn.
    destruct (330 <=? PYTHON_VERSION B), (340 <=? PYTHON_VERSION B);
      cbn; repeat (rewrite Hok; cbn); eauto.
Qed.

Ltac case_step :=
  match goal with
  | |- context [host_call_fails E ?c ?h] =>
      destruct (host_call_fails E c h) eqn:?
  | |- context [PyImport_ExecCodeModuleEx E ?a ?b ?c ?h] =>
      destruct (PyImport_ExecCodeModuleEx E a b c h) as [? [?|]] eqn:?
  | |- context [bool_decide ?P] => destruct (bool_decide P) eqn:?
  | |- context [has_flag ?e ?m] => destruct (has_flag e m) eqn:?
  | |- context [330 <=? PYTHON_VERSION B] => destruct (330 <=? PYTHON_VERSION B) eqn:?
  | |- context [match error_indicator ?h with _ => _ end] =>
      destruct (error_indicator h) eqn:?
  | |- context [match metapath_based_loader ?w with _ => _ end] =>
      destruct (metapath_based_loader w) eqn:?
  | |- context [match ?m !! ?k with _ => _ end] => destruct (m !! k) eqn:?
  end; cbn.

Ltac by_index i :=
  repeat (destruct i as [|i]; simplify_eq/=).


Lemma attr_of_store_other (h : Host) (o m : PyObj) (attr attr' : string)
    (v : option PyObj) :
  attr ≠ attr' → attr_of (store_attr o attr v h) m attr' = attr_of h m attr'.
Proof.
  intros Hne. destruct o, m; try done. cbn.
  destruct (decide (addr = addr0)) as [->|Hd].
  - rewrite lookup_alter_eq. destruct (module_heap h !! addr0) as [mo|]; [|done].
    cbn. destruct v; cbn; [by rewrite lookup_insert_ne | by rewrite lookup_delete_ne].
  - by rewrite lookup_alter_ne.
Qed.

Lemma sys_modules_store_attr (h : Host) (o : PyObj) (attr : string)
    (v : option PyObj) :
  sys_modules (store_attr o attr v h) = sys_modules h.
Proof. by destruct o. Qed.

(** C6: for a bytecode entry without the package flag
    [loadModule] never sets [__path__]; for one with the flag, the module that
    the table holds under the entry's name when the code object is executed
    has [__path__] equal to the one-element list with the relative package
    directory, and if the load succeeds and the execution left the table slot
    of the requested name and that attribute as they were, the module returned
    has it too. *)
Theorem bytecode_package_path (w : World) (module_name : string) (entry : Entry.t) :
  is_bytecode_entry entry = true →
  ∃ evs, trace (snd (loadModule module_name entry w)) = trace w ++ evs
    ∧ (has_flag entry (NUITKA_PACKAGE_FLAG B) = false →
       ∀ i o v h, evs !! i ≠ Some (EvSetAttr o "__path__" v, h))
    ∧ (has_flag entry (NUITKA_PACKAGE_FLAG B) = true →
       (∀ i n c p h, evs !! i = Some (EvExecCodeModule n c p, h) →
          ∃ m, sys_modules h !! Entry.name entry = Some m
               ∧ attr_of h m "__path__" = Some (package_path entry))
       ∧ ∀ r, fst (loadModule module_name entry w) = Returns (Some r) →
          ∃ i c p h m,
            evs !! i = Some (EvExecCodeModule (Entry.name entry) c p, h)
            ∧ sys_modules h !! Entry.name entry = Some m
            ∧ let h' := fst (PyImport_ExecCodeModuleEx E (Entry.name entry) c p h) in
              sys_modules h' !! module_name = Some m →
              attr_of h' m "__path__" = attr_of h m "__path__" →
              r = m
              ∧ attr_of (host (snd (loadModule module_name entry w))) r "__path__"
                = Some (package_path entry)).
Proof.
  intros Hkind. unfold is_bytecode_entry, is_shlib_entry in Hkind.
  apply andb_true_iff in Hkind as [Hshlib Hbc]. apply negb_true_iff in Hshlib.
  unfold loadModule. rewrite Hshlib, Hbc.
  unfold PyModule_New, PyDict_SetItemString_modules, PyDict_GetItemString_modules,
    PyList_New, PyList_SetItem, PyObject_SetAttr, resources, PyErr_SetObject,
    PyErr_Print, ERROR_OCCURRED, LOOKUP_SUBSCRIPT.
  run.
  destruct (PyMarshal_ReadObjectFromString E _ _ (host w)) as [h1 [code|]] eqn:Hum; cbn.
  2: { eexists. split; [done|]. split; [|split].
       - intros _ i o v h Hi. by_index i.
       - intros i n c p h Hi. by_index i.
       - intros r [=]. }
  destruct (has_flag entry (NUITKA_PACKAGE_FLAG B)) eqn:Hpkg; cbn.
  all: repeat first [ array_step | case_step ].
  all: rewrite <- ?app_assoc; cbn.
  all: eexists; (split; [reflexivity|]).
  all: split; [ intros Hf; try discriminate Hf; intros i o v h' Hi; by_index i
              | intros Ht; try discriminate Ht ].
  all: split; [ intros i n c' p' h' Hi; by_index i | intros r' [=] ]; subst.
  all: try (eexists; split; [apply lookup_insert_eq|]; cbn;
            rewrite lookup_alter_eq, lookup_insert_eq; cbn;
            by rewrite lookup_insert_eq).
  all: eexists 4%nat, _, _, _, _; (split; [reflexivity|]);
       (split; [apply lookup_insert_eq|]); cbn.
  all: match goal with H : PyImport_ExecCodeModuleEx _ _ _ _ _ = _ |- _ =>
         rewrite H end; cbn.
  all: intros Hslot Hattr.
  all: rewrite ?sys_modules_store_attr in *.
  all: assert (r' = PyModule (fresh (dom (module_heap h1)))) as -> by congruence.
  all: (split; [done|]).
  all: rewrite ?attr_of_store_other by done.
  all: cbn; rewrite Hattr, lookup_alter_eq, lookup_insert_eq; cbn.
  all: by rewrite lookup_insert_eq.
Qed.

(** *** Traces of compound statements *)

Section Emits.

Context {R : Type} (P : Event → Prop).

Lemma emits_silent {A} (m : Stmt R A) :
  (∀ w, trace (snd (m w)) = trace w) → emits P m.
Proof. intros H w. exists []. by rewrite H, app_nil_r. Qed.

Lemma emits_ret {A} (a : A) : emits P (mret a : Stmt R A).
Proof. by apply emits_silent. Qed.

Lemma emits_return {A} (r : R) : emits P (return_ r : Stmt R A).
Proof. by apply emits_silent. Qed.

Lemma emits_abort {A} : emits P (abort : Stmt R A).
Proof. by apply emits_silent. Qed.

Lemma emits_undefined {A} : emits P (undefined : Stmt R A).
Proof. by apply emits_silent. Qed.

Lemma emits_char_array (size : nat) (s : string) :
  emits P (char_array size s : Stmt R unit).
Proof.
  unfold char_array. destruct (_ <? _)%nat; [apply emits_ret | apply emits_undefined].
Qed.

Lemma emits_assert (b : bool) : emits P (assert b : Stmt R unit).
Proof. apply emits_silent. intros w. unfold assert. by destruct b. Qed.

Lemma emits_get : emits P (get : Stmt R World).
Proof. by apply emits_silent. Qed.

Lemma emits_gets {A} (f : Host → A) : emits P (gets f : Stmt R A).
Proof. by apply emits_silent. Qed.

Lemma emits_modify_host (f : Host → Host) : emits P (modify_host f : Stmt R unit).
Proof. by apply emits_silent. Qed.

Lemma emits_emit (ev : Event) : P ev → emits P (emit ev : Stmt R unit).
Proof. intros H w. exists [(ev, host w)]. split; [done|]. by constructor. Qed.

Lemma emits_call_host {A} (ev : Event) (f : Host → Host * A) :
  P ev → emits P (call_host ev f : Stmt R A).
Proof.
  intros H w. exists [(ev, host w)]. unfold call_host.
  destruct (f (host w)). split; [done|]. by constructor.
Qed.

Lemma emits_bind {A C} (m : Stmt R A) (f : A → Stmt R C) :
  emits P m → (∀ a, emits P (f a)) → emits P (m ≫= f).
Proof.
  intros Hm Hf w. unfold mbind, Stmt_bind.
  destruct (Hm w) as (evs & Ht & Hall).
  destruct (m w) as [[a|r| | |] w1]; cbn in *; try by exists evs.
  destruct (Hf a w1) as (evs' & Ht' & Hall').
  exists (evs ++ evs'). split.
  - by rewrite Ht', Ht, app_assoc.
  - by apply Forall_app.
Qed.

Lemma emits_call {A} (f : Fn A) : emitsF P f → emits P (call f : Stmt R A).
Proof.
  intros Hf w. unfold call. destruct (Hf w) as (evs & Ht & Hall).
  destruct (f w) as [[a| | |] w1]; by exists evs.
Qed.

Lemma emits_when (c : bool) (s : Stmt R unit) : emits P s → emits P (when c s).
Proof. intros H. destruct c; [done | apply emits_ret]. Qed.

End Emits.

Lemma emitsF_function {R} (P : Event → Prop) (b : Stmt R R) :
  emits P b → emitsF P (function b).
Proof.
  intros Hb w. unfold function. destruct (Hb w) as (evs & Ht & Hall).
  destruct (b w) as [[a|r| | |] w1]; by exists evs.
Qed.

Lemma emits_weaken {R A} (P Q : Event → Prop) (m : Stmt R A) :
  (∀ ev, P ev → Q ev) → emits P m → emits Q m.
Proof.
  intros HPQ Hm w. destruct (Hm w) as (evs & Ht & Hall).
  exists evs. split; [done|]. eapply Forall_impl; [done|]. naive_solver.
Qed.

Ltac emits_step :=
  first
    [ apply emits_bind; [|intros ?]
    | apply emits_ret | apply emits_return | apply emits_abort
    | apply emits_undefined | apply emits_assert | apply emits_get
    | apply emits_gets | apply emits_modify_host | apply emits_when
    | apply emits_emit | apply emits_call_host | apply emits_char_array
    | match goal with
      | |- emits _ (if ?b then _ else _) => destruct b
      | |- emits _ (match ?x with _ => _ end) => destruct x
      end ].

Ltac emits := repeat emits_step.

Lemma emits_resources {R} (P : Event → Prop) (c : HostCall) :
  emits P (resources c : Stmt R bool).
Proof. unfold resources, PyErr_SetObject. emits. Qed.


Lemma emitsF_callIntoShlibModule (P : Event → Prop) (full_name filename : string) :
  (∀ ev, loads_only full_name ev → P ev) →
  emitsF P (callIntoShlibModule full_name filename).
Proof.
  intros HP. apply emitsF_function.
  destruct (CString.strrchr full_name ".") as [dot|]; cbn zeta.
  all: unfold resolve_entrypoint, initialize_extension_module, SetErrorMode,
         PyErr_SetObject, PyDict_GetItemString_modules, PyModule_GetDef,
         PyModule_AddStringConstant, fixup, CLEAR_ERROR_OCCURRED.
  all: repeat first [ apply emits_resources | emits_step ]; by apply HP.
Qed.

Lemma emitsF_loadModule (module_name : string) (entry : Entry.t) :
  emitsF (loads_only (Entry.name entry)) (loadModule module_name entry).
Proof.
  apply emitsF_function.
  unfold PyModule_New, PyDict_SetItemString_modules, PyDict_GetItemString_modules,
    PyList_New, PyList_SetItem, PyObject_SetAttr, PyErr_SetObject,
    PyErr_Print, ERROR_OCCURRED, LOOKUP_SUBSCRIPT, call_python_initfunc.
  repeat first
    [ apply emits_resources
    | apply emits_call, emitsF_callIntoShlibModule
    | emits_step ]; done.
Qed.

(** *** The extension module loader, phase by phase *)

Lemma resolve_entrypoint_run (filename symbol : string) (w : World) :
  resolve_entrypoint filename symbol w =
  let opened := (EvOpenLibrary filename (open_flags (host w)), open_state (host w)) in
  match open_library E filename (open_flags (host w)) (open_state (host w)) with
  | None =>
      (Return None,
       mkWorld (with_error_indicator
                  (Some (ImportError (open_error_message filename (open_state (host w)))))
                  (open_state (host w)))
               (loader_entries w) (metapath_based_loader w) (trace w ++ [opened]))
  | Some lib =>
      (Next (find_symbol E lib symbol),
       mkWorld (resolved_state (host w)) (loader_entries w) (metapath_based_loader w)
               (trace w ++ [opened; (EvFindSymbol lib symbol, open_state (host w))]))
  end.
Proof.
  unfold resolve_entrypoint, open_error_message, resolved_state, open_state, open_flags,
    SetErrorMode, PyErr_SetObject.
  destruct (_WIN32 B); run.
  - destruct (open_library E filename _ _); cbn; [|done].
    by rewrite <- app_assoc.
  - destruct w as [h le ml tr]; cbn.
    destruct (open_library E filename _ _); cbn; [|done].
    by rewrite <- app_assoc.
Qed.

Ltac shlib_step :=
  match goal with
  | |- context [PYTHON_VERSION B <? 300] => destruct (PYTHON_VERSION B <? 300) eqn:?
  | |- context [run_entrypoint E ?a ?h] =>
      destruct (run_entrypoint E a h) as [? [?|]] eqn:?
  | |- context [fixup_extension E ?a ?b ?c ?h] =>
      destruct (fixup_extension E a b c h) eqn:?
  | |- context [host_call_fails E ?c ?h] =>
      destruct (host_call_fails E c h) eqn:?
  | |- context [match ?m !! ?k with _ => _ end] => destruct (m !! k) eqn:?
  | |- context [is_module ?p] => destruct (is_module p) eqn:?
  | |- context [match module_def ?h ?m with _ => _ end] =>
      destruct (module_def h m) eqn:?
  end; cbn.

Lemma context_store_attr (h : Host) (o : PyObj) (attr : string) (v : option PyObj) :
  _Py_PackageContext (store_attr o attr v h) = _Py_PackageContext h.
Proof. by destruct o. Qed.

Lemma context_store_m_init (h : Host) (o : PyObj) (ep : option EntryPoint) :
  _Py_PackageContext (store_m_init o ep h) = _Py_PackageContext h.
Proof. by destruct o. Qed.

Lemma context_resolved_state (h : Host) :
  _Py_PackageContext (resolved_state h) = _Py_PackageContext h.
Proof. unfold resolved_state, open_state. by destruct (_WIN32 B). Qed.

Lemma context_open_state (h : Host) :
  _Py_PackageContext (open_state h) = _Py_PackageContext h.
Proof. unfold open_state. by destruct (_WIN32 B). Qed.

(** The entry point runs first, in the state with the context set; whatever
    follows sees the old context again. *)
Lemma initialize_extension_module_context (full_name filename : string)
    (package : option string) (ep : EntryPoint) (w : World) :
  let r := initialize_extension_module full_name filename package ep w in
  _Py_PackageContext (host (snd r)) = _Py_PackageContext (host w)
  ∧ ∃ evs, trace (snd r)
             = trace w ++ (EvEntryPoint ep, with_package_context package (host w)) :: evs
      ∧ Forall (λ x, _Py_PackageContext (snd x) = _Py_PackageContext (host w)
                     ∧ ¬ is_entry_point_call (fst x)) evs.
Proof.
  unfold initialize_extension_module, PyErr_SetObject, PyDict_GetItemString_modules,
    PyModule_GetDef, PyModule_AddStringConstant, fixup, CLEAR_ERROR_OCCURRED,
    resources, PyErr_SetObject.
  run.
  repeat shlib_step.
  all: rewrite <- ?app_assoc; cbn.
  all: (split; [by rewrite ?context_store_attr, ?context_store_m_init|]).
  all: eexists; (split; [reflexivity|]).
  all: repeat constructor; cbn.
  all: first [ tauto | by rewrite ?context_store_attr, ?context_store_m_init ].
Qed.
Lemma strrchr_is_Some (s : string) (c : ascii) :
  is_Some (CString.strrchr s c) ↔ CString.contains c s.
Proof.
  unfold CString.contains. induction s as [|a s IH]; cbn.
  - split; [by intros [? [=]] | by intros ?%elem_of_nil].
  - destruct (CString.strrchr s c) as [r|].
    + split; [intros _ | by eauto]. right. apply IH. by eauto.
    + destruct (Ascii.eqb a c) eqn:Hac.
      * apply Ascii.eqb_eq in Hac as ->. split; [intros _; left | by eauto].
      * apply Ascii.eqb_neq in Hac. split; [by intros [? [=]]|].
        intros [->|Hin]%elem_of_cons; [done|]. by apply IH in Hin as [? [=]].
Qed.


Lemma callIntoShlibModule_run (full_name filename : string) (w : World) :
  callIntoShlibModule full_name filename w =
  match open_library E filename (open_flags (host w)) (open_state (host w)) with
  | None =>
      (Returns None,
       mkWorld (with_error_indicator
                  (Some (ImportError (open_error_message filename (open_state (host w)))))
                  (open_state (host w)))
               (loader_entries w) (metapath_based_loader w)
               (trace w ++ [(EvOpenLibrary filename (open_flags (host w)),
                             open_state (host w))]))
  | Some lib =>
      match find_symbol E lib (entry_function_name (leaf_name full_name)) with
      | None => (AssertionFailed, resolved full_name filename lib w)
      | Some ep =>
          function (initialize_extension_module full_name filename
                      (package_of full_name) ep)
                   (resolved full_name filename lib w)
      end
  end.
Proof.
  unfold callIntoShlibModule, resolved, leaf_name, package_of, function.
  destruct (CString.strrchr full_name ".") as [dot|]; cbn zeta.
  all: unfold mbind at 1, Stmt_bind at 1; rewrite resolve_entrypoint_run; cbn zeta.
  all: destruct (open_library E filename _ _) as [lib|]; [|done].
  all: by destruct (find_symbol E lib _) as [ep|]; run.
Qed.

(** C7: when the library does not open, [callIntoShlibModule] returns NULL
    with an [ImportError] that carries a message, and does not abort; when the
    library opens but lacks the entry symbol, the run ends in the failed
    assertion, with no error signalled to the caller. *)
Theorem shlib_open_failure_recoverable_missing_symbol_asserted (w : World)
    (full_name filename : string) :
  (open_library E filename (open_flags (host w)) (open_state (host w)) = None →
     fst (callIntoShlibModule full_name filename w) = Returns None
     ∧ error_indicator (host (snd (callIntoShlibModule full_name filename w)))
       = Some (ImportError (open_error_message filename (open_state (host w)))))
  ∧ (∀ lib,
       open_library E filename (open_flags (host w)) (open_state (host w)) = Some lib →
       find_symbol E lib (entry_function_name (leaf_name full_name)) = None →
       fst (callIntoShlibModule full_name filename w) = AssertionFailed
       ∧ error_indicator (host (snd (callIntoShlibModule full_name filename w)))
         = error_indicator (host w)).
Proof.
  rewrite callIntoShlibModule_run. split.
  - by intros ->.
  - intros lib -> ->. split; [done|]. cbn.
    unfold resolved_state, open_state. by destruct (_WIN32 B).
Qed.

(** C8: [callIntoShlibModule] calls the entry point with the
    package context set to the full dotted name of the module when that name
    has a dot and to NULL when it has none; every later call of the run sees
    the context that was there at the start, and so does the caller, however
    the run ends; and the entry point is called whenever the library opens and
    has the symbol. *)
Theorem package_context_saved_and_restored (w : World) (full_name filename : string) :
  _Py_PackageContext (host (snd (callIntoShlibModule full_name filename w)))
    = _Py_PackageContext (host w)
  ∧ ∃ evs, trace (snd (callIntoShlibModule full_name filename w)) = trace w ++ evs
    ∧ (∀ i ep h, evs !! i = Some (EvEntryPoint ep, h) →
         (CString.contains "."%char full_name → _Py_PackageContext h = Some full_name)
         ∧ (¬ CString.contains "."%char full_name → _Py_PackageContext h = None)
         ∧ ∀ j ev h', (i < j)%nat → evs !! j = Some (ev, h') →
             _Py_PackageContext h' = _Py_PackageContext (host w))
    ∧ (∀ lib ep,
         open_library E filename (open_flags (host w)) (open_state (host w)) = Some lib →
         find_symbol E lib (entry_function_name (leaf_name full_name)) = Some ep →
         ∃ i h, evs !! i = Some (EvEntryPoint ep, h)).
Proof.
  pose proof (strrchr_is_Some full_name "."%char) as Hdot.
  rewrite callIntoShlibModule_run.
  destruct (open_library E filename _ _) as [lib|]; cbn; last first.
  - split; [apply context_open_state|]. eexists. split; [done|].
    split; [intros i ep h Hi; by_index i | intros ?? ?; simplify_eq].
  - destruct (find_symbol E lib _) as [ep|] eqn:Hsym; cbn; last first.
    + split; [apply context_resolved_state|]. eexists. split; [done|].
      split; [intros i ep h Hi; by_index i | intros ?? ? ?; congruence].
    + unfold function.
  destruct (initialize_extension_module_context full_name filename
              (package_of full_name) ep (resolved full_name filename lib w))
    as (Hctx & evs & Htr & Hall).
  destruct (initialize_extension_module _ _ _ _ _) as [[?|?| | |] w1]; cbn in *.
  all: rewrite Hctx, context_resolved_state; (split; [done|]).
  all: rewrite Htr, <- app_assoc; cbn; eexists; (split; [reflexivity|]).
  all: split; [| intros ?? [= <-] Hs; rewrite Hsym in Hs; injection Hs as <-;
                 by eexists 2%nat, _ ].
  all: intros i ep' h' Hi; destruct i as [|[|[|i]]]; simplify_eq/=.
  all: try (apply (Forall_lookup_1 _ _ _ _ Hall) in Hi as [_ []]; done).
  all: unfold package_of.
  all: (split; [intros Hc; apply Hdot in Hc as [? ->]; done|]).
  all: (split; [intros Hc; destruct (CString.strrchr full_name ".");
                  [destruct Hc; apply Hdot; by eauto | done]|]).
  all: intros j ev h'' Hj Hev; destruct j as [|[|[|j]]]; try lia; cbn in Hev.
  all: apply (Forall_lookup_1 _ _ _ _ Hall) in Hev as [Hev _]; cbn in Hev.
  all: by rewrite Hev, context_resolved_state.
Qed.

(** *** Paths and symbols *)

Lemma copyModulenameAsPath_map (module_name : string) :
  String.list_ascii_of_string (copyModulenameAsPath module_name)
  = (λ c, if Ascii.eqb c "."%char then SEP else c)
      <$> String.list_ascii_of_string module_name.
Proof. induction module_name as [|c s IH]; cbn; [done | by rewrite IH]. Qed.

Lemma strrchr_last (pkg leaf : string) (c : ascii) :
  ¬ CString.contains c leaf →
  CString.strrchr (pkg +:+ String c leaf) c = Some (String c leaf).
Proof.
  intros Hleaf.
  assert (Hnone : CString.strrchr leaf c = None).
  { destruct (CString.strrchr leaf c) eqn:Hr; [|done].
    destruct Hleaf. apply strrchr_is_Some. by rewrite Hr. }
  induction pkg as [|a pkg IH].
  - change ("" +:+ String c leaf) with (String c leaf). cbn.
    by rewrite Hnone, Ascii.eqb_refl.
  - change (String a pkg +:+ String c leaf) with (String a (pkg +:+ String c leaf)).
    cbn. by rewrite IH.
Qed.

Lemma leaf_name_dotted (pkg leaf : string) :
  ¬ CString.contains "."%char leaf → leaf_name (pkg +:+ String "."%char leaf) = leaf.
Proof. intros H. unfold leaf_name. by rewrite strrchr_last. Qed.

Lemma leaf_name_plain (name : string) :
  ¬ CString.contains "."%char name → leaf_name name = name.
Proof.
  intros H. unfold leaf_name.
  destruct (CString.strrchr name ".") eqn:Hr; [|done].
  destruct H. apply strrchr_is_Some. by rewrite Hr.
Qed.

Lemma take_all (n : nat) (s : string) :
  (String.length s ≤ n)%nat → CString.take n s = s.
Proof.
  revert n. induction s as [|a s IH]; intros [|n] Hn; cbn in *; try done; [lia|].
  rewrite IH; [done | lia].
Qed.

Lemma loadModule_shlib_trace (module_name : string) (entry : Entry.t) (w : World) :
  is_shlib_entry entry = true →
  (String.length (shlib_filename entry) ≤ MAXPATHLEN B)%nat →
  trace (snd (loadModule module_name entry w))
  = trace (snd (callIntoShlibModule (Entry.name entry) (shlib_filename entry) w)).
Proof.
  intros Hkind Hfits. unfold is_shlib_entry in Hkind. unfold loadModule. rewrite Hkind.
  unfold ERROR_OCCURRED, LOOKUP_SUBSCRIPT, PyErr_SetObject. run.
  rewrite char_array_fits by lia. cbn.
  destruct (callIntoShlibModule _ _ w) as [[r| | |] w1]; cbn; try done.
  destruct (error_indicator (host w1)); cbn; [done|].
  by destruct (sys_modules (host w1) !! module_name).
Qed.

(** C5: for an entry of the shared library kind whose file name fits the
    [MAXPATHLEN + 1] bytes of [filename] and whose entry symbol fits the 1024
    bytes of [entry_function_name], [loadModule] first asks for the library
    at the base directory, a separator, the entry's name with every dot
    turned into the separator, and [.pyd] on Windows, [.so] elsewhere; when
    the library opens, it next asks for the symbol made of [init] before
    Python 3, [PyInit_] from Python 3 on, and the last component of the
    name. *)
Theorem shlib_file_path_and_entry_symbol (w : World) (module_name : string)
    (entry : Entry.t) :
  is_shlib_entry entry = true →
  let prefix := if PYTHON_VERSION B <? 300 then "init" else "PyInit_" in
  let filename :=
    getBinaryDirectoryHostEncoded E +:+
    String SEP (copyModulenameAsPath (Entry.name entry)) +:+
    (if _WIN32 B then ".pyd" else ".so") in
  let symbol := prefix +:+ leaf_name (Entry.name entry) in
  (String.length filename ≤ MAXPATHLEN B)%nat →
  (String.length symbol < 1024)%nat →
  (∃ rest,
     trace (snd (loadModule module_name entry w))
     = trace w ++ (EvOpenLibrary filename (open_flags (host w)), open_state (host w)) :: rest
     ∧ ∀ lib,
         open_library E filename (open_flags (host w)) (open_state (host w)) = Some lib →
         ∃ rest', rest = (EvFindSymbol lib symbol, open_state (host w)) :: rest')
  ∧ String.list_ascii_of_string (copyModulenameAsPath (Entry.name entry))
    = (λ c, if Ascii.eqb c "."%char then SEP else c)
        <$> String.list_ascii_of_string (Entry.name entry)
  ∧ (∀ pkg leaf, Entry.name entry = pkg +:+ String "."%char leaf →
       ¬ CString.contains "."%char leaf → leaf_name (Entry.name entry) = leaf)
  ∧ (¬ CString.contains "."%char (Entry.name entry) →
       leaf_name (Entry.name entry) = Entry.name entry).
Proof.
  intros Hkind prefix filename symbol Hfile Hsymbol.
  assert (Hname : entry_function_name (leaf_name (Entry.name entry)) = symbol).
  { unfold entry_function_name, CString.snprintf. apply take_all. cbn.
    fold prefix. fold symbol. lia. }
  split; [|split; [|split]].
  - rewrite (loadModule_shlib_trace _ _ _ Hkind Hfile), callIntoShlibModule_run.
    rewrite Hname. fold filename. change (shlib_filename entry) with filename.
    destruct (open_library E filename _ _) as [lib|]; cbn; last first.
    { eexists. split; [done|]. intros ? [=]. }
    destruct (find_symbol E lib _) as [ep|]; cbn.
    + unfold function.
      destruct (initialize_extension_module_context (Entry.name entry) filename
                  (package_of (Entry.name entry)) ep
                  (resolved (Entry.name entry) filename lib w))
        as (_ & evs & Htr & _).
      destruct (initialize_extension_module _ _ _ _ _) as [[?|?| | |] w1]; cbn in *.
      all: rewrite Htr, <- app_assoc; cbn.
      all: rewrite Hname.
      all: eexists; (split; [done|]); intros ? [= <-]; by eexists.
    + rewrite Hname. eexists. split; [done|]. intros ? [= <-]. by eexists.
  - apply copyModulenameAsPath_map.
  - intros pkg leaf -> Hleaf. by apply leaf_name_dotted.
  - apply leaf_name_plain.
Qed.

(** *** The orchestration *)

Lemma loadTriggeredModule_overflow (name trigger_name : string) (w : World) :
  (2048 ≤ String.length (name +:+ trigger_name))%nat →
  loadTriggeredModule name trigger_name w = (Undefined, w).
Proof.
  intros Hover. unfold loadTriggeredModule. run. by rewrite char_array_overflow.
Qed.

Lemma loadTriggeredModule_run (name trigger_name : string) (w : World)
    (table : positive) :
  loader_entries w = Some table →
  (String.length (name +:+ trigger_name) < 2048)%nat →
  loadTriggeredModule name trigger_name w =
  match findEntry_scan (name +:+ trigger_name) (table_at E table) with
  | None => (Returns tt, w)
  | Some t =>
      match Entry.python_initfunc t with
      | None => (Undefined, w)
      | Some f =>
          let w1 := mkWorld (run_initfunc E f (host w)) (loader_entries w)
                      (metapath_based_loader w)
                      (trace w ++ [(EvInitFunc (name +:+ trigger_name) f, host w)]) in
          match error_indicator (host w1) with
          | Some _ => (Aborted, with_host (with_error_indicator None) w1)
          | None => (Returns tt, w1)
          end
      end
  end.
Proof.
  intros Htab Hfits. unfold loadTriggeredModule, call_python_initfunc, ERROR_OCCURRED,
    PyErr_Print.
  run. rewrite char_array_fits by done. cbn. rewrite (findEntry_run _ _ _ Htab). cbn.
  destruct (findEntry_scan _ _) as [t|] eqn:Hfind; cbn; [|done].
  apply findEntry_scan_Some in Hfind as [_ ->].
  destruct (Entry.python_initfunc t); cbn; [|done].
  by destruct (error_indicator _).
Qed.

Lemma emitsF_loadTriggeredModule (name trigger_name : string) :
  emitsF (loads_only (name +:+ trigger_name)) (loadTriggeredModule name trigger_name).
Proof.
  intros w.
  destruct (Nat.lt_ge_cases (String.length (name +:+ trigger_name)) 2048)
    as [Hfits|Hover]; last first.
  { rewrite (loadTriggeredModule_overflow _ _ _ Hover). exists [].
    by rewrite app_nil_r. }
  destruct (loader_entries w) as [table|] eqn:Htab.
  - rewrite (loadTriggeredModule_run _ _ _ _ Htab Hfits).
    destruct (findEntry_scan _ _) as [t|]; [|by exists []; rewrite app_nil_r].
    destruct (Entry.python_initfunc t) as [f|]; [|by exists []; rewrite app_nil_r].
    cbn. destruct (error_indicator _); cbn; eexists; (split; [done|]);
      by repeat constructor.
  - exists []. unfold loadTriggeredModule, findEntry. run.
    rewrite char_array_fits by done. cbn. rewrite Htab. cbn.
    by rewrite app_nil_r.
Qed.

Lemma import_registered_run (module_name name : string) (entry : Entry.t)
    (w : World) (table : positive) :
  loader_entries w = Some table →
  findEntry_scan name (table_at E table) = Some entry →
  IMPORT_COMPILED_MODULE module_name name w = import_registered module_name name entry w.
Proof.
  intros Htab Hfind. unfold IMPORT_COMPILED_MODULE, import_registered. run.
  rewrite (findEntry_run _ _ _ Htab), Hfind. cbn.
  destruct (loadTriggeredModule name "-preLoad" w) as [[[]| | |] w1]; cbn; try done.
  destruct (loadModule module_name entry w1) as [[[r|]| | |] w2]; cbn; try done.
Qed.

Lemma emitsF_import_registered (P : Event → Prop) (module_name name : string)
    (entry : Entry.t) :
  (∀ ev, loads_only (name +:+ "-preLoad") ev → P ev) →
  (∀ ev, loads_only (Entry.name entry) ev → P ev) →
  (∀ ev, loads_only (name +:+ "-postLoad") ev → P ev) →
  emitsF P (import_registered module_name name entry).
Proof.
  intros Hpre Hbody Hpost. apply emitsF_function.
  apply emits_bind.
  { apply emits_call. intros w.
    destruct (emitsF_loadTriggeredModule name "-preLoad" w) as (evs & Ht & Hall).
    exists evs. split; [done|]. eapply Forall_impl; [done|]. naive_solver. }
  intros _. apply emits_bind.
  { apply emits_call. intros w.
    destruct (emitsF_loadModule module_name entry w) as (evs & Ht & Hall).
    exists evs. split; [done|]. eapply Forall_impl; [done|]. naive_solver. }
  intros [r|]; [|apply emits_return].
  apply emits_bind; [|intros _; apply emits_return].
  apply emits_call. intros w.
  destruct (emitsF_loadTriggeredModule name "-postLoad" w) as (evs & Ht & Hall).
  exists evs. split; [done|]. eapply Forall_impl; [done|]. naive_solver.
Qed.

Lemma string_length_app (s1 s2 : string) :
  String.length (s1 +:+ s2) = (String.length s1 + String.length s2)%nat.
Proof.
  induction s1 as [|a s1 IH]; [done|].
  change (String a s1 +:+ s2) with (String a (s1 +:+ s2)). cbn. by rewrite IH.
Qed.

Lemma name_ne_trigger (name : string) : name ≠ name +:+ "-preLoad".
Proof.
  intros H. apply (f_equal String.length) in H.
  rewrite string_length_app in H. cbn in H. lia.
Qed.

Lemma postLoad_ne_preLoad (name : string) : name +:+ "-postLoad" ≠ name +:+ "-preLoad".
Proof. by intros H%(inj (String.app name)). Qed.

(** After the events of the pre-load trigger nothing calls the trigger's
    initialisation function again. *)
Lemma import_trace (module_name name : string) (w : World) (table : positive) :
  loader_entries w = Some table →
  is_Some (findEntry_scan name (table_at E table)) ∨ hasFrozenModule name (host w) = true →
  (String.length (name +:+ "-preLoad") < 2048)%nat →
  ∃ rest,
    trace (snd (IMPORT_COMPILED_MODULE module_name name w))
    = trace w ++ preload_events name (table_at E table) (host w) ++ rest
    ∧ Forall (λ x, ∀ g, fst x ≠ EvInitFunc (name +:+ "-preLoad") g) rest.
Proof.
  intros Htab Hknown Hfits. unfold preload_events.
  assert (Hbody : ∀ e ev, loads_only (Entry.name e) ev → Entry.name e = name →
                          ∀ g, ev ≠ EvInitFunc (name +:+ "-preLoad") g).
  { intros e ev Hev He g ->. cbn in Hev. rewrite He in Hev.
    by apply (name_ne_trigger name). }
  assert (Hpost : ∀ ev, loads_only (name +:+ "-postLoad") ev →
                        ∀ g, ev ≠ EvInitFunc (name +:+ "-preLoad") g).
  { intros ev Hev g ->. cbn in Hev. by apply (postLoad_ne_preLoad name). }
  destruct (findEntry_scan name (table_at E table)) as [entry|] eqn:Hfind.
  - rewrite (import_registered_run _ _ _ _ _ Htab Hfind).
    apply findEntry_scan_Some in Hfind as [_ Hname].
    unfold import_registered. run.
    rewrite (loadTriggeredModule_run _ _ _ _ Htab Hfits).
    destruct (findEntry_scan (name +:+ "-preLoad") _) as [t|]; cbn.
    1: destruct (Entry.python_initfunc t) as [f|]; cbn.
    1: destruct (error_indicator (run_initfunc E f (host w))); cbn.
    all: try (exists []; split; [by rewrite ?app_nil_r | by constructor]).
    all: match goal with
         | |- context [loadModule ?m ?e ?w1] =>
             destruct (emitsF_loadModule m e w1) as (evs & Ht & Hall);
             destruct (loadModule m e w1) as [[[r|]| | |] w2]
         end; cbn in *.
    all: try (exists evs; split; [by rewrite Ht, <- ?app_assoc|];
              eapply Forall_impl; [done|]; intros [ev ?] ?; cbn in *; by eauto).
    all: destruct (emitsF_loadTriggeredModule name "-postLoad" w2)
           as (evs' & Ht' & Hall');
         destruct (loadTriggeredModule name "-postLoad" w2) as [[[]| | |] w3];
         cbn in *.
    all: exists (evs ++ evs'); (split; [by rewrite Ht', Ht, <- ?app_assoc|]).
    all: apply Forall_app; split; (eapply Forall_impl; [done|]);
         intros [ev ?] ?; cbn in *; by eauto.
  - destruct Hknown as [[? [=]]|Hfrozen].
    unfold IMPORT_COMPILED_MODULE, LOOKUP_SUBSCRIPT, PyErr_SetObject. run.
    rewrite (findEntry_run _ _ _ Htab), Hfind. cbn. rewrite Hfrozen. cbn.
    rewrite (loadTriggeredModule_run _ _ _ _ Htab Hfits).
    destruct (findEntry_scan (name +:+ "-preLoad") _) as [t|]; cbn.
    1: destruct (Entry.python_initfunc t) as [f|]; cbn.
    1: destruct (error_indicator (run_initfunc E f (host w))); cbn.
    all: try (exists []; split; [by rewrite ?app_nil_r | by constructor]).
    all: match goal with
         | |- context [PyImport_ImportFrozenModule E ?n ?h] =>
             destruct (PyImport_ImportFrozenModule E n h) as [h2 res]
         end; cbn.
    all: destruct (res =? -1); cbn.
    all: try (eexists; split; [by rewrite <- ?app_assoc|]; by repeat constructor).
    all: destruct (res =? 1); cbn.
    all: try (eexists; split; [by rewrite <- ?app_assoc|]; by repeat constructor).
    all: destruct (sys_modules h2 !! module_name); cbn.
    all: try (eexists; split; [by rewrite <- ?app_assoc|]; by repeat constructor).
    all: match goal with
         | |- context [loadTriggeredModule ?n "-postLoad" ?w2] =>
             destruct (emitsF_loadTriggeredModule n "-postLoad" w2)
               as (evs' & Ht' & Hall');
             destruct (loadTriggeredModule n "-postLoad" w2) as [[[]| | |] w3]
         end; cbn in *.
    all: eexists (_ :: evs'); (split; [by rewrite Ht', <- ?app_assoc|]).
    all: constructor; [done|]; (eapply Forall_impl; [done|]);
         intros [ev ?] ?; cbn in *; by eauto.
Qed.

(** A pre-load trigger that leaves an error ends the load. *)
Lemma import_stops_at_failing_trigger (module_name name : string) (w : World)
    (table : positive) (t : Entry.t) (f : InitFunc) :
  loader_entries w = Some table →
  is_Some (findEntry_scan name (table_at E table)) ∨ hasFrozenModule name (host w) = true →
  (String.length (name +:+ "-preLoad") < 2048)%nat →
  findEntry_scan (name +:+ "-preLoad") (table_at E table) = Some t →
  Entry.python_initfunc t = Some f →
  is_Some (error_indicator (run_initfunc E f (host w))) →
  IMPORT_COMPILED_MODULE module_name name w
  = (Aborted,
     mkWorld (with_error_indicator None (run_initfunc E f (host w)))
             (loader_entries w) (metapath_based_loader w)
             (trace w ++ [(EvInitFunc (name +:+ "-preLoad") f, host w)])).
Proof.
  intros Htab Hknown Hfits Ht Hf [e He].
  unfold IMPORT_COMPILED_MODULE. run.
  rewrite (findEntry_run _ _ _ Htab). cbn.
  destruct (findEntry_scan name (table_at E table)) as [entry|] eqn:Hentry; cbn.
  - rewrite (loadTriggeredModule_run _ _ _ _ Htab Hfits), Ht, Hf. cbn. by rewrite He.
  - destruct Hknown as [[? [=]]|Hfrozen]. rewrite Hfrozen. cbn.
    rewrite (loadTriggeredModule_run _ _ _ _ Htab Hfits), Ht, Hf. cbn. by rewrite He.
Qed.

(** C4: for a name that has an entry or is frozen and whose trigger name
    fits the 2048 bytes of [trigger_module_name], when the table has an entry
    named with the suffix [-preLoad] that has an initialisation function, the
    load calls that function first, in the state the load started in, and
    nothing later in the load calls it again; the function does run: the
    trigger step hands on the state the function left, and when that holds an
    error the load calls nothing more and does not return.  When the table
    has no such entry, the trigger step returns normally without any effect
    and the load never calls such a function. *)
Theorem preload_trigger_once_and_first (w : World) (table : positive)
    (module_name foo : string) :
  loader_entries w = Some table →
  is_Some (findEntry_scan foo (table_at E table)) ∨ hasFrozenModule foo (host w) = true →
  let trigger := foo +:+ "-preLoad" in
  (String.length trigger < 2048)%nat →
  (∀ t f,
     findEntry_scan trigger (table_at E table) = Some t →
     Entry.python_initfunc t = Some f →
     ∃ rest,
       trace (snd (IMPORT_COMPILED_MODULE module_name foo w))
       = trace w ++ (EvInitFunc trigger f, host w) :: rest
       ∧ Forall (λ x, ∀ g, fst x ≠ EvInitFunc trigger g) rest
       ∧ match error_indicator (run_initfunc E f (host w)) with
         | None =>
             loadTriggeredModule foo "-preLoad" w
             = (Returns tt,
                mkWorld (run_initfunc E f (host w)) (loader_entries w)
                        (metapath_based_loader w)
                        (trace w ++ [(EvInitFunc trigger f, host w)]))
         | Some _ =>
             rest = [] ∧ ∀ r, fst (IMPORT_COMPILED_MODULE module_name foo w) ≠ Returns r
         end)
  ∧ (findEntry_scan trigger (table_at E table) = None →
     loadTriggeredModule foo "-preLoad" w = (Returns tt, w)
     ∧ ∃ evs,
         trace (snd (IMPORT_COMPILED_MODULE module_name foo w)) = trace w ++ evs
         ∧ Forall (λ x, ∀ g, fst x ≠ EvInitFunc trigger g) evs).
Proof.
  intros Htab Hknown trigger Hfits.
  destruct (import_trace module_name foo w table Htab Hknown Hfits)
    as (rest & Htr & Hall).
  unfold preload_events in Htr. subst trigger. split.
  - intros t f Ht Hf. rewrite Ht, Hf in Htr. exists rest.
    split; [done|]. split; [done|].
    destruct (error_indicator (run_initfunc E f (host w))) as [e|] eqn:He.
    + assert (Hstop := import_stops_at_failing_trigger module_name foo w table t f
                         Htab Hknown Hfits Ht Hf).
      rewrite He in Hstop. specialize (Hstop (ltac:(by eexists))).
      rewrite Hstop in Htr |- *. cbn in Htr. apply app_inv_head in Htr.
      split; [by injection Htr | done].
    + rewrite (loadTriggeredModule_run _ _ _ _ Htab Hfits), Ht, Hf. cbn.
      by rewrite He.
  - intros Hnone. rewrite Hnone in Htr. split.
    + by rewrite (loadTriggeredModule_run _ _ _ _ Htab Hfits), Hnone.
    + by exists rest.
Qed.

(** C10: when the look-up finds an entry for the name, the load is the load
    of that entry between its triggers, whether or not the name is also in
    the frozen table, and it never asks the interpreter for a frozen module;
    a load that does ask for one has found no entry. *)
Theorem registry_entry_before_frozen_module (w : World) (table : positive)
    (module_name name : string) :
  loader_entries w = Some table →
  (∀ entry,
     findEntry_scan name (table_at E table) = Some entry →
     IMPORT_COMPILED_MODULE module_name name w
     = import_registered module_name name entry w
     ∧ ∃ evs,
         trace (snd (IMPORT_COMPILED_MODULE module_name name w)) = trace w ++ evs
         ∧ Forall (λ x, ∀ n, fst x ≠ EvImportFrozen n) evs)
  ∧ (∀ evs i n h,
       trace (snd (IMPORT_COMPILED_MODULE module_name name w)) = trace w ++ evs →
       evs !! i = Some (EvImportFrozen n, h) →
       findEntry_scan name (table_at E table) = None).
Proof.
  intros Htab.
  assert (Hfound : ∀ entry,
     findEntry_scan name (table_at E table) = Some entry →
     IMPORT_COMPILED_MODULE module_name name w
     = import_registered module_name name entry w
     ∧ ∃ evs,
         trace (snd (IMPORT_COMPILED_MODULE module_name name w)) = trace w ++ evs
         ∧ Forall (λ x, ∀ n, fst x ≠ EvImportFrozen n) evs).
  { intros entry Hfind.
    rewrite (import_registered_run _ _ _ _ _ Htab Hfind). split; [done|].
    apply (emitsF_import_registered (λ ev, ∀ n, ev ≠ EvImportFrozen n)).
    all: by intros [] Hev n. }
  split; [done|].
  intros evs i n h Htr Hi.
  destruct (findEntry_scan name (table_at E table)) as [entry|] eqn:Hfind; [|done].
  destruct (Hfound entry eq_refl) as (_ & evs' & Htr' & Hall).
  rewrite Htr in Htr'. apply app_inv_head in Htr' as <-.
  by destruct (Forall_lookup_1 _ _ _ _ Hall Hi n).
Qed.

(** ** Further properties *)

(** *** Table look-ups and paths *)

(** X1: [findEntry] answers in table order: the entry found is the first one
    with the name, also when a later entry has the same name, and no entry is
    found exactly when no name matches. *)
Theorem findEntry_first_match (name : string) (before after : list Entry.t)
    (entry : Entry.t) (w : World) (table : positive) :
  loader_entries w = Some table →
  table_at E table = before ++ entry :: after →
  Entry.name entry = name →
  (∀ e, e ∈ before → Entry.name e ≠ name) →
  findEntry name w = (Returns (Some entry), w).
Proof.
  intros Htab Hsplit Hname Hbefore.
  rewrite (findEntry_run _ _ _ Htab), Hsplit. do 2 f_equal.
  clear Hsplit. induction before as [|x before IH]; cbn.
  - rewrite Hname. by rewrite String.eqb_refl.
  - destruct (String.eqb name (Entry.name x)) eqn:Heq.
    + apply String.eqb_eq in Heq. destruct (Hbefore x); [left | done].
    + apply IH. intros e He. apply Hbefore. by right.
Qed.

(** X2: [copyModulenameAsPath] keeps the length, leaves a name without dots
    as it is, and, when the separator is not itself a dot, leaves no dot
    behind. *)
Theorem copyModulenameAsPath_shape (module_name : string) :
  String.length (copyModulenameAsPath module_name) = String.length module_name
  ∧ (¬ CString.contains "."%char module_name →
     copyModulenameAsPath module_name = module_name)
  ∧ (SEP ≠ "."%char → ¬ CString.contains "."%char (copyModulenameAsPath module_name)).
Proof.
  unfold CString.contains. induction module_name as [|c s (IHlen & IHsame & IHdots)]; cbn.
  - split; [done|]. split; [done|]. intros _ H. by apply elem_of_nil in H.
  - split; [by rewrite IHlen|]. split.
    + intros Hno. destruct (Ascii.eqb c ".") eqn:Hc.
      * apply Ascii.eqb_eq in Hc as ->. destruct Hno. left.
      * rewrite IHsame; [done|]. intros Hin. apply Hno. by right.
    + intros Hsep [Hhead|Hin]%elem_of_cons; [|by apply IHdots].
      destruct (Ascii.eqb c ".") eqn:Hc; [done|].
      apply Ascii.eqb_neq in Hc. done.
Qed.

(** *** The loader's globals *)

Section Keeps.

Context {R : Type}.

Lemma keeps_same {A} (m : Stmt R A) :
  (∀ w, loader_state (snd (m w)) = loader_state w) → keeps m.
Proof. done. Qed.

Lemma keeps_ret {A} (a : A) : keeps (mret a : Stmt R A).
Proof. done. Qed.

Lemma keeps_return {A} (r : R) : keeps (return_ r : Stmt R A).
Proof. done. Qed.

Lemma keeps_abort {A} : keeps (abort : Stmt R A).
Proof. done. Qed.

Lemma keeps_undefined {A} : keeps (undefined : Stmt R A).
Proof. done. Qed.

Lemma keeps_char_array (size : nat) (s : string) :
  keeps (char_array size s : Stmt R unit).
Proof. intros w. unfold char_array. by destruct (_ <? _)%nat. Qed.

Lemma keeps_assert (b : bool) : keeps (assert b : Stmt R unit).
Proof. intros w. unfold assert. by destruct b. Qed.

Lemma keeps_get : keeps (get : Stmt R World).
Proof. done. Qed.

Lemma keeps_gets {A} (f : Host → A) : keeps (gets f : Stmt R A).
Proof. done. Qed.

Lemma keeps_modify_host (f : Host → Host) : keeps (modify_host f : Stmt R unit).
Proof. done. Qed.

Lemma keeps_emit (ev : Event) : keeps (emit ev : Stmt R unit).
Proof. done. Qed.

Lemma keeps_call_host {A} (ev : Event) (f : Host → Host * A) :
  keeps (call_host ev f : Stmt R A).
Proof. intros w. unfold call_host. by destruct (f (host w)). Qed.

Lemma keeps_bind {A C} (m : Stmt R A) (f : A → Stmt R C) :
  keeps m → (∀ a, keeps (f a)) → keeps (m ≫= f).
Proof.
  intros Hm Hf w. unfold mbind, Stmt_bind. specialize (Hm w).
  destruct (m w) as [[a|r| | |] w1]; cbn in *; try done.
  by rewrite (Hf a w1).
Qed.

Lemma keeps_call {A} (f : Fn A) : keepsF f → keeps (call f : Stmt R A).
Proof.
  intros Hf w. unfold call. specialize (Hf w).
  by destruct (f w) as [[a| | |] w1].
Qed.

Lemma keeps_when (c : bool) (s : Stmt R unit) : keeps s → keeps (when c s).
Proof. intros H. by destruct c. Qed.

End Keeps.

Lemma keepsF_function {R} (b : Stmt R R) : keeps b → keepsF (function b).
Proof.
  intros Hb w. unfold function. specialize (Hb w).
  by destruct (b w) as [[a|r| | |] w1].
Qed.

Ltac keeps_step :=
  first
    [ apply keeps_bind; [|intros ?]
    | apply keeps_ret | apply keeps_return | apply keeps_abort
    | apply keeps_undefined | apply keeps_assert | apply keeps_get
    | apply keeps_gets | apply keeps_modify_host | apply keeps_when
    | apply keeps_emit | apply keeps_call_host | apply keeps_char_array
    | match goal with
      | |- keeps (if ?b then _ else _) => destruct b
      | |- keeps (match ?x with _ => _ end) => destruct x
      end ].

Ltac keeps := repeat keeps_step.

Lemma keeps_resources {R} (c : HostCall) : keeps (resources c : Stmt R bool).
Proof. unfold resources, PyErr_SetObject. keeps. Qed.

Lemma keepsF_findEntry (name : string) : keepsF (findEntry name).
Proof. apply keepsF_function. keeps. Qed.

Lemma keepsF_loadTriggeredModule (name trigger_name : string) :
  keepsF (loadTriggeredModule name trigger_name).
Proof.
  apply keepsF_function. unfold call_python_initfunc, ERROR_OCCURRED, PyErr_Print.
  repeat first [ apply keeps_call, keepsF_findEntry | keeps_step ].
Qed.

Lemma keepsF_callIntoShlibModule (full_name filename : string) :
  keepsF (callIntoShlibModule full_name filename).
Proof.
  apply keepsF_function.
  destruct (CString.strrchr full_name ".") as [dot|]; cbn zeta.
  all: unfold resolve_entrypoint, initialize_extension_module, SetErrorMode,
         PyErr_SetObject, PyDict_GetItemString_modules, PyModule_GetDef,
         PyModule_AddStringConstant, fixup, CLEAR_ERROR_OCCURRED.
  all: repeat first [ apply keeps_resources | keeps_step ].
Qed.

Lemma keepsF_loadModule (module_name : string) (entry : Entry.t) :
  keepsF (loadModule module_name entry).
Proof.
  apply keepsF_function.
  unfold PyModule_New, PyDict_SetItemString_modules, PyDict_GetItemString_modules,
    PyList_New, PyList_SetItem, PyObject_SetAttr, PyErr_SetObject,
    PyErr_Print, ERROR_OCCURRED, LOOKUP_SUBSCRIPT, call_python_initfunc.
  repeat first
    [ apply keeps_resources
    | apply keeps_call, keepsF_callIntoShlibModule
    | keeps_step ].
Qed.

Lemma keepsF_IMPORT_COMPILED_MODULE (module_name name : string) :
  keepsF (IMPORT_COMPILED_MODULE module_name name).
Proof.
  apply keepsF_function. unfold LOOKUP_SUBSCRIPT, PyErr_SetObject.
  repeat first
    [ apply keeps_call, keepsF_findEntry
    | apply keeps_call, keepsF_loadTriggeredModule
    | apply keeps_call, keepsF_loadModule
    | keeps_step ].
Qed.

(** X4: none of the operations the interpreter calls on the loader, and no
    load, changes the table pointer or the loader object: only the
    registration writes them. *)
Theorem only_registration_writes_loader_state (args : Parse)
    (module_name name : string) (w : World) :
  loader_state (snd (_path_unfreezer_find_module args w)) = loader_state w
  ∧ loader_state (snd (_path_unfreezer_load_module args w)) = loader_state w
  ∧ loader_state (snd (_path_unfreezer_is_package args w)) = loader_state w
  ∧ loader_state (snd (_path_unfreezer_find_spec args w)) = loader_state w
  ∧ loader_state (snd (IMPORT_COMPILED_MODULE module_name name w)) = loader_state w.
Proof.
  repeat split.
  - revert w. apply keepsF_function. unfold INCREASE_REFCOUNT_loader. keeps.
  - revert w. apply keepsF_function.
    repeat first [ apply keeps_call, keepsF_IMPORT_COMPILED_MODULE | keeps_step ].
  - revert w. apply keepsF_function.
    repeat first [ apply keeps_call, keepsF_findEntry | keeps_step ].
  - revert w. apply keepsF_function.
    repeat first [ apply keeps_call, keepsF_findEntry | keeps_step ].
  - apply keepsF_IMPORT_COMPILED_MODULE.
Qed.

(** *** The orchestration, path by path *)

(** X5: a name the legacy finder declines is not loaded: [load_module] and
    [IMPORT_COMPILED_MODULE] answer with the None object and have no effect at
    all, not even a trigger that happens to be registered for the name. *)
Theorem declined_name_is_not_loaded (w : World) (table : positive) (cls : LoaderClass)
    (module_name n : string) :
  loader_entries w = Some table →
  metapath_based_loader w = Some cls →
  _path_unfreezer_find_module (Parsed (PyStr n)) w = (Returns (Some Py_None), w) →
  IMPORT_COMPILED_MODULE module_name n w = (Returns (Some Py_None), w)
  ∧ _path_unfreezer_load_module (Parsed (PyStr n)) w = (Returns (Some Py_None), w).
Proof.
  intros Htab Hcls Hfind.
  rewrite (find_module_run w table cls n Htab Hcls) in Hfind.
  destruct (find_module_scan n (table_at E table) || hasFrozenModule n (host w))
    eqn:Hknown; [by simplify_eq|].
  apply orb_false_iff in Hknown as [Hscan Hfrozen].
  rewrite find_module_scan_findEntry in Hscan.
  destruct (findEntry_scan n (table_at E table)) as [e|] eqn:Hentry.
  { rewrite bool_decide_eq_true_2 in Hscan; [done | by eexists]. }
  assert (Himport : ∀ m, IMPORT_COMPILED_MODULE m n w = (Returns (Some Py_None), w)).
  { intros m. unfold IMPORT_COMPILED_MODULE. run.
    rewrite (findEntry_run _ _ _ Htab), Hentry. cbn. by rewrite Hfrozen. }
  split; [apply Himport|].
  unfold _path_unfreezer_load_module. run. by rewrite Himport.
Qed.

(** X7: for a name with an entry whose post-load trigger name fits the 2048
    bytes of [trigger_module_name]: a load of the entry that returns NULL is
    answered with NULL at once, without the trigger; after a load that
    returned a module the post-load trigger, if the table has one, is called
    once, in the state the load left, and the module is handed on in the state
    the trigger left; when the trigger leaves an error nothing more is called
    and the import does not return. *)
Theorem postload_trigger_only_after_success (w w1 w2 : World) (table : positive)
    (module_name n : string) (entry : Entry.t) (r : option PyObj) :
  loader_entries w = Some table →
  findEntry_scan n (table_at E table) = Some entry →
  (String.length (n +:+ "-postLoad") < 2048)%nat →
  loadTriggeredModule n "-preLoad" w = (Returns tt, w1) →
  loadModule module_name entry w1 = (Returns r, w2) →
  match r with
  | None => IMPORT_COMPILED_MODULE module_name n w = (Returns None, w2)
  | Some m =>
      match findEntry_scan (n +:+ "-postLoad") (table_at E table) with
      | None => IMPORT_COMPILED_MODULE module_name n w = (Returns (Some m), w2)
      | Some t =>
          ∀ f, Entry.python_initfunc t = Some f →
            let called :=
              mkWorld (run_initfunc E f (host w2)) (loader_entries w2)
                      (metapath_based_loader w2)
                      (trace w2 ++ [(EvInitFunc (n +:+ "-postLoad") f, host w2)]) in
            match error_indicator (run_initfunc E f (host w2)) with
            | None => IMPORT_COMPILED_MODULE module_name n w = (Returns (Some m), called)
            | Some _ =>
                trace (snd (IMPORT_COMPILED_MODULE module_name n w)) = trace called
                ∧ ∀ r', fst (IMPORT_COMPILED_MODULE module_name n w) ≠ Returns r'
            end
      end
  end.
Proof.
  intros Htab Hentry Hfits Hpre Hload.
  assert (Htab2 : loader_entries w2 = Some table).
  { pose proof (keepsF_loadTriggeredModule n "-preLoad" w) as H1.
    pose proof (keepsF_loadModule module_name entry w1) as H2.
    rewrite Hpre in H1. rewrite Hload in H2. cbn in *.
    unfold loader_state in *. congruence. }
  rewrite (import_registered_run _ _ _ _ _ Htab Hentry).
  unfold import_registered. run. rewrite Hpre. cbn. rewrite Hload. cbn.
  destruct r as [m|]; [|done].
  rewrite (loadTriggeredModule_run _ _ _ _ Htab2 Hfits).
  destruct (findEntry_scan (n +:+ "-postLoad") _) as [t|]; cbn; [|done].
  intros f ->. cbn. by destruct (error_indicator _).
Qed.

(** X8: for a frozen name without entry the interpreter's frozen import is
    asked once, after the pre-load trigger: its answer -1 is passed on as
    NULL, the answer 1 leads to the module table's entry for the requested
    name and the post-load trigger (or, when the table has no such entry, to
    the None object with a [KeyError] left signalled and no trigger), and any
    other answer to the None object without a trigger. *)
Theorem frozen_import_answers (w w1 : World) (table : positive)
    (module_name n : string) (h2 : Host) (res : Z) :
  loader_entries w = Some table →
  findEntry_scan n (table_at E table) = None →
  hasFrozenModule n (host w) = true →
  loadTriggeredModule n "-preLoad" w = (Returns tt, w1) →
  PyImport_ImportFrozenModule E n (host w1) = (h2, res) →
  let w2 := mkWorld h2 (loader_entries w1) (metapath_based_loader w1)
                    (trace w1 ++ [(EvImportFrozen n, host w1)]) in
  (res = -1 → IMPORT_COMPILED_MODULE module_name n w = (Returns None, w2))
  ∧ (res = 1 →
     match sys_modules h2 !! module_name with
     | Some m =>
         IMPORT_COMPILED_MODULE module_name n w
         = function (call (loadTriggeredModule n "-postLoad");; return_ (Some m)) w2
     | None =>
         IMPORT_COMPILED_MODULE module_name n w
         = (Returns (Some Py_None),
            with_host (with_error_indicator (Some (KeyError module_name))) w2)
     end)
  ∧ (res ≠ -1 → res ≠ 1 →
     IMPORT_COMPILED_MODULE module_name n w = (Returns (Some Py_None), w2)).
Proof.
  intros Htab Hentry Hfrozen Hpre Himp w2.
  assert (Hrun : IMPORT_COMPILED_MODULE module_name n w
    = if res =? -1 then (Returns None, w2)
      else if res =? 1 then
        match sys_modules h2 !! module_name with
        | Some m =>
            function (call (loadTriggeredModule n "-postLoad");; return_ (Some m)) w2
        | None =>
            (Returns (Some Py_None),
             with_host (with_error_indicator (Some (KeyError module_name))) w2)
        end
      else (Returns (Some Py_None), w2)).
  { unfold IMPORT_COMPILED_MODULE, LOOKUP_SUBSCRIPT, PyErr_SetObject. run.
    rewrite (findEntry_run _ _ _ Htab), Hentry. cbn. rewrite Hfrozen. cbn.
    rewrite Hpre. cbn. rewrite Himp. cbn.
    destruct (res =? -1); [done|]. destruct (res =? 1); [|done]. cbn.
    destruct (sys_modules h2 !! module_name); cbn; [|done].
    by destruct (loadTriggeredModule n "-postLoad" _) as [[[]| | |] w3]. }
  rewrite Hrun. split; [|split].
  - by intros ->.
  - intros ->. cbn. by destruct (sys_modules h2 !! module_name).
  - intros H1 H2. apply Z.eqb_neq in H1, H2. by rewrite H1, H2.
Qed.

(** *** The bytecode loader, path by path *)

(** X9: a blob that does not unmarshal ends the load in [abort ()] after the
    error has been printed: no module object has been made and the module
    table is as the unmarshalling left it. *)
Theorem corrupt_blob_aborts_before_registration (w : World) (module_name : string)
    (entry : Entry.t) (h1 : Host) :
  is_bytecode_entry entry = true →
  PyMarshal_ReadObjectFromString E (Entry.bytecode_str entry)
    (Entry.bytecode_size entry) (host w) = (h1, None) →
  loadModule module_name entry w
  = (Aborted,
     mkWorld (with_error_indicator None h1) (loader_entries w) (metapath_based_loader w)
             (trace w ++ [(EvUnmarshal (Entry.bytecode_str entry)
                                       (Entry.bytecode_size entry), host w)])).
Proof.
  intros Hkind Hum. unfold is_bytecode_entry, is_shlib_entry in Hkind.
  apply andb_true_iff in Hkind as [Hshlib Hbc]. apply negb_true_iff in Hshlib.
  unfold loadModule. rewrite Hshlib, Hbc. unfold PyErr_Print. run.
  by rewrite Hum.
Qed.

(** X10: a bytecode entry whose name is already in the module table is not
    loaded over the module that is there: the run ends in the failed
    assertion before a module object is made. *)
Theorem loaded_name_is_not_loaded_again (w : World) (module_name : string)
    (entry : Entry.t) (h1 : Host) (code : CodeObject) :
  is_bytecode_entry entry = true →
  PyMarshal_ReadObjectFromString E (Entry.bytecode_str entry)
    (Entry.bytecode_size entry) (host w) = (h1, Some code) →
  is_Some (sys_modules h1 !! Entry.name entry) →
  loadModule module_name entry w
  = (AssertionFailed,
     mkWorld h1 (loader_entries w) (metapath_based_loader w)
             (trace w ++ [(EvUnmarshal (Entry.bytecode_str entry)
                                       (Entry.bytecode_size entry), host w)])).
Proof.
  intros Hkind Hum [m Hm]. unfold is_bytecode_entry, is_shlib_entry in Hkind.
  apply andb_true_iff in Hkind as [Hshlib Hbc]. apply negb_true_iff in Hshlib.
  unfold loadModule. rewrite Hshlib, Hbc. unfold PyDict_GetItemString_modules. run.
  rewrite Hum. cbn. rewrite Hm. by rewrite bool_decide_eq_false_2.
Qed.

Lemma loadModule_bytecode_run (w : World) (module_name : string) (entry : Entry.t)
    (h1 h5 : Host) (code : CodeObject) (r : option PyObj) :
  is_bytecode_entry entry = true →
  PyMarshal_ReadObjectFromString E (Entry.bytecode_str entry)
    (Entry.bytecode_size entry) (host w) = (h1, Some code) →
  sys_modules h1 !! Entry.name entry = None →
  (String.length (module_path_buffer entry) < 1024)%nat →
  (∀ c h, host_call_fails E c h = false) →
  PyImport_ExecCodeModuleEx E (Entry.name entry) code (source_path entry)
    (prepared_state entry h1) = (h5, r) →
  loadModule module_name entry w
  = let w5 := mkWorld h5 (loader_entries w) (metapath_based_loader w)
                (trace w ++ bytecode_events entry code (host w) h1) in
    if 330 <=? PYTHON_VERSION B then
      match r with
      | None => (Undefined, w5)
      | Some m =>
          let loader := PyLoader <$> metapath_based_loader w in
          finish_load module_name
            (mkWorld (store_attr m "__loader__" loader h5)
                     (loader_entries w) (metapath_based_loader w)
                     (trace w5 ++ [(EvSetAttr m "__loader__" loader, h5)]))
      end
    else finish_load module_name w5.
Proof.
  intros Hkind Hum Hfree Hfits Hok Hexec.
  unfold is_bytecode_entry, is_shlib_entry in Hkind.
  apply andb_true_iff in Hkind as [Hshlib Hbc]. apply negb_true_iff in Hshlib.
  unfold loadModule. rewrite Hshlib, Hbc.
  unfold bytecode_events, prepared_state, source_path, package_path, new_module,
    finish_load, module_path_buffer in *.
  unfold PyModule_New, PyDict_SetItemString_modules, PyDict_GetItemString_modules,
    PyList_New, PyList_SetItem, PyObject_SetAttr, resources, PyErr_SetObject,
    PyErr_Print, ERROR_OCCURRED, LOOKUP_SUBSCRIPT.
  run. rewrite Hum. cbn. rewrite Hfree. cbn. repeat (rewrite Hok; cbn).
  rewrite char_array_fits by exact Hfits. cbn. clear Hfits.
  destruct (has_flag entry (NUITKA_PACKAGE_FLAG B)); cbn in *;
    repeat (rewrite Hok; cbn); rewrite Hexec; cbn.
  all: destruct (330 <=? PYTHON_VERSION B); cbn.
  all: destruct r as [m|]; cbn.
  all: repeat (rewrite Hok; cbn).
  all: rewrite <- ?app_assoc; cbn.
  all: repeat case_step; reflexivity.
Qed.

Lemma loadModule_bytecode_overflow (w : World) (module_name : string)
    (entry : Entry.t) (h1 : Host) (code : CodeObject) :
  is_bytecode_entry entry = true →
  PyMarshal_ReadObjectFromString E (Entry.bytecode_str entry)
    (Entry.bytecode_size entry) (host w) = (h1, Some code) →
  sys_modules h1 !! Entry.name entry = None →
  (1024 ≤ String.length (module_path_buffer entry))%nat →
  (∀ c h, host_call_fails E c h = false) →
  fst (loadModule module_name entry w) = Undefined.
Proof.
  intros Hkind Hum Hfree Hover Hok.
  unfold is_bytecode_entry, is_shlib_entry in Hkind.
  apply andb_true_iff in Hkind as [Hshlib Hbc]. apply negb_true_iff in Hshlib.
  unfold loadModule. rewrite Hshlib, Hbc.
  unfold module_path_buffer in Hover.
  unfold PyModule_New, PyDict_SetItemString_modules, PyDict_GetItemString_modules,
    resources, PyErr_SetObject.
  run. rewrite Hum. cbn. rewrite Hfree. cbn. repeat (rewrite Hok; cbn).
  by rewrite char_array_overflow by exact Hover.
Qed.

(** X11: when the blob unmarshals, the name is free, the path of the module
    fits the 1024 bytes of [buffer] and no allocation fails, a bytecode load
    makes the calls of [bytecode_events] in this order, the last of which
    executes the code under the path [source_path] in the state
    [prepared_state]; whatever follows stores an attribute, so the code is
    executed once. *)
Theorem bytecode_code_runs_once_with_source_path (w : World) (module_name : string)
    (entry : Entry.t) (h1 : Host) (code : CodeObject) :
  is_bytecode_entry entry = true →
  PyMarshal_ReadObjectFromString E (Entry.bytecode_str entry)
    (Entry.bytecode_size entry) (host w) = (h1, Some code) →
  sys_modules h1 !! Entry.name entry = None →
  (String.length (module_path_buffer entry) < 1024)%nat →
  (∀ c h, host_call_fails E c h = false) →
  ∃ rest,
    trace (snd (loadModule module_name entry w))
    = trace w ++ bytecode_events entry code (host w) h1 ++ rest
    ∧ Forall (λ x, ∃ o v, fst x = EvSetAttr o "__loader__" v) rest.
Proof.
  intros Hkind Hum Hfree Hfits Hok.
  destruct (PyImport_ExecCodeModuleEx E (Entry.name entry) code (source_path entry)
              (prepared_state entry h1)) as [h5 r] eqn:Hexec.
  rewrite (loadModule_bytecode_run w module_name entry h1 h5 code r
             Hkind Hum Hfree Hfits Hok Hexec).
  cbn zeta. unfold finish_load.
  destruct (330 <=? PYTHON_VERSION B); [destruct r as [m|]|]; cbn [host trace].
  all: try match goal with
           | |- context [error_indicator ?h] => destruct (error_indicator h)
           end.
  all: try match goal with
           | |- context [sys_modules ?h !! ?n] => destruct (sys_modules h !! n)
           end.
  all: cbn [snd trace with_host]; rewrite <- ?app_assoc.
  all: first [ by exists []; rewrite app_nil_r
             | eexists [_]; split; [reflexivity|]; repeat constructor; cbn; eauto ].
Qed.

(** X12: before Python 3.3 a bytecode load whose path fits the 1024 bytes
    of [buffer] and whose execution leaves an error gives NULL at once: the
    error stays signalled and nothing more is done to the state the execution
    left. *)
Theorem body_error_returns_null_before_330 (w : World) (module_name : string)
    (entry : Entry.t) (h1 h5 : Host) (code : CodeObject) (r : option PyObj)
    (e : PyExc) :
  PYTHON_VERSION B < 330 →
  is_bytecode_entry entry = true →
  PyMarshal_ReadObjectFromString E (Entry.bytecode_str entry)
    (Entry.bytecode_size entry) (host w) = (h1, Some code) →
  sys_modules h1 !! Entry.name entry = None →
  (String.length (module_path_buffer entry) < 1024)%nat →
  (∀ c h, host_call_fails E c h = false) →
  PyImport_ExecCodeModuleEx E (Entry.name entry) code (source_path entry)
    (prepared_state entry h1) = (h5, r) →
  error_indicator h5 = Some e →
  loadModule module_name entry w
  = (Returns None,
     mkWorld h5 (loader_entries w) (metapath_based_loader w)
             (trace w ++ bytecode_events entry code (host w) h1)).
Proof.
  intros Hv Hkind Hum Hfree Hfits Hok Hexec Herr.
  rewrite (loadModule_bytecode_run w module_name entry h1 h5 code r
             Hkind Hum Hfree Hfits Hok Hexec).
  cbn zeta. rewrite (proj2 (Z.leb_gt 330 _) Hv).
  unfold finish_load. cbn. by rewrite Herr.
Qed.

(** X13: from Python 3.3 on a bytecode load whose execution gives NULL goes on
    to store [__loader__] on that NULL: the behaviour is undefined. *)
Theorem null_body_result_is_dereferenced_from_330 (w : World) (module_name : string)
    (entry : Entry.t) (h1 h5 : Host) (code : CodeObject) :
  330 ≤ PYTHON_VERSION B →
  is_bytecode_entry entry = true →
  PyMarshal_ReadObjectFromString E (Entry.bytecode_str entry)
    (Entry.bytecode_size entry) (host w) = (h1, Some code) →
  sys_modules h1 !! Entry.name entry = None →
  (∀ c h, host_call_fails E c h = false) →
  PyImport_ExecCodeModuleEx E (Entry.name entry) code (source_path entry)
    (prepared_state entry h1) = (h5, None) →
  fst (loadModule module_name entry w) = Undefined.
Proof.
  intros Hv Hkind Hum Hfree Hok Hexec.
  destruct (Nat.lt_ge_cases (String.length (module_path_buffer entry)) 1024)
    as [Hfits|Hover].
  - rewrite (loadModule_bytecode_run w module_name entry h1 h5 code None
               Hkind Hum Hfree Hfits Hok Hexec).
    cbn zeta. by rewrite (proj2 (Z.leb_le 330 _) Hv).
  - by apply (loadModule_bytecode_overflow w module_name entry h1 code).
Qed.

Lemma module_heap_finish_load (module_name : string) (w : World) :
  module_heap (host (snd (finish_load module_name w))) = module_heap (host w).
Proof. unfold finish_load. by repeat case_step. Qed.

(** X14: when the path of a bytecode entry fits the 1024 bytes of [buffer]
    and its execution gives an object, the heap after the load is the one the
    execution left, but for the loader stored as [__loader__] of that object
    from Python 3.3 on; before 3.3 nothing is stored. *)
Theorem loader_attribute_by_version (w : World) (module_name : string)
    (entry : Entry.t) (h1 h5 : Host) (code : CodeObject) (m : PyObj) :
  is_bytecode_entry entry = true →
  PyMarshal_ReadObjectFromString E (Entry.bytecode_str entry)
    (Entry.bytecode_size entry) (host w) = (h1, Some code) →
  sys_modules h1 !! Entry.name entry = None →
  (String.length (module_path_buffer entry) < 1024)%nat →
  (∀ c h, host_call_fails E c h = false) →
  PyImport_ExecCodeModuleEx E (Entry.name entry) code (source_path entry)
    (prepared_state entry h1) = (h5, Some m) →
  module_heap (host (snd (loadModule module_name entry w)))
  = module_heap (if 330 <=? PYTHON_VERSION B
                 then store_attr m "__loader__" (PyLoader <$> metapath_based_loader w) h5
                 else h5).
Proof.
  intros Hkind Hum Hfree Hfits Hok Hexec.
  rewrite (loadModule_bytecode_run w module_name entry h1 h5 code (Some m)
             Hkind Hum Hfree Hfits Hok Hexec).
  cbn zeta. destruct (330 <=? PYTHON_VERSION B); by rewrite module_heap_finish_load.
Qed.

(** *** What a load returns *)

Section Early.

Context {R : Type} (P : R → Prop).

Lemma early_ret {A} (a : A) : early P (mret a : Stmt R A).
Proof. by intros w r w' [=]. Qed.

Lemma early_return {A} (r : R) : P r → early P (return_ r : Stmt R A).
Proof. by intros H w r' w' [= <- _]. Qed.

Lemma early_abort {A} : early P (abort : Stmt R A).
Proof. by intros w r w' [=]. Qed.

Lemma early_undefined {A} : early P (undefined : Stmt R A).
Proof. by intros w r w' [=]. Qed.

Lemma early_char_array (size : nat) (s : string) :
  early P (char_array size s : Stmt R unit).
Proof. intros w r w'. unfold char_array. by destruct (_ <? _)%nat. Qed.

Lemma early_assert (b : bool) : early P (assert b : Stmt R unit).
Proof. intros w r w'. unfold assert. by destruct b. Qed.

Lemma early_get : early P (get : Stmt R World).
Proof. by intros w r w' [=]. Qed.

Lemma early_gets {A} (f : Host → A) : early P (gets f : Stmt R A).
Proof. by intros w r w' [=]. Qed.

Lemma early_modify_host (f : Host → Host) : early P (modify_host f : Stmt R unit).
Proof. by intros w r w' [=]. Qed.

Lemma early_emit (ev : Event) : early P (emit ev : Stmt R unit).
Proof. by intros w r w' [=]. Qed.

Lemma early_call_host {A} (ev : Event) (f : Host → Host * A) :
  early P (call_host ev f : Stmt R A).
Proof. intros w r w'. unfold call_host. by destruct (f (host w)). Qed.

Lemma early_bind {A C} (m : Stmt R A) (f : A → Stmt R C) :
  early P m → (∀ a, early P (f a)) → early P (m ≫= f).
Proof.
  intros Hm Hf w r w'. unfold mbind, Stmt_bind. specialize (Hm w).
  destruct (m w) as [[a|r1| | |] w1]; cbn; try done.
  - apply Hf.
  - intros [= <- <-]. by eapply Hm.
Qed.

Lemma early_call {A} (f : Fn A) : early P (call f : Stmt R A).
Proof. intros w r w'. unfold call. by destruct (f w) as [[a| | |] w1]. Qed.

End Early.

Ltac early_step :=
  first
    [ apply early_bind; [|intros ?]
    | apply early_ret | apply early_return; reflexivity | apply early_abort
    | apply early_undefined | apply early_assert | apply early_get
    | apply early_gets | apply early_modify_host | apply early_call
    | apply early_emit | apply early_call_host | apply early_char_array
    | match goal with
      | |- early _ (if ?b then _ else _) => destruct b
      | |- early _ (match ?x with _ => _ end) => destruct x
      end ].

Lemma function_bind_Returns {A R} (m : Stmt R A) (f : A → Stmt R R) (w w' : World)
    (r : R) :
  function (m ≫= f) w = (Returns r, w') →
  m w = (Return r, w') ∨ ∃ a w1, m w = (Next a, w1) ∧ function (f a) w1 = (Returns r, w').
Proof.
  unfold function, mbind, Stmt_bind.
  destruct (m w) as [[a|r1| | |] w1]; cbn; try done.
  - intros H. right. by exists a, w1.
  - intros [= <- <-]. by left.
Qed.

(** X15: whatever the kind of the entry, an object that [loadModule] returns
    is the one the module table holds under the requested name when the load
    ends, and no error is signalled then. *)
Theorem load_returns_table_entry (module_name : string) (entry : Entry.t)
    (w w' : World) (o : PyObj) :
  loadModule module_name entry w = (Returns (Some o), w') →
  sys_modules (host w') !! module_name = Some o ∧ error_indicator (host w') = None.
Proof.
  unfold loadModule. intros H. apply function_bind_Returns in H as [H|(a & w1 & _ & H)].
  - exfalso. revert H.
    match goal with |- ?m w = _ → _ =>
      assert (Hearly : early (λ r : option PyObj, r = None) m) end.
    { unfold PyModule_New, PyDict_SetItemString_modules, PyDict_GetItemString_modules,
        PyList_New, PyList_SetItem, PyObject_SetAttr, PyErr_SetObject, resources,
        PyErr_Print, call_python_initfunc.
      repeat early_step. }
    intros H. by apply Hearly in H.
  - revert H. unfold ERROR_OCCURRED, LOOKUP_SUBSCRIPT, PyErr_SetObject. run.
    destruct (error_indicator (host w1)) eqn:Herr; cbn; [done|].
    destruct (sys_modules (host w1) !! module_name) eqn:Hm; cbn; [|done].
    by intros [= <- <-].
Qed.

(** *** Entries with an init function *)

Lemma loadModule_compiled_run (module_name : string) (entry : Entry.t) (f : InitFunc)
    (w : World) :
  is_compiled_entry entry = true →
  has_flag entry (NUITKA_SHLIB_FLAG B) = false →
  Entry.python_initfunc entry = Some f →
  loadModule module_name entry w = finish_load module_name (initialized entry f w).
Proof.
  intros Hkind Hflag Hf. unfold is_compiled_entry, is_shlib_entry in Hkind.
  apply andb_true_iff in Hkind as [Hshlib Hbc]. apply negb_true_iff in Hshlib, Hbc.
  unfold loadModule, finish_load, initialized. rewrite Hshlib, Hbc, Hflag.
  unfold call_python_initfunc, ERROR_OCCURRED, LOOKUP_SUBSCRIPT, PyErr_SetObject.
  rewrite Hf. run.
  by repeat case_step.
Qed.

(** X16: an entry that is neither shared library nor bytecode is loaded by
    one call of its init function and nothing else; the load returns NULL
    when the init function leaves an error, else what the module table then
    holds under the requested name. *)
Theorem compiled_entry_load (module_name : string) (entry : Entry.t) (f : InitFunc)
    (w : World) :
  is_compiled_entry entry = true →
  has_flag entry (NUITKA_SHLIB_FLAG B) = false →
  Entry.python_initfunc entry = Some f →
  let h := run_initfunc E f (host w) in
  let result := loadModule module_name entry w in
  trace (snd result) = trace w ++ [(EvInitFunc (Entry.name entry) f, host w)]
  ∧ fst result = Returns (match error_indicator h with
                          | Some _ => None
                          | None => sys_modules h !! module_name
                          end).
Proof.
  intros Hkind Hflag Hf. cbn zeta.
  rewrite (loadModule_compiled_run module_name entry f w Hkind Hflag Hf).
  unfold finish_load, initialized. cbn.
  destruct (error_indicator (run_initfunc E f (host w))); cbn; [done|].
  by destruct (sys_modules (run_initfunc E f (host w)) !! module_name).
Qed.

(** X17: an entry without the bytecode flag that has the shared library flag
    although the build is not standalone, or that has no init function, makes
    the load end in a failed assertion before anything is called. *)
Theorem malformed_compiled_entry_fails_assertion (module_name : string)
    (entry : Entry.t) (w : World) :
  is_compiled_entry entry = true →
  has_flag entry (NUITKA_SHLIB_FLAG B) = true ∨ Entry.python_initfunc entry = None →
  loadModule module_name entry w = (AssertionFailed, w).
Proof.
  intros Hkind Hbad. unfold is_compiled_entry, is_shlib_entry in Hkind.
  apply andb_true_iff in Hkind as [Hshlib Hbc]. apply negb_true_iff in Hshlib, Hbc.
  unfold loadModule. rewrite Hshlib, Hbc. run.
  destruct (has_flag entry (NUITKA_SHLIB_FLAG B)); cbn; [done|].
  destruct Hbad as [?|Hf]; [done|]. by rewrite Hf.
Qed.

(** *** The registration, step by step *)

Ltac register_step :=
  match goal with
  | |- context [host_call_fails E ?c ?h] => destruct (host_call_fails E c h); cbn
  | |- context [330 <=? PYTHON_VERSION B] => destruct (330 <=? PYTHON_VERSION B); cbn
  | |- context [340 <=? PYTHON_VERSION B] => destruct (340 <=? PYTHON_VERSION B); cbn
  | |- context [PYTHON_VERSION B <? 330] => destruct (PYTHON_VERSION B <? 330); cbn
  end.

(** X18: when no allocation fails, the first registration makes a loader
    class with the methods [find_module], [load_module] and [is_package], the
    key [__module__] from Python 3.3 on and the methods [module_repr] and
    [find_spec] from 3.4 on, and puts it into [sys.meta_path] at the front
    before 3.3 and at index 2 from 3.3 on; nothing else of the interpreter
    changes. *)
Theorem first_registration_installs_loader (w : World) (p : option positive) :
  loader_entries w = None →
  (∀ c h, host_call_fails E c h = false) →
  let cls := {| loader_methods := method_names |} in
  registerMetaPathBasedUnfreezer p w
  = (Returns tt,
     mkWorld (with_sys_meta_path
                (list_insert_at meta_path_index (PyLoader cls) (sys_meta_path (host w)))
                (host w))
             p (Some cls)
             (trace w ++ [(EvMetaPathInsert meta_path_index (PyLoader cls), host w)])).
Proof.
  intros Hnone Hok.
  unfold registerMetaPathBasedUnfreezer, CHECK_OBJECT, PyDict_New, PyCFunction_New,
    method_dict_set, PyList_Insert_meta_path, resources, set_loader_entries,
    set_metapath_based_loader, PyErr_SetObject, method_names, meta_path_index,
    list_insert_at.
  run. rewrite Hnone. cbn. repeat (rewrite Hok; cbn).
  assert (Hv : PYTHON_VERSION B < 330 ∨ 330 ≤ PYTHON_VERSION B < 340
               ∨ 340 ≤ PYTHON_VERSION B) by lia.
  destruct Hv as [Hv|[Hv|Hv]].
  - rewrite (proj2 (Z.leb_gt 330 _)), (proj2 (Z.leb_gt 340 _)),
      (proj2 (Z.ltb_lt _ 330)) by lia.
    cbn. repeat (rewrite Hok; cbn). done.
  - rewrite (proj2 (Z.leb_le 330 _)), (proj2 (Z.leb_gt 340 _)),
      (proj2 (Z.ltb_ge _ 330)) by lia.
    cbn. repeat (rewrite Hok; cbn). done.
  - rewrite (proj2 (Z.leb_le 330 _)), (proj2 (Z.leb_le 340 _)),
      (proj2 (Z.ltb_ge _ 330)) by lia.
    cbn. repeat (rewrite Hok; cbn). done.
Qed.

(** X19: a first registration that returns has made the loader class and put
    it into [sys.meta_path] at its index, whatever failed on the way: a failed
    allocation of the dictionary, of a method or of the class ends in a failed
    assertion, and a failed insertion into the dictionary only leaves the
    class without that method. *)
Theorem registration_returns_only_with_loader (w w' : World) (p : option positive) :
  loader_entries w = None →
  registerMetaPathBasedUnfreezer p w = (Returns tt, w') →
  loader_entries w' = p
  ∧ ∃ cls, metapath_based_loader w' = Some cls
      ∧ loader_methods cls ⊆ method_names
      ∧ sys_meta_path (host w')
        = list_insert_at meta_path_index (PyLoader cls) (sys_meta_path (host w)).
Proof.
  intros Hnone.
  unfold registerMetaPathBasedUnfreezer, CHECK_OBJECT, PyDict_New, PyCFunction_New,
    method_dict_set, PyList_Insert_meta_path, resources, set_loader_entries,
    set_metapath_based_loader, PyErr_SetObject, method_names, meta_path_index,
    list_insert_at.
  run. rewrite Hnone. cbn.
  repeat (register_step; try done).
  all: intros [= <-]; cbn; (split; [done|]).
  all: eexists; (split; [reflexivity|]); cbn; (split; [|done]).
  all: intros x Hx; rewrite ?elem_of_cons, ?elem_of_nil in *; tauto.
Qed.

(** *** What the finders leave alone *)


(** *** NULL and the error indicator *)

(** X21: when [callIntoShlibModule] returns NULL an error is signalled: every
    path to NULL sets one. *)
Theorem shlib_null_result_signals_error (full_name filename : string) (w w' : World) :
  callIntoShlibModule full_name filename w = (Returns None, w') →
  is_Some (error_indicator (host w')).
Proof.
  rewrite callIntoShlibModule_run.
  destruct (open_library E filename _ _) as [lib|]; [|by intros [= <-]; cbn; eauto].
  destruct (find_symbol E lib _) as [ep|]; [|done].
  unfold function, initialize_extension_module, PyErr_SetObject,
    PyDict_GetItemString_modules, PyModule_GetDef, PyModule_AddStringConstant, fixup,
    CLEAR_ERROR_OCCURRED, resources, PyErr_SetObject.
  run.
  repeat shlib_step.
  all: intros [= <-]; cbn; eauto.
Qed.

(** X22: when [loadModule] returns NULL an error is signalled, whatever the
    kind of the entry. *)
Theorem load_null_result_signals_error (module_name : string) (entry : Entry.t)
    (w w' : World) :
  loadModule module_name entry w = (Returns None, w') →
  is_Some (error_indicator (host w')).
Proof.
  unfold loadModule.
  destruct (_NUITKA_STANDALONE B && has_flag entry (NUITKA_SHLIB_FLAG B)).
  - unfold ERROR_OCCURRED, LOOKUP_SUBSCRIPT, PyErr_SetObject. run.
    array_step; [|done].
    destruct (callIntoShlibModule _ _ w) as [[r| | |] w1]; cbn; try done.
    destruct (error_indicator (host w1)) eqn:Herr; cbn.
    + intros [= <-]. rewrite Herr. eauto.
    + destruct (sys_modules (host w1) !! module_name); cbn; [done|].
      intros [= <-]; cbn; eauto.
  - destruct (has_flag entry (NUITKA_BYTECODE_FLAG B)).
    + unfold PyModule_New, PyDict_SetItemString_modules, PyDict_GetItemString_modules,
        PyList_New, PyList_SetItem, PyObject_SetAttr, resources, PyErr_SetObject,
        PyErr_Print, ERROR_OCCURRED, LOOKUP_SUBSCRIPT.
      run.
      destruct (PyMarshal_ReadObjectFromString E _ _ (host w)) as [h1 [code|]]; cbn;
        [|done].
      repeat first [ array_step | case_step ].
      all: try done.
      all: intros [= <-]; cbn; eauto.
    + unfold call_python_initfunc, ERROR_OCCURRED, LOOKUP_SUBSCRIPT, PyErr_SetObject.
      run.
      destruct (has_flag entry (NUITKA_SHLIB_FLAG B)); cbn; [done|].
      destruct (Entry.python_initfunc entry) as [f|]; cbn; [|done].
      destruct (error_indicator (run_initfunc E f (host w))) eqn:Herr; cbn.
      * intros [= <-]. cbn. rewrite Herr. eauto.
      * destruct (sys_modules _ !! module_name); cbn; [done|].
        intros [= <-]; cbn; eauto.
Qed.

(** *** Extension modules *)

Lemma module_def_store_attr (h : Host) (o : PyObj) (attr : string) (v : option PyObj)
    (m : PyObj) :
  module_def (store_attr o attr v h) m = module_def h m.
Proof.
  destruct o, m; cbn; try done.
  destruct (decide (addr = addr0)) as [->|Hne].
  - rewrite lookup_alter_eq. by destruct (module_heap h !! addr0).
  - by rewrite lookup_alter_ne.
Qed.

Lemma module_def_store_m_init (h : Host) (m : PyObj) (ep : option EntryPoint) :
  is_Some (module_def h m) → module_def (store_m_init m ep h) m = Some ep.
Proof.
  destruct m; cbn; try by intros [? [=]].
  rewrite lookup_alter_eq. destruct (module_heap h !! addr); cbn; [done|by intros [? [=]]].
Qed.

Lemma attr_of_store_attr (h : Host) (m : PyObj) (attr : string) (v : PyObj) :
  is_Some (module_def h m) → attr_of (store_attr m attr (Some v) h) m attr = Some v.
Proof.
  destruct m; cbn; try by intros [? [=]].
  rewrite lookup_alter_eq. destruct (module_heap h !! addr); cbn; [|by intros [? [=]]].
  intros _. apply lookup_insert_eq.
Qed.

Lemma module_def_with_sys_modules (h : Host) (m : PyObj)
    (f : gmap string PyObj → gmap string PyObj) :
  module_def (with_sys_modules f h) m = module_def h m.
Proof. by destruct m. Qed.

Lemma attr_of_with_sys_modules (h : Host) (m : PyObj) (attr : string)
    (f : gmap string PyObj → gmap string PyObj) :
  attr_of (with_sys_modules f h) m attr = attr_of h m attr.
Proof. by destruct m. Qed.

Lemma is_module_of_def (h : Host) (m : PyObj) :
  is_Some (module_def h m) → is_module m = true.
Proof. destruct m; cbn; try done; by intros [? [=]]. Qed.

(** X23: from Python 3 on, a module that [callIntoShlibModule] returns is the
    object the entry point gave, with the entry point stored as the [m_init]
    of its definition; and it has the file name as [__file__] when the
    interpreter could store it. *)
Theorem extension_module_gets_file_and_init (full_name filename : string)
    (w w' : World) (m : PyObj) :
  300 ≤ PYTHON_VERSION B →
  callIntoShlibModule full_name filename w = (Returns (Some m), w') →
  ∃ lib ep,
    open_library E filename (open_flags (host w)) (open_state (host w)) = Some lib
    ∧ find_symbol E lib (entry_function_name (leaf_name full_name)) = Some ep
    ∧ module_def (host w') m = Some (Some ep)
    ∧ ((∀ h, host_call_fails E HC_PyModule_AddStringConstant h = false) →
       attr_of (host w') m "__file__" = Some (PyStr filename)).
Proof.
  intros Hv. rewrite callIntoShlibModule_run.
  destruct (open_library E filename _ _) as [lib|]; [|done].
  destruct (find_symbol E lib _) as [ep|] eqn:Hsym; [|done].
  intros H. exists lib, ep. split; [done|]. split; [done|]. revert H.
  unfold function, initialize_extension_module, PyErr_SetObject,
    PyDict_GetItemString_modules, PyModule_GetDef, PyModule_AddStringConstant, fixup,
    CLEAR_ERROR_OCCURRED, resources, PyErr_SetObject.
  rewrite (proj2 (Z.ltb_ge _ 300)) by lia.
  run.
  repeat shlib_step.
  all: try done.
  all: intros [= <- <-]; cbn.
  all: match goal with
       | H : module_def ?h ?m = Some ?d |- _ =>
           assert (Hdef : is_Some (module_def h m)) by (rewrite H; eauto)
       end.
  all: try (apply is_module_of_def in Hdef; congruence).
  all: split; [|intros Hok].
  all: try match goal with
           | H : host_call_fails E ?c ?h = true |- _ => by rewrite Hok in H
           end.
  all: rewrite ?module_def_with_sys_modules, ?attr_of_with_sys_modules,
         ?module_def_store_attr.
  all: try by apply module_def_store_m_init.
  all: apply attr_of_store_attr; rewrite module_def_store_m_init; eauto.
Qed.

(** X24: when the entry point leaves no module (before Python 3: none under
    the full name in the module table; from Python 3 on: a NULL result),
    [callIntoShlibModule] returns NULL with the [SystemError] that the dynamic
    module was not initialised properly, replacing any error of the entry
    point; from Python 3 on an object without a module definition is turned
    down with a [SystemError] that names the file. *)
Theorem uninitialized_extension_module_is_reported (full_name filename : string)
    (w : World) (lib : LibHandle) (ep : EntryPoint) (h : Host) (r : option PyObj) :
  open_library E filename (open_flags (host w)) (open_state (host w)) = Some lib →
  find_symbol E lib (entry_function_name (leaf_name full_name)) = Some ep →
  run_entrypoint E ep
    (with_package_context (package_of full_name) (resolved_state (host w))) = (h, r) →
  let module := if PYTHON_VERSION B <? 300 then sys_modules h !! full_name else r in
  let result := callIntoShlibModule full_name filename w in
  (module = None →
   fst result = Returns None
   ∧ error_indicator (host (snd result))
     = Some (SystemError "dynamic module not initialized properly"))
  ∧ (∀ m, 300 ≤ PYTHON_VERSION B → module = Some m → module_def h m = None →
     fst result = Returns None
     ∧ error_indicator (host (snd result))
       = Some (SystemError ("initialization of " +:+ filename +:+
                            " did not return an extension module"))).
Proof.
  intros Hopen Hsym Hrun. cbn zeta.
  rewrite callIntoShlibModule_run, Hopen, Hsym.
  unfold function, initialize_extension_module, PyErr_SetObject,
    PyDict_GetItemString_modules, PyModule_GetDef.
  run. unfold resolved. cbn. rewrite Hrun. cbn.
  split.
  - intros Hnone. destruct (PYTHON_VERSION B <? 300); cbn; by rewrite Hnone.
  - intros m Hv Hm Hdef. rewrite (proj2 (Z.ltb_ge _ 300)) in * by lia. cbn.
    rewrite Hm. cbn.
    replace (module_def _ m) with (module_def h m) by by destruct m.
    by rewrite Hdef.
Qed.

(** X25: on Windows the error mode is set to [SEM_FAILCRITICALERRORS] for
    the opening of the library and set back after the look-up of the symbol,
    so that the entry point runs under the caller's error mode; when the
    library does not open, the function returns without setting it back. *)
Theorem windows_error_mode_restored_only_when_library_opens
    (full_name filename : string) (w : World) :
  _WIN32 B = true →
  let result := callIntoShlibModule full_name filename w in
  match open_library E filename LOAD_WITH_ALTERED_SEARCH_PATH
          (with_error_mode SEM_FAILCRITICALERRORS (host w)) with
  | None => error_mode (host (snd result)) = SEM_FAILCRITICALERRORS
  | Some lib =>
      ∃ evs, trace (snd result) = trace w ++ evs
        ∧ Forall (λ x, is_entry_point_call (fst x) →
                       error_mode (snd x) = error_mode (host w)) evs
  end.
Proof.
  intros Hwin. cbn zeta. rewrite callIntoShlibModule_run.
  unfold open_flags, open_state. rewrite Hwin.
  destruct (open_library E filename _ _) as [lib|]; [|done].
  destruct (find_symbol E lib _) as [ep|].
  - pose proof (initialize_extension_module_context full_name filename
                  (package_of full_name) ep (resolved full_name filename lib w))
      as [_ (evs & Htr & Hall)].
    unfold function.
    destruct (initialize_extension_module _ _ _ _ _) as [[a|r| | |] w1]; cbn in *.
    all: rewrite Htr; unfold resolved; cbn; rewrite <- app_assoc; cbn.
    all: eexists; (split; [reflexivity|]).
    all: repeat (constructor; [by cbn|]).
    all: constructor;
      [ intros _; cbn; unfold resolved_state, open_state; by rewrite Hwin
      | eapply Forall_impl; [exact Hall|]; intros x [_ Hx] Hep; by destruct Hx ].
  - unfold resolved. cbn. eexists. split; [reflexivity|].
    by repeat constructor.
Qed.

End Loader.

(** ** The statements at sample inputs *)

Module Samples.
Import Sample.

(** *** Sample runs *)

Example load_package_events :
  fst <$> trace (snd (loadModule posix_py27 env "app" e_app registered))
  = [EvUnmarshal [99; 0] 2; EvModuleNew "app" 1; EvSetModule "app" (PyModule 1);
     EvSetAttr (PyModule 1) "__path__" (Some (PyList [Some (PyStr "/opt/dist/app")]));
     EvExecCodeModule "app" 1%positive "/opt/dist/app/__init__.py"].
Proof. reflexivity. Qed.

Example load_plain_module_events :
  fst <$> trace (snd (loadModule posix_py27 env "app.util" e_app_util registered))
  = [EvUnmarshal [99; 1] 2; EvModuleNew "app.util" 1;
     EvSetModule "app.util" (PyModule 1);
     EvExecCodeModule "app.util" 1%positive "/opt/dist/app/util.py"].
Proof. reflexivity. Qed.

Example load_extension_module_events :
  fst <$> trace (snd (IMPORT_COMPILED_MODULE posix_py35 env "pkg.sub.ext" "pkg.sub.ext"
                        registered))
  = [EvOpenLibrary "/opt/dist/pkg/sub/ext.so" 2; EvFindSymbol 1%positive "PyInit_ext";
     EvEntryPoint 1%positive;
     EvSetAttr (PyModule 100) "__file__" (Some (PyStr "/opt/dist/pkg/sub/ext.so"));
     EvFixupExtension (Some (PyModule 100)) "pkg.sub.ext" "/opt/dist/pkg/sub/ext.so"].
Proof. reflexivity. Qed.

Example load_frozen_module_events :
  fst <$> trace (snd (IMPORT_COMPILED_MODULE posix_py35 env "__hello__" "__hello__"
                        registered))
  = [EvImportFrozen "__hello__"].
Proof. reflexivity. Qed.

Example load_unknown_module :
  IMPORT_COMPILED_MODULE posix_py35 env "os" "os" registered
  = (Returns (Some Py_None), registered).
Proof. reflexivity. Qed.

(** A trigger name of 2048 bytes and a module path of 1024 bytes do not fit
    their arrays. *)
Example trigger_name_past_the_array :
  loadTriggeredModule env (repeat_char 2040 "a"%char) "-preLoad" registered
  = (Undefined, registered).
Proof. by vm_compute. Qed.

Example module_path_past_the_array :
  fst (loadModule posix_py35 env (Entry.name e_long) e_long registered) = Undefined
  ∧ fst <$> trace (snd (loadModule posix_py35 env (Entry.name e_long) e_long registered))
    = [EvUnmarshal [99; 2] 2; EvModuleNew (Entry.name e_long) 1;
       EvSetModule (Entry.name e_long) (PyModule 1)].
Proof. split; by vm_compute. Qed.

(** *** C1 *)

Lemma find_module_claims_iff_known_witness :
  loader_entries registered = Some 1%positive
  ∧ metapath_based_loader registered = Some loader_class
  ∧ _path_unfreezer_find_module env (Parsed (PyStr "app.util")) registered
    = (Returns (Some (PyLoader loader_class)), registered)
  ∧ _path_unfreezer_find_module env (Parsed (PyStr "__hello__")) registered
    = (Returns (Some (PyLoader loader_class)), registered)
  ∧ _path_unfreezer_find_module env (Parsed (PyStr "App")) registered
    = (Returns (Some Py_None), registered).
Proof.
  split; [reflexivity|]. split; [reflexivity|]. split; [|split].
  - apply (find_module_claims_iff_known env registered 1 loader_class "app.util"
             eq_refl eq_refl).
    left. exists e_app_util. split; [|reflexivity]. right. left.
  - apply (find_module_claims_iff_known env registered 1 loader_class "__hello__"
             eq_refl eq_refl).
    right. left.
  - apply (find_module_claims_iff_known env registered 1 loader_class "App"
             eq_refl eq_refl).
    intros [(e & He & Hn)|Hf].
    + cbn in He. repeat (apply elem_of_cons in He as [->|He]; [discriminate Hn|]).
      by apply elem_of_nil in He.
    + cbn in Hf. repeat (apply elem_of_cons in Hf as [Hf|Hf]; [discriminate Hf|]).
      by apply elem_of_nil in Hf.
Defined.

(** *** C9 *)

Lemma find_spec_leaves_frozen_modules_witness :
  loader_entries registered = Some 1%positive
  ∧ (∀ e, e ∈ table_at env 1 → Entry.name e ≠ "__hello__")
  ∧ _path_unfreezer_find_spec env (Parsed (PyStr "__hello__")) registered
    = (Returns (Some Py_None), registered)
  ∧ _path_unfreezer_find_module env (Parsed (PyStr "__hello__")) registered
    = (Returns (Some (PyLoader loader_class)), registered).
Proof.
  assert (Hnone : ∀ e, e ∈ table_at env 1 → Entry.name e ≠ "__hello__").
  { intros e He Hn. cbn in He.
    repeat (apply elem_of_cons in He as [->|He]; [discriminate Hn|]).
    by apply elem_of_nil in He. }
  split; [reflexivity|]. split; [exact Hnone|].
  destruct (find_spec_leaves_frozen_modules env registered 1 "__hello__" eq_refl Hnone)
    as [Hspec Hmodule].
  split; [exact Hspec|]. apply Hmodule; [reflexivity|]. left.
Defined.

(** *** C3 *)

Lemma register_once_witness :
  loader_entries registered = Some 1%positive
  ∧ registerMetaPathBasedUnfreezer posix_py35 env (Some 1%positive) registered
    = (Returns tt, registered)
  ∧ registerMetaPathBasedUnfreezer posix_py35 env (Some 2%positive) registered
    = (AssertionFailed, registered)
  ∧ loader_entries (snd (registerMetaPathBasedUnfreezer posix_py35 env (Some 1%positive)
                           unregistered))
    = Some 1%positive.
Proof.
  split; [reflexivity|]. split; [|split].
  - destruct (register_once posix_py35 env registered (Some 1%positive)) as [Hsecond _].
    by apply (Hsecond 1%positive eq_refl).
  - destruct (register_once posix_py35 env registered (Some 2%positive)) as [Hsecond _].
    by apply (Hsecond 1%positive eq_refl).
  - destruct (register_once posix_py35 env unregistered (Some 1%positive)) as [_ Hfirst].
    by apply Hfirst.
Defined.

(** *** C2 *)


(** *** C6 *)

Lemma bytecode_package_path_witness :
  is_bytecode_entry posix_py35 e_app = true
  ∧ is_bytecode_entry posix_py35 e_app_util = true
  ∧ (∃ evs,
       trace (snd (loadModule posix_py35 env "app.util" e_app_util registered))
       = trace registered ++ evs
       ∧ ∀ i o v h, evs !! i ≠ Some (EvSetAttr o "__path__" v, h))
  ∧ attr_of (host (snd (loadModule posix_py35 env "app" e_app registered)))
            (PyModule 1) "__path__"
    = Some (PyList [Some (PyStr "/opt/dist/app")]).
Proof.
  split; [reflexivity|]. split; [reflexivity|]. split.
  - destruct (bytecode_package_path posix_py35 env registered "app.util" e_app_util
                eq_refl) as (evs & Htr & Hplain & _).
    exists evs. split; [exact Htr|]. by apply Hplain.
  - destruct (bytecode_package_path posix_py35 env registered "app" e_app eq_refl)
      as (evs & Htr & _ & Hpkg).
    destruct (Hpkg eq_refl) as [_ Hafter].
    destruct (Hafter (PyModule 1) eq_refl) as (i & c & p & h & m & Hi & Hm & Hkeep).
    vm_compute in Htr. subst evs.
    destruct i as [|[|[|[|[|[|[|i]]]]]]]; cbn in Hi; simplify_eq.
    vm_compute in Hm. simplify_eq. by apply Hkeep.
Defined.

(** C6 as the specification words it fails for a package whose code replaces
    [__path__]:
    the load succeeds and the module returned has another value there. *)
Lemma package_path_not_kept_by_every_body :
  is_bytecode_entry posix_py35 e_app = true
  ∧ has_flag e_app (NUITKA_PACKAGE_FLAG posix_py35) = true
  ∧ fst (loadModule posix_py35 env_path_clearing "app" e_app registered)
    = Returns (Some (PyModule 1))
  ∧ attr_of (host (snd (loadModule posix_py35 env_path_clearing "app" e_app registered)))
            (PyModule 1) "__path__"
    = Some (PyList [])
  ∧ Some (PyList []) ≠ Some (package_path posix_py35 env_path_clearing e_app).
Proof. repeat split; try reflexivity. discriminate. Qed.

(** *** C7 *)

Lemma shlib_open_failure_recoverable_missing_symbol_asserted_witness :
  open_library env_closed "/opt/dist/pkg/sub/ext.so" 2 interpreter = None
  ∧ open_library env_stripped "/opt/dist/pkg/sub/ext.so" 2 interpreter = Some 1%positive
  ∧ find_symbol env_stripped 1%positive "PyInit_ext" = None
  ∧ fst (callIntoShlibModule posix_py35 env_closed "pkg.sub.ext"
           "/opt/dist/pkg/sub/ext.so" registered)
    = Returns None
  ∧ error_indicator
      (host (snd (callIntoShlibModule posix_py35 env_closed "pkg.sub.ext"
                    "/opt/dist/pkg/sub/ext.so" registered)))
    = Some (ImportError "unknown dlopen() error")
  ∧ fst (callIntoShlibModule posix_py35 env_stripped "pkg.sub.ext"
           "/opt/dist/pkg/sub/ext.so" registered)
    = AssertionFailed.
Proof.
  split; [reflexivity|]. split; [reflexivity|]. split; [reflexivity|].
  destruct (shlib_open_failure_recoverable_missing_symbol_asserted posix_py35 env_closed
              registered "pkg.sub.ext" "/opt/dist/pkg/sub/ext.so") as [Hclosed _].
  destruct (shlib_open_failure_recoverable_missing_symbol_asserted posix_py35 env_stripped
              registered "pkg.sub.ext" "/opt/dist/pkg/sub/ext.so") as [_ Hstripped].
  destruct (Hclosed eq_refl) as [Hret Herr].
  destruct (Hstripped 1%positive eq_refl eq_refl) as [Hassert _].
  split; [exact Hret|]. split; [exact Herr|]. exact Hassert.
Defined.

(** *** C8 *)

Lemma package_context_saved_and_restored_witness :
  _Py_PackageContext
    (host (snd (callIntoShlibModule posix_py35 env "pkg.sub.ext"
                  "/opt/dist/pkg/sub/ext.so" registered)))
  = None
  ∧ ∃ i h,
      trace (snd (callIntoShlibModule posix_py35 env "pkg.sub.ext"
                    "/opt/dist/pkg/sub/ext.so" registered)) !! i
      = Some (EvEntryPoint 1%positive, h)
      ∧ _Py_PackageContext h = Some "pkg.sub.ext".
Proof.
  destruct (package_context_saved_and_restored posix_py35 env registered "pkg.sub.ext"
              "/opt/dist/pkg/sub/ext.so") as (Hctx & evs & Htr & Hcall & Hlive).
  split; [exact Hctx|].
  destruct (Hlive 1%positive 1%positive eq_refl eq_refl) as (i & h & Hi).
  exists i, h. split.
  - rewrite Htr. exact Hi.
  - apply (Hcall i 1%positive h Hi).
    unfold CString.contains. cbn. do 3 right. left.
Defined.

(** C8 as the specification words it fails for [pkg.ext]: the entry point
    runs with the context set to the full name, not to the package part
    [pkg]. *)
Lemma package_context_is_not_the_package_part :
  fst <$> trace (snd (callIntoShlibModule posix_py35 env "pkg.ext"
                        "/opt/dist/pkg/ext.so" registered)) !! 2%nat
  = Some (EvEntryPoint 1%positive)
  ∧ (λ x, _Py_PackageContext (snd x))
      <$> trace (snd (callIntoShlibModule posix_py35 env "pkg.ext"
                        "/opt/dist/pkg/ext.so" registered)) !! 2%nat
    = Some (Some "pkg.ext")
  ∧ Some "pkg.ext" ≠ Some "pkg".
Proof. repeat split; try reflexivity. discriminate. Qed.

(** *** C5 *)

Lemma shlib_file_path_and_entry_symbol_witness :
  is_shlib_entry posix_py35 e_ext = true
  ∧ (String.length "/opt/dist/pkg/sub/ext.so" ≤ MAXPATHLEN posix_py35)%nat
  ∧ (String.length "PyInit_ext" < 1024)%nat
  ∧ (∃ rest,
       trace (snd (loadModule posix_py35 env "pkg.sub.ext" e_ext registered))
       = (EvOpenLibrary "/opt/dist/pkg/sub/ext.so" 2, interpreter)
         :: (EvFindSymbol 1%positive "PyInit_ext", interpreter) :: rest)
  ∧ leaf_name "pkg.sub.ext" = "ext".
Proof.
  assert (Hfile : (String.length "/opt/dist/pkg/sub/ext.so" ≤ MAXPATHLEN posix_py35)%nat).
  { apply Nat.leb_le. reflexivity. }
  assert (Hsymbol : (String.length "PyInit_ext" < 1024)%nat).
  { apply Nat.ltb_lt. reflexivity. }
  split; [reflexivity|]. split; [exact Hfile|]. split; [exact Hsymbol|].
  destruct (shlib_file_path_and_entry_symbol posix_py35 env registered "pkg.sub.ext"
              e_ext eq_refl Hfile Hsymbol) as ((rest & Htr & Hsym) & _ & Hleaf & _).
  split.
  - destruct (Hsym 1%positive eq_refl) as (rest' & ->). by exists rest'.
  - apply (Hleaf "pkg.sub" "ext"); [reflexivity|].
    unfold CString.contains. cbn.
    intros Hin. repeat (apply elem_of_cons in Hin as [Hin|Hin]; [discriminate Hin|]).
    by apply elem_of_nil in Hin.
Defined.

(** *** C4 *)

Lemma preload_trigger_once_and_first_witness :
  loader_entries registered = Some 1%positive
  ∧ is_Some (findEntry_scan "foo" (table_at Variants.env_marking 1))
  ∧ (String.length "foo-preLoad" < 2048)%nat
  ∧ ∃ rest,
      trace (snd (IMPORT_COMPILED_MODULE posix_py35 Variants.env_marking "foo" "foo"
                    registered))
      = (EvInitFunc "foo-preLoad" 2%positive, interpreter) :: rest
      ∧ Forall (λ x, ∀ g, fst x ≠ EvInitFunc "foo-preLoad" g) rest
      ∧ loadTriggeredModule Variants.env_marking "foo" "-preLoad" registered
        = (Returns tt,
           mkWorld (with_sys_modules <["initialised" := PyOther 2]> interpreter)
                   (Some 1%positive) (Some loader_class)
                   [(EvInitFunc "foo-preLoad" 2%positive, interpreter)]).
Proof.
  assert (Hfits : (String.length "foo-preLoad" < 2048)%nat).
  { apply Nat.ltb_lt. reflexivity. }
  split; [reflexivity|]. split; [by eexists|]. split; [exact Hfits|].
  destruct (preload_trigger_once_and_first posix_py35 Variants.env_marking registered 1
              "foo" "foo" eq_refl (or_introl (ex_intro _ e_foo eq_refl)) Hfits)
    as [Hfound _].
  exact (Hfound e_foo_preLoad 2%positive eq_refl eq_refl).
Defined.

(** *** C10 *)

Lemma registry_entry_before_frozen_module_witness :
  loader_entries registered = Some 1%positive
  ∧ findEntry_scan "foo" (table_at env 1) = Some e_foo
  ∧ hasFrozenModule "foo" (host registered) = true
  ∧ IMPORT_COMPILED_MODULE posix_py35 env "foo" "foo" registered
    = import_registered posix_py35 env "foo" "foo" e_foo registered
  ∧ ∃ evs,
      trace (snd (IMPORT_COMPILED_MODULE posix_py35 env "foo" "foo" registered))
      = trace registered ++ evs
      ∧ Forall (λ x, ∀ n, fst x ≠ EvImportFrozen n) evs.
Proof.
  split; [reflexivity|]. split; [reflexivity|]. split; [reflexivity|].
  destruct (registry_entry_before_frozen_module posix_py35 env registered 1 "foo" "foo"
              eq_refl) as [Hfound _].
  exact (Hfound e_foo eq_refl).
Defined.

End Samples.

(** ** The further properties at sample inputs *)

Module MoreSamples.
Import Sample Variants.

Lemma findEntry_first_match_witness :
  loader_entries registered = Some 1%positive
  ∧ table_at env 1 = [e_app] ++ e_app_util :: [e_foo; e_foo_preLoad; e_ext]
  ∧ (∀ e, e ∈ [e_app] → Entry.name e ≠ "app.util")
  ∧ findEntry env "app.util" registered = (Returns (Some e_app_util), registered).
Proof.
  assert (Hbefore : ∀ e, e ∈ [e_app] → Entry.name e ≠ "app.util").
  { intros e He. apply list_elem_of_singleton in He as ->. discriminate. }
  split; [reflexivity|]. split; [reflexivity|]. split; [exact Hbefore|].
  exact (findEntry_first_match env "app.util" [e_app] [e_foo; e_foo_preLoad; e_ext]
           e_app_util registered 1 eq_refl eq_refl eq_refl Hbefore).
Defined.

Lemma copyModulenameAsPath_shape_witness :
  copyModulenameAsPath posix_py35 "app" = "app"
  ∧ copyModulenameAsPath posix_py35 "pkg.sub.ext" = "pkg/sub/ext"
  ∧ ¬ CString.contains "."%char (copyModulenameAsPath posix_py35 "pkg.sub.ext").
Proof.
  destruct (copyModulenameAsPath_shape posix_py35 "app") as (_ & Hsame & _).
  destruct (copyModulenameAsPath_shape posix_py35 "pkg.sub.ext") as (_ & _ & Hdots).
  split; [|split; [reflexivity|]].
  - apply Hsame. unfold CString.contains. cbn. intros Hin.
    repeat (apply elem_of_cons in Hin as [Hin|Hin]; [discriminate Hin|]).
    by apply elem_of_nil in Hin.
  - apply Hdots. discriminate.
Defined.

Lemma declined_name_is_not_loaded_witness :
  loader_entries registered = Some 1%positive
  ∧ metapath_based_loader registered = Some loader_class
  ∧ _path_unfreezer_find_module env (Parsed (PyStr "os")) registered
    = (Returns (Some Py_None), registered)
  ∧ IMPORT_COMPILED_MODULE posix_py35 env "os" "os" registered
    = (Returns (Some Py_None), registered)
  ∧ _path_unfreezer_load_module posix_py35 env (Parsed (PyStr "os")) registered
    = (Returns (Some Py_None), registered).
Proof.
  split; [reflexivity|]. split; [reflexivity|]. split; [reflexivity|].
  exact (declined_name_is_not_loaded posix_py35 env registered 1 loader_class "os" "os"
           eq_refl eq_refl eq_refl).
Defined.

Lemma postload_trigger_only_after_success_witness :
  loader_entries registered = Some 1%positive
  ∧ findEntry_scan "app" (table_at env_postLoad 1) = Some e_app
  ∧ findEntry_scan "app-postLoad" (table_at env_postLoad 1) = Some e_app_postLoad
  ∧ (String.length "app-postLoad" < 2048)%nat
  ∧ loadTriggeredModule env_postLoad "app" "-preLoad" registered
    = (Returns tt, registered)
  ∧ fst (loadModule posix_py27 env_postLoad "app" e_app registered)
    = Returns (Some (PyModule 1))
  ∧ fst (IMPORT_COMPILED_MODULE posix_py27 env_postLoad "app" "app" registered)
    = Returns (Some (PyModule 1))
  ∧ fst <$> trace (snd (IMPORT_COMPILED_MODULE posix_py27 env_postLoad "app" "app"
                          registered))
    = (fst <$> trace (snd (loadModule posix_py27 env_postLoad "app" e_app registered)))
      ++ [EvInitFunc "app-postLoad" 3%positive]
  ∧ sys_modules (host (snd (IMPORT_COMPILED_MODULE posix_py27 env_postLoad "app" "app"
                              registered))) !! "initialised"
    = Some (PyOther 3).
Proof.
  assert (Hfits : (String.length "app-postLoad" < 2048)%nat).
  { apply Nat.ltb_lt. reflexivity. }
  split; [reflexivity|]. split; [reflexivity|]. split; [reflexivity|].
  split; [exact Hfits|]. split; [reflexivity|]. split; [reflexivity|].
  pose proof (postload_trigger_only_after_success posix_py27 env_postLoad registered
                registered
                (snd (loadModule posix_py27 env_postLoad "app" e_app registered))
                1 "app" "app" e_app (Some (PyModule 1))
                eq_refl eq_refl Hfits eq_refl eq_refl 3%positive eq_refl) as H.
  cbn zeta in H. change (error_indicator _) with (@None PyExc) in H. cbn match in H.
  rewrite H. split; [reflexivity|]. split; [|reflexivity].
  cbn [snd trace]. by rewrite fmap_app.
Defined.

Lemma frozen_import_answers_witness :
  loader_entries registered = Some 1%positive
  ∧ findEntry_scan "__hello__" (table_at env 1) = None
  ∧ hasFrozenModule "__hello__" (host registered) = true
  ∧ loadTriggeredModule env "__hello__" "-preLoad" registered = (Returns tt, registered)
  ∧ PyImport_ImportFrozenModule env "__hello__" (host registered) = (interpreter, 1)
  ∧ IMPORT_COMPILED_MODULE posix_py35 env "__hello__" "__hello__" registered
    = (Returns (Some Py_None),
       mkWorld (with_error_indicator (Some (KeyError "__hello__")) interpreter)
               (Some 1%positive) (Some loader_class)
               [(EvImportFrozen "__hello__", interpreter)]).
Proof.
  split; [reflexivity|]. split; [reflexivity|]. split; [reflexivity|].
  split; [reflexivity|]. split; [reflexivity|].
  destruct (frozen_import_answers posix_py35 env registered registered 1
              "__hello__" "__hello__" interpreter 1 eq_refl eq_refl eq_refl eq_refl
              eq_refl) as (_ & Hone & _).
  exact (Hone eq_refl).
Defined.

Lemma corrupt_blob_aborts_before_registration_witness :
  is_bytecode_entry posix_py35 e_app = true
  ∧ loadModule posix_py35 env_corrupt "app" e_app registered
    = (Aborted,
       mkWorld interpreter (Some 1%positive) (Some loader_class)
               [(EvUnmarshal [99; 0] 2, interpreter)]).
Proof.
  split; [reflexivity|].
  exact (corrupt_blob_aborts_before_registration posix_py35 env_corrupt registered "app"
           e_app (with_error_indicator (Some (UserError 1)) interpreter)
           eq_refl eq_refl).
Defined.

Lemma loaded_name_is_not_loaded_again_witness :
  is_bytecode_entry posix_py35 e_app = true
  ∧ is_Some (sys_modules (host app_imported) !! "app")
  ∧ loadModule posix_py35 env "app" e_app app_imported
    = (AssertionFailed,
       mkWorld (host app_imported) (Some 1%positive) (Some loader_class)
               [(EvUnmarshal [99; 0] 2, host app_imported)]).
Proof.
  assert (Hthere : is_Some (sys_modules (host app_imported) !! Entry.name e_app)).
  { by eexists. }
  split; [reflexivity|]. split; [exact Hthere|].
  exact (loaded_name_is_not_loaded_again posix_py35 env app_imported "app" e_app
           (host app_imported) 1%positive eq_refl eq_refl Hthere).
Defined.

Lemma bytecode_code_runs_once_with_source_path_witness :
  is_bytecode_entry posix_py35 e_app = true
  ∧ (String.length (module_path_buffer posix_py35 e_app) < 1024)%nat
  ∧ source_path posix_py35 env e_app = "/opt/dist/app/__init__.py"
  ∧ ∃ rest,
      trace (snd (loadModule posix_py35 env "app" e_app registered))
      = trace registered
        ++ bytecode_events posix_py35 env e_app 1%positive interpreter interpreter
        ++ rest
      ∧ Forall (λ x, ∃ o v, fst x = EvSetAttr o "__loader__" v) rest.
Proof.
  assert (Hfits : (String.length (module_path_buffer posix_py35 e_app) < 1024)%nat).
  { apply Nat.ltb_lt. reflexivity. }
  split; [reflexivity|]. split; [exact Hfits|]. split; [reflexivity|].
  exact (bytecode_code_runs_once_with_source_path posix_py35 env registered "app" e_app
           interpreter 1%positive eq_refl eq_refl eq_refl Hfits (λ c h, eq_refl)).
Defined.

Lemma body_error_returns_null_before_330_witness :
  PYTHON_VERSION posix_py27 < 330
  ∧ is_bytecode_entry posix_py27 e_app = true
  ∧ (String.length (module_path_buffer posix_py27 e_app) < 1024)%nat
  ∧ fst (loadModule posix_py27 env_raising "app" e_app registered) = Returns None
  ∧ error_indicator (host (snd (loadModule posix_py27 env_raising "app" e_app
                                  registered)))
    = Some (UserError 2).
Proof.
  assert (Hfits : (String.length (module_path_buffer posix_py27 e_app) < 1024)%nat).
  { apply Nat.ltb_lt. reflexivity. }
  split; [reflexivity|]. split; [reflexivity|]. split; [exact Hfits|].
  pose proof (body_error_returns_null_before_330 posix_py27 env_raising registered "app"
                e_app interpreter
                (fst (PyImport_ExecCodeModuleEx env_raising "app" 1%positive
                        (source_path posix_py27 env_raising e_app)
                        (prepared_state posix_py27 env_raising e_app interpreter)))
                1%positive None (UserError 2)
                eq_refl eq_refl eq_refl eq_refl Hfits (λ c h, eq_refl) eq_refl eq_refl)
    as H.
  rewrite H. split; reflexivity.
Defined.

Lemma null_body_result_is_dereferenced_from_330_witness :
  330 ≤ PYTHON_VERSION posix_py35
  ∧ is_bytecode_entry posix_py35 e_app = true
  ∧ fst (loadModule posix_py35 env_raising "app" e_app registered) = Undefined.
Proof.
  split; [by cbn|]. split; [reflexivity|].
  apply (null_body_result_is_dereferenced_from_330 posix_py35 env_raising registered
           "app" e_app interpreter
           (fst (PyImport_ExecCodeModuleEx env_raising "app" 1%positive
                   (source_path posix_py35 env_raising e_app)
                   (prepared_state posix_py35 env_raising e_app interpreter)))
           1%positive); first [ reflexivity | by cbn ].
Defined.

Lemma loader_attribute_by_version_witness :
  is_bytecode_entry posix_py35 e_app_util = true
  ∧ (String.length (module_path_buffer posix_py35 e_app_util) < 1024)%nat
  ∧ attr_of (host (snd (loadModule posix_py35 env "app.util" e_app_util registered)))
            (PyModule 1) "__loader__"
    = Some (PyLoader loader_class)
  ∧ attr_of (host (snd (loadModule posix_py27 env "app.util" e_app_util registered)))
            (PyModule 1) "__loader__"
    = None.
Proof.
  assert (Hfits : (String.length (module_path_buffer posix_py35 e_app_util) < 1024)%nat).
  { apply Nat.ltb_lt. reflexivity. }
  split; [reflexivity|]. split; [exact Hfits|].
  pose proof (loader_attribute_by_version posix_py35 env registered "app.util" e_app_util
                interpreter
                (fst (PyImport_ExecCodeModuleEx env "app.util" 1%positive
                        (source_path posix_py35 env e_app_util)
                        (prepared_state posix_py35 env e_app_util interpreter)))
                1%positive (PyModule 1)
                eq_refl eq_refl eq_refl Hfits (λ c h, eq_refl) eq_refl) as H35.
  pose proof (loader_attribute_by_version posix_py27 env registered "app.util" e_app_util
                interpreter
                (fst (PyImport_ExecCodeModuleEx env "app.util" 1%positive
                        (source_path posix_py27 env e_app_util)
                        (prepared_state posix_py27 env e_app_util interpreter)))
                1%positive (PyModule 1)
                eq_refl eq_refl eq_refl Hfits (λ c h, eq_refl) eq_refl) as H27.
  unfold attr_of. rewrite H35, H27. split; reflexivity.
Defined.

Lemma load_returns_table_entry_witness :
  loadModule posix_py35 env "app" e_app registered
  = (Returns (Some (PyModule 1)), snd (loadModule posix_py35 env "app" e_app registered))
  ∧ sys_modules (host (snd (loadModule posix_py35 env "app" e_app registered))) !! "app"
    = Some (PyModule 1)
  ∧ error_indicator (host (snd (loadModule posix_py35 env "app" e_app registered)))
    = None.
Proof.
  split; [reflexivity|].
  exact (load_returns_table_entry posix_py35 env "app" e_app registered
           (snd (loadModule posix_py35 env "app" e_app registered)) (PyModule 1)
           eq_refl).
Defined.

Lemma compiled_entry_load_witness :
  is_compiled_entry posix_py35 e_foo = true
  ∧ has_flag e_foo (NUITKA_SHLIB_FLAG posix_py35) = false
  ∧ Entry.python_initfunc e_foo = Some 1%positive
  ∧ trace (snd (loadModule posix_py35 env "foo" e_foo registered))
    = [(EvInitFunc "foo" 1%positive, interpreter)]
  ∧ fst (loadModule posix_py35 env "foo" e_foo registered) = Returns None.
Proof.
  split; [reflexivity|]. split; [reflexivity|]. split; [reflexivity|].
  exact (compiled_entry_load posix_py35 env "foo" e_foo 1%positive registered
           eq_refl eq_refl eq_refl).
Defined.

Lemma malformed_compiled_entry_fails_assertion_witness :
  is_compiled_entry posix_py35 e_empty = true
  ∧ Entry.python_initfunc e_empty = None
  ∧ loadModule posix_py35 env "empty" e_empty registered = (AssertionFailed, registered).
Proof.
  split; [reflexivity|]. split; [reflexivity|].
  apply (malformed_compiled_entry_fails_assertion posix_py35 env "empty" e_empty
           registered eq_refl).
  by right.
Defined.

Lemma first_registration_installs_loader_witness :
  loader_entries unregistered = None
  ∧ registerMetaPathBasedUnfreezer posix_py35 env (Some 1%positive) unregistered
    = (Returns tt,
       mkWorld (with_sys_meta_path
                  [PyLoader {| loader_methods :=
                     ["find_module"; "load_module"; "is_package"; "__module__";
                      "module_repr"; "find_spec"] |}]
                  interpreter)
               (Some 1%positive)
               (Some {| loader_methods :=
                     ["find_module"; "load_module"; "is_package"; "__module__";
                      "module_repr"; "find_spec"] |})
               [(EvMetaPathInsert 2
                   (PyLoader {| loader_methods :=
                     ["find_module"; "load_module"; "is_package"; "__module__";
                      "module_repr"; "find_spec"] |}), interpreter)]).
Proof.
  split; [reflexivity|].
  exact (first_registration_installs_loader posix_py35 env unregistered (Some 1%positive)
           eq_refl (λ c h, eq_refl)).
Defined.

Lemma registration_returns_only_with_loader_witness :
  loader_entries unregistered = None
  ∧ registerMetaPathBasedUnfreezer posix_py27 env (Some 1%positive) unregistered
    = (Returns tt,
       snd (registerMetaPathBasedUnfreezer posix_py27 env (Some 1%positive) unregistered))
  ∧ ∃ cls,
      metapath_based_loader
        (snd (registerMetaPathBasedUnfreezer posix_py27 env (Some 1%positive)
                unregistered)) = Some cls
      ∧ loader_methods cls ⊆ method_names posix_py27
      ∧ sys_meta_path
          (host (snd (registerMetaPathBasedUnfreezer posix_py27 env (Some 1%positive)
                        unregistered)))
        = list_insert_at (meta_path_index posix_py27) (PyLoader cls)
            (sys_meta_path (host unregistered)).
Proof.
  split; [reflexivity|]. split; [reflexivity|].
  exact (proj2 (registration_returns_only_with_loader posix_py27 env unregistered
                  (snd (registerMetaPathBasedUnfreezer posix_py27 env (Some 1%positive)
                          unregistered))
                  (Some 1%positive) eq_refl eq_refl)).
Defined.

Lemma shlib_null_result_signals_error_witness :
  fst (callIntoShlibModule posix_py35 env_closed "pkg.sub.ext" "/opt/dist/pkg/sub/ext.so"
         registered) = Returns None
  ∧ is_Some (error_indicator
               (host (snd (callIntoShlibModule posix_py35 env_closed "pkg.sub.ext"
                             "/opt/dist/pkg/sub/ext.so" registered)))).
Proof.
  split; [reflexivity|].
  exact (shlib_null_result_signals_error posix_py35 env_closed "pkg.sub.ext"
           "/opt/dist/pkg/sub/ext.so" registered
           (snd (callIntoShlibModule posix_py35 env_closed "pkg.sub.ext"
                   "/opt/dist/pkg/sub/ext.so" registered))
           eq_refl).
Defined.

Lemma load_null_result_signals_error_witness :
  fst (loadModule posix_py35 env "nope" e_app registered) = Returns None
  ∧ is_Some (error_indicator
               (host (snd (loadModule posix_py35 env "nope" e_app registered)))).
Proof.
  split; [reflexivity|].
  exact (load_null_result_signals_error posix_py35 env "nope" e_app registered
           (snd (loadModule posix_py35 env "nope" e_app registered)) eq_refl).
Defined.

Lemma extension_module_gets_file_and_init_witness :
  300 ≤ PYTHON_VERSION posix_py35
  ∧ fst (callIntoShlibModule posix_py35 env "pkg.sub.ext" "/opt/dist/pkg/sub/ext.so"
           registered) = Returns (Some (PyModule 100))
  ∧ ∃ lib ep,
      open_library env "/opt/dist/pkg/sub/ext.so"
        (open_flags posix_py35 (host registered)) (open_state posix_py35 (host registered))
      = Some lib
      ∧ find_symbol env lib (entry_function_name posix_py35 (leaf_name "pkg.sub.ext"))
        = Some ep
      ∧ module_def
          (host (snd (callIntoShlibModule posix_py35 env "pkg.sub.ext"
                        "/opt/dist/pkg/sub/ext.so" registered)))
          (PyModule 100) = Some (Some ep)
      ∧ ((∀ h, host_call_fails env HC_PyModule_AddStringConstant h = false) →
         attr_of
           (host (snd (callIntoShlibModule posix_py35 env "pkg.sub.ext"
                         "/opt/dist/pkg/sub/ext.so" registered)))
           (PyModule 100) "__file__" = Some (PyStr "/opt/dist/pkg/sub/ext.so")).
Proof.
  assert (Hv : 300 ≤ PYTHON_VERSION posix_py35) by by cbn.
  split; [exact Hv|]. split; [reflexivity|].
  exact (extension_module_gets_file_and_init posix_py35 env "pkg.sub.ext"
           "/opt/dist/pkg/sub/ext.so" registered
           (snd (callIntoShlibModule posix_py35 env "pkg.sub.ext"
                   "/opt/dist/pkg/sub/ext.so" registered))
           (PyModule 100) Hv eq_refl).
Defined.

Lemma uninitialized_extension_module_is_reported_witness :
  (fst (callIntoShlibModule posix_py35 env_no_module "pkg.sub.ext"
          "/opt/dist/pkg/sub/ext.so" registered) = Returns None
   ∧ error_indicator
       (host (snd (callIntoShlibModule posix_py35 env_no_module "pkg.sub.ext"
                     "/opt/dist/pkg/sub/ext.so" registered)))
     = Some (SystemError "dynamic module not initialized properly"))
  ∧ (fst (callIntoShlibModule posix_py35 env_no_definition "pkg.sub.ext"
            "/opt/dist/pkg/sub/ext.so" registered) = Returns None
     ∧ error_indicator
         (host (snd (callIntoShlibModule posix_py35 env_no_definition "pkg.sub.ext"
                       "/opt/dist/pkg/sub/ext.so" registered)))
       = Some (SystemError
                 "initialization of /opt/dist/pkg/sub/ext.so did not return an extension module")).
Proof.
  split.
  - destruct (uninitialized_extension_module_is_reported posix_py35 env_no_module
                "pkg.sub.ext" "/opt/dist/pkg/sub/ext.so" registered 1%positive 1%positive
                (fst (run_entrypoint env_no_module 1%positive
                        (with_package_context (package_of "pkg.sub.ext")
                           (resolved_state posix_py35 (host registered))))) None
                eq_refl eq_refl eq_refl) as [Hnone _].
    exact (Hnone eq_refl).
  - destruct (uninitialized_extension_module_is_reported posix_py35 env_no_definition
                "pkg.sub.ext" "/opt/dist/pkg/sub/ext.so" registered 1%positive 1%positive
                (fst (run_entrypoint env_no_definition 1%positive
                        (with_package_context (package_of "pkg.sub.ext")
                           (resolved_state posix_py35 (host registered)))))
                (Some (PyStr "ext")) eq_refl eq_refl eq_refl) as [_ Hdef].
    apply (Hdef (PyStr "ext")); [by cbn|reflexivity|reflexivity].
Defined.

Lemma windows_error_mode_restored_only_when_library_opens_witness :
  _WIN32 windows_py35 = true
  ∧ error_mode (host (snd (callIntoShlibModule windows_py35 env_closed "pkg.sub.ext"
                             "C:\dist\pkg\sub\ext.pyd" registered)))
    = SEM_FAILCRITICALERRORS
  ∧ ∃ evs,
      trace (snd (callIntoShlibModule windows_py35 env "pkg.sub.ext"
                    "C:\dist\pkg\sub\ext.pyd" registered))
      = trace registered ++ evs
      ∧ Forall (λ x, is_entry_point_call (fst x) →
                     error_mode (snd x) = error_mode (host registered)) evs.
Proof.
  split; [reflexivity|]. split.
  - exact (windows_error_mode_restored_only_when_library_opens windows_py35 env_closed
             "pkg.sub.ext" "C:\dist\pkg\sub\ext.pyd" registered eq_refl).
  - exact (windows_error_mode_restored_only_when_library_opens windows_py35 env
             "pkg.sub.ext" "C:\dist\pkg\sub\ext.pyd" registered eq_refl).
Defined.

End MoreSamples.
